(** * Route bootstrap pipeline of [server/pages/index.js]

    A shallow embedding of the Express middleware of wp-calypso's page
    server: asset URL generation with hashed version tokens, the default
    rendering context, the logged-in / logged-out set-up handlers, the
    legacy [/sites/:site/:section] rewriter and the route table built from
    the sections manifest.

    JavaScript strings are modelled as [string] (sequences of bytes, read
    as UTF-8), JavaScript objects used as dictionaries as [gmap string _],
    mutable module state and the outside world as an explicit [World]
    threaded through every function.

    Two smaller pieces of the client follow the server: the login
    selectors and the domain check of the signup step [SiteOrDomain]. *)

From Stdlib Require Import ZArith NArith String Ascii List Bool Lia DecimalString.
From stdpp Require Import base option list strings gmap fin_maps.

Open Scope string_scope.
Set Warnings "-register-all".

(** ** JavaScript string primitives *)

Module JS.

(** Truthiness of a value that is either [undefined] or a string. *)
Definition truthy (v : option string) : bool :=
  match v with
  | Some s => negb (String.eqb s EmptyString)
  | None => false
  end.

(** String coercion in a concatenation: [undefined] prints as "undefined". *)
Definition to_str (v : option string) : string :=
  match v with
  | Some s => s
  | None => "undefined"
  end.

(** [strip_prefix p s] is [Some r] when [s = p ++ r]. *)
Fixpoint strip_prefix (p s : string) : option string :=
  match p with
  | EmptyString => Some s
  | String a p' =>
      match s with
      | String b s' => if Ascii.eqb a b then strip_prefix p' s' else None
      | EmptyString => None
      end
  end.

(** [split_first pat s] finds the first occurrence of [pat] in [s] and
    returns what is before and what is after it. *)
Fixpoint split_first (pat s : string) : option (string * string) :=
  match strip_prefix pat s with
  | Some rest => Some (EmptyString, rest)
  | None =>
      match s with
      | EmptyString => None
      | String c s' =>
          match split_first pat s' with
          | Some (b, a) => Some (String c b, a)
          | None => None
          end
      end
  end.

(** The replacement-text expansion of [String.prototype.replace] when the
    pattern has no capture group: [$$], [$&], [$`] and [$'] are special,
    every other character (also [$1]) is copied. *)
Fixpoint get_substitution (matched before after repl : string) : string :=
  match repl with
  | EmptyString => EmptyString
  | String c r =>
      if Ascii.eqb c "$" then
        match r with
        | String d r' =>
            if Ascii.eqb d "$" then String "$" (get_substitution matched before after r')
            else if Ascii.eqb d "&" then matched ++ get_substitution matched before after r'
            else if Ascii.eqb d "`" then before ++ get_substitution matched before after r'
            else if Ascii.eqb d "'" then after ++ get_substitution matched before after r'
            else String c (get_substitution matched before after r)
        | EmptyString => String c EmptyString
        end
      else String c (get_substitution matched before after r)
  end.

(** [s.replace( pat, repl )] with a string pattern: only the first
    occurrence is replaced. *)
Definition replace (pat repl s : string) : string :=
  match split_first pat s with
  | Some (before, after) => before ++ get_substitution pat before after repl ++ after
  | None => s
  end.

(** [s.replace( re, repl )] for a regular expression anchored at the
    start of the string and without capture groups; [re s] returns the
    matched prefix and the rest. *)
Definition replace_anchored (re : string -> option (string * string)) (repl s : string) : string :=
  match re s with
  | Some (matched, after) => get_substitution matched EmptyString after repl ++ after
  | None => s
  end.

Definition in_range (lo hi c : ascii) : bool :=
  (nat_of_ascii lo <=? nat_of_ascii c)%nat && (nat_of_ascii c <=? nat_of_ascii hi)%nat.

Definition is_digit (c : ascii) : bool := in_range "0" "9" c.
Definition is_alpha (c : ascii) : bool := in_range "a" "z" c || in_range "A" "Z" c.

(** The class [\w]. *)
Definition is_word (c : ascii) : bool := is_alpha c || is_digit c || Ascii.eqb c "_".

(** [span p s] splits [s] after its longest prefix of characters in [p]. *)
Fixpoint span (p : ascii -> bool) (s : string) : string * string :=
  match s with
  | EmptyString => (EmptyString, EmptyString)
  | String c s' =>
      if p c then let '(a, b) := span p s' in (String c a, b)
      else (EmptyString, s)
  end.

(** What is left of [s] after a greedy [.*]: the dot stops at a line
    terminator (LF, CR, U+2028, U+2029, the last two as UTF-8). *)
Fixpoint after_dot_star (s : string) : string :=
  match s with
  | EmptyString => EmptyString
  | String c s' =>
      if Ascii.eqb c "010" || Ascii.eqb c "013" then s
      else if Ascii.eqb c "226" then
        match s' with
        | String c1 (String c2 _) =>
            if Ascii.eqb c1 "128" && (Ascii.eqb c2 "168" || Ascii.eqb c2 "169") then s
            else after_dot_star s'
        | _ => after_dot_star s'
        end
      else after_dot_star s'
  end.

Definition hex_digit (upper : bool) (n : N) : ascii :=
  if (n <? 10)%N then ascii_of_N (48 + n)
  else ascii_of_N ((if upper then 55 else 87) + n).

(** [hex_fixed w n]: the last [w] hexadecimal digits of [n], lower case. *)
Fixpoint hex_fixed (w : nat) (n : N) : string :=
  match w with
  | O => EmptyString
  | S w' => hex_fixed w' (n / 16) ++ String (hex_digit false (n mod 16)) EmptyString
  end.

(** Characters that [encodeURIComponent] leaves alone. *)
Definition uri_unreserved (c : ascii) : bool :=
  is_alpha c || is_digit c ||
  existsb (Ascii.eqb c) ["-"; "_"; "."; "!"; "~"; "*"; "'"; "("; ")"]%char.

Fixpoint encodeURIComponent (s : string) : string :=
  match s with
  | EmptyString => EmptyString
  | String c s' =>
      if uri_unreserved c then String c (encodeURIComponent s')
      else
        let n := N_of_ascii c in
        String "%" (String (hex_digit true (n / 16)) (String (hex_digit true (n mod 16))
          (encodeURIComponent s')))
  end.

(** [Number.prototype.toString] of an integer. *)
Definition number_to_string (z : Z) : string := NilZero.string_of_int (Z.to_int z).

(** [s.slice( 0, n )]. *)
Definition slice0 (n : nat) (s : string) : string := String.substring 0 n s.

End JS.


(** ** Data model *)

(** A value of [req.query] as the [qs] parser builds it. *)
Inductive QValue :=
| QStr (s : string)
| QArr (l : list QValue)
| QObj (o : list (string * QValue)).

Definition q_truthy (v : option QValue) : bool :=
  match v with
  | Some (QStr s) => negb (String.eqb s EmptyString)
  | Some _ => true
  | None => false
  end.

(** String coercion of a query value ([Array.prototype.toString] joins
    with commas). *)
Fixpoint q_to_string (v : QValue) : string :=
  match v with
  | QStr s => s
  | QArr l => String.concat "," (List.map q_to_string l)
  | QObj _ => "[object Object]"
  end.

Fixpoint query_get (k : string) (q : list (string * QValue)) : option QValue :=
  match q with
  | [] => None
  | (k', v) :: q' => if String.eqb k k' then Some v else query_get k q'
  end.

(** The keys of [config] that the pipeline reads. *)
Record Config := {
  env : string;
  wpcom_user_bootstrap : bool;
  login_url : string;
  hostname : string;
  i18n_default_locale_slug : string;
  discover_logged_out_redirect_url : string;
  isEnabled : string -> bool
}.

(** An entry of the bundler's asset list, [request.app.get( 'assets' )]. *)
Record Asset := { asset_name : option string; asset_url : string }.

(** The user object returned by the identity service. *)
Record UserData := { isRTL : bool; localeSlug : option string }.

Record ApiError := { error : option string; message : option string }.

Inductive UserReply :=
| ReplyError (e : ApiError)
| ReplyData (d : UserData)
| NoReply.

Record AppInfo := {
  clientIp : option string;
  app_isDebug : bool;
  tinymceWpSkin : option string;
  tinymceEditorCss : option string
}.

(** Values stored in a rendering context. *)
Inductive Value :=
| VBool (b : bool)
| VStr (s : string)
| VUrls (u : gmap string string)
| VUser (d : UserData)
| VApp (a : AppInfo)
| VStore.

Definition falsy (v : option Value) : bool :=
  match v with
  | None => true
  | Some (VBool b) => negb b
  | Some (VStr s) => String.eqb s EmptyString
  | Some _ => false
  end.

Record Request := {
  method : string;
  path : string;
  originalUrl : string;
  query : list (string * QValue);
  cookie_wordpress_logged_in : option string;
  header_Cookie : option string;
  header_X_Forwarded_Proto : option string;
  ip : option string;
  params : gmap string string;
  assets : list Asset;
  context : gmap string Value
}.

Inductive Body :=
| Redirect (url : string)
| Render (view : string) (locals : gmap string Value)
| ServerRendered (locals : gmap string Value).

(** The response as the handlers of this file shape it: the headers
    they set with [res.set], the status code and what was sent, if
    anything. The headers that Express adds on its own when it sends
    the answer ([Location] for a redirect, [Content-Type] and the like)
    are not recorded in [headers]. *)
Record Response := {
  headers : gmap string string;
  status : Z;
  body : option Body
}.

Definition fresh_response : Response :=
  {| headers := ∅; status := 200; body := None |}.

Record SectionEntry := {
  sec_name : string;
  paths : list string;
  sec_module : string;
  isomorphic : bool;
  enableLoggedOut : bool
}.

Record StaticFile := { sf_path : string; sf_hash : option string }.

(** The module variable [sections]: the manifest, until the legacy
    rewriter overwrites it with its list of names. *)
Inductive SectionsVar :=
| Manifest (l : list SectionEntry)
| Names (l : list string).

Inductive Event :=
| EReadFile (file : string)
| EDebug (fmt : string) (args : list string)
| EConsoleLog (msg : string)
| EUserBootstrap (cookie : option string)
| EServerRender.

(** Module state and the log of what the process did. *)
Record World := {
  staticFiles : list StaticFile;
  sections : SectionsVar;
  ticks : nat;
  trace : list Event
}.

Inductive Flow :=
| Next      (* the handler called next() *)
| Ended     (* the handler answered or returned without calling next() *)
| Pending   (* the handler waits for a callback that never comes *)
| Threw.    (* the handler threw *)

Record Outcome := {
  o_req : Request;
  o_res : Response;
  o_world : World;
  o_flow : Flow
}.

Inductive Verb := Use | Get.

Inductive Middleware :=
| MHome
| MLegacyRewriter
| MDiscover
| MPlans
| MTheme
| MSetChunk (name : string)
| MSetUpRoute
| MSetUpLoggedInRoute
| MSetUpLoggedOutRoute
| MServerRender
| MExternal (id : string)
| MRender404.

(** What a route is registered on: a path string given to Express, or
    the value of [utils.pathToRegExp( path )]. *)
Inductive RoutePattern :=
| PString (s : string)
| PSection (declared : string).

Record Route := {
  r_verb : Verb;
  r_pattern : RoutePattern;
  r_handlers : list Middleware
}.

(** Everything the pipeline calls but does not define: libraries, the
    file system, the clock, the identity service and the configuration.
    [md5] gives the digest as a number of 128 bits, [getTime n] is the
    [n]-th reading of the clock, [express_match] is Express's matching
    of a request's method and path (it returns the route parameters). *)
Record Env := {
  config : Config;
  md5 : string -> N;
  qs_stringify : list (string * QValue) -> string;
  readFileSync : string -> option string;
  cwd : string;
  getTime : nat -> Z;
  user_bootstrap : option string -> UserReply;
  express_match : Verb -> RoutePattern -> string -> string -> option (gmap string string);
  isomorphic_routes : SectionEntry -> list Route;
  external : string -> Request -> Response -> World -> Outcome
}.

(** ** State plumbing *)

Definition log (e : Event) (w : World) : World :=
  {| staticFiles := staticFiles w; sections := sections w;
     ticks := ticks w; trace := trace w ++ [e] |}.

(** [new Date().getTime()]: one more reading of the clock. *)
Definition now (E : Env) (w : World) : Z * World :=
  (getTime E (ticks w),
   {| staticFiles := staticFiles w; sections := sections w;
      ticks := S (ticks w); trace := trace w |}).

Definition set_staticFiles (fs : list StaticFile) (w : World) : World :=
  {| staticFiles := fs; sections := sections w; ticks := ticks w; trace := trace w |}.

Definition set_sections (s : SectionsVar) (w : World) : World :=
  {| staticFiles := staticFiles w; sections := s; ticks := ticks w; trace := trace w |}.

Definition set_context (c : gmap string Value) (r : Request) : Request :=
  {| method := method r; path := path r; originalUrl := originalUrl r;
     query := query r; cookie_wordpress_logged_in := cookie_wordpress_logged_in r;
     header_Cookie := header_Cookie r;
     header_X_Forwarded_Proto := header_X_Forwarded_Proto r;
     ip := ip r; params := params r; assets := assets r; context := c |}.

Definition set_params (p : gmap string string) (r : Request) : Request :=
  {| method := method r; path := path r; originalUrl := originalUrl r;
     query := query r; cookie_wordpress_logged_in := cookie_wordpress_logged_in r;
     header_Cookie := header_Cookie r;
     header_X_Forwarded_Proto := header_X_Forwarded_Proto r;
     ip := ip r; params := p; assets := assets r; context := context r |}.

(** [res.set( { name: value } )] *)
Definition res_set (name value : string) (r : Response) : Response :=
  {| headers := <[name := value]> (headers r); status := status r; body := body r |}.

(** [res.status( code )] *)
Definition res_status (code : Z) (r : Response) : Response :=
  {| headers := headers r; status := code; body := body r |}.

(** [res.redirect( url )]: a 302 answer. The [Location] header that
    Express derives from [url] when it sends is not among [headers]
    (see [Response]); no header is set with [res.set]. *)
Definition res_redirect (url : string) (r : Response) : Response :=
  {| headers := headers r; status := 302; body := Some (Redirect url) |}.

(** [res.render( view, locals )]. As for a redirect, the headers that
    Express adds to the page it sends are not among [headers]. *)
Definition res_render (view : string) (locals : gmap string Value) (r : Response) : Response :=
  {| headers := headers r; status := status r; body := Some (Render view locals) |}.

Definition outcome (req : Request) (res : Response) (w : World) (f : Flow) : Outcome :=
  {| o_req := req; o_res := res; o_world := w; o_flow := f |}.

(** ** Asset URLs *)

Definition HASH_LENGTH : nat := 10.
Definition URL_BASE_PATH : string := "/calypso".
Definition SERVER_BASE_PATH : string := "/public".

Definition vendor_file (cfg : Config) : string := "vendor." ++ env cfg ++ ".js".

Definition staticFile_paths (cfg : Config) : list string :=
  [ "style.css"; "editor.css"; "tinymce/skins/wordpress/wp-content.css";
    "style-debug.css"; "style-rtl.css"; vendor_file cfg ].

(** The array [staticFiles] as the module creates it: no hash yet. *)
Definition initial_staticFiles (cfg : Config) : list StaticFile :=
  List.map (fun p => {| sf_path := p; sf_hash := None |}) (staticFile_paths cfg).

Definition initial_world (cfg : Config) (manifest : list SectionEntry) : World :=
  {| staticFiles := initial_staticFiles cfg; sections := Manifest manifest;
     ticks := 0; trace := [] |}.

(** [md5.digest( 'hex' )]: 32 lower-case hexadecimal digits. *)
Definition digest_hex (E : Env) (data : string) : string := JS.hex_fixed 32 (md5 E data).

Definition hashFile (E : Env) (file : string) (w : World) : string * World :=
  let w1 := log (EReadFile file) w in
  match readFileSync E file with
  | Some data => (JS.slice0 HASH_LENGTH (digest_hex E data), w1)
  | None => let '(t, w2) := now E w1 in (JS.number_to_string t, w2)
  end.

Definition getUrl (E : Env) (filename hash : string) : string :=
  URL_BASE_PATH ++ "/" ++ filename ++ "?" ++ qs_stringify E [("v", QStr hash)].

(** The loop over [staticFiles]: fills in the missing hashes and adds
    one URL per file. The keys are the paths of the module's constant
    [staticFiles], none of which is [__proto__]. *)
Fixpoint static_urls (E : Env) (files : list StaticFile) (urls : gmap string string)
    (w : World) : list StaticFile * gmap string string * World :=
  match files with
  | [] => ([], urls, w)
  | f :: rest =>
      let '(h, w1) :=
        if JS.truthy (sf_hash f) then (JS.to_str (sf_hash f), w)
        else hashFile E (cwd E ++ SERVER_BASE_PATH ++ "/" ++ sf_path f) w in
      let '(rest', urls', w2) :=
        static_urls E rest (<[sf_path f := getUrl E (sf_path f) h]> urls) w1 in
      ({| sf_path := sf_path f; sf_hash := Some h |} :: rest', urls', w2)
  end.

(** The pattern [/\/calypso\/(\w+)\..*/] tried at the start of [s]: the
    captured word and what follows the match. *)
Definition chunk_match_here (s : string) : option (string * string) :=
  match JS.strip_prefix "/calypso/" s with
  | Some r =>
      match JS.span JS.is_word r with
      | (EmptyString, _) => None
      | (w, String c r') =>
          if Ascii.eqb c "." then Some (w, JS.after_dot_star r') else None
      | (_, EmptyString) => None
      end
  | None => None
  end.

(** [url.replace( /\/calypso\/(\w+)\..*/, '_$1' )] *)
Fixpoint chunk_name (url : string) : string :=
  match chunk_match_here url with
  | Some (w, after) => "_" ++ w ++ after
  | None =>
      match url with
      | EmptyString => EmptyString
      | String c url' => String c (chunk_name url')
      end
  end.

(** The key under which an asset is stored. *)
Definition asset_key (a : Asset) : string :=
  if JS.truthy (asset_name a) then JS.to_str (asset_name a)
  else chunk_name (asset_url a).

(** [urls[ key ] = value] for a computed key on the object literal
    [urls], whose entries are strings. The map holds the object's own
    properties. An assignment under [__proto__] reaches the setter that
    every object inherits, which ignores a string: nothing is stored. *)
Definition obj_set (key value : string) (urls : gmap string string) : gmap string string :=
  if String.eqb key "__proto__" then urls else <[key := value]> urls.

(** One turn of the loop over the assets. *)
Definition add_asset (cfg : Config) (urls : gmap string string) (a : Asset) : gmap string string :=
  let name := asset_key a in
  let urls1 := obj_set name (asset_url a) urls in
  if negb (String.eqb (env cfg) "development")
  then obj_set (name ++ "-min") (JS.replace ".js" ".m.js" (asset_url a)) urls1
  else urls1.

(** [generateStaticUrls( request )]; [None] stands for the TypeError of
    [urls.vendor.replace] on a missing vendor entry. *)
Definition generateStaticUrls (E : Env) (request : Request) (w : World)
    : option (gmap string string) * World :=
  let '(files, urls, w1) := static_urls E (staticFiles w) ∅ w in
  let w2 := set_staticFiles files w1 in
  match urls !! vendor_file (config E) with
  | None => (None, w2)
  | Some vendor =>
      let urls1 := <["vendor" := vendor]> urls in
      let urls2 := <["vendor-min" := JS.replace ".js" ".m.js" vendor]> urls1 in
      (Some (fold_left (add_asset (config E)) (assets request) urls2), w2)
  end.


(** ** The rendering context *)

Definition is_development (cfg : Config) : bool := String.eqb (env cfg) "development".

(** [getDefaultContext( request )]. The object literal overrides what
    [request.context] already holds; [app] is added afterwards. *)
Definition getDefaultContext (E : Env) (request : Request) (w : World)
    : option (gmap string Value) * World :=
  match generateStaticUrls E request w with
  | (None, w1) => (None, w1)
  | (Some urls, w1) =>
      let isDebug := match query_get "debug" (query request) with
                     | Some _ => true
                     | None => false
                     end in
      let defaults : gmap string Value :=
        <["compileDebug" := VBool (is_development (config E))]>
        (<["urls" := VUrls urls]>
        (<["user" := VBool false]>
        (<["isDebug" := VBool isDebug]>
        (<["lang" := VStr (i18n_default_locale_slug (config E))]>
        (<["jsFile" := VStr "build"]>
        (<["store" := VStore]> ∅)))))) in
      let context0 := defaults ∪ context request in
      let app :=
        {| clientIp := if JS.truthy (ip request)
                       then Some (JS.replace "::ffff:" EmptyString (JS.to_str (ip request)))
                       else ip request;
           app_isDebug := is_development (config E) || isDebug;
           tinymceWpSkin := urls !! "tinymce/skins/wordpress/wp-content.css";
           tinymceEditorCss := urls !! "editor.css" |} in
      (Some (<["app" := VApp app]> context0), w1)
  end.

(** ** The set-up handlers *)

Definition X_FRAME : string := "X-Frame-Options".

Definition setUpLoggedOutRoute (E : Env) (req : Request) (res : Response) (w : World) : Outcome :=
  match getDefaultContext E req w with
  | (None, w1) => outcome req res w1 Threw
  | (Some ctx, w1) => outcome (set_context ctx req) (res_set X_FRAME "SAMEORIGIN" res) w1 Next
  end.

(** String coercion of a context value inside a concatenation. *)
Definition value_to_str (v : option Value) : string :=
  match v with
  | Some (VStr s) => s
  | Some (VBool true) => "true"
  | Some (VBool false) => "false"
  | Some _ => "[object Object]"
  | None => "undefined"
  end.

(** The login URL that carries the way back. *)
Definition login_redirect_url (E : Env) (req : Request) : string :=
  let protocol :=
    match header_X_Forwarded_Proto req with
    | Some p => if String.eqb p "https" then "https" else "http"
    | None => "http"
    end in
  login_url (config E) ++ "?" ++
  qs_stringify E
    [("redirect_to", QStr (protocol ++ "://" ++ hostname (config E) ++ originalUrl req))].

(** [v === s] for a query value. *)
Definition q_is (v : option QValue) (s : string) : bool :=
  match v with
  | Some (QStr s') => String.eqb s' s
  | _ => false
  end.

Definition q_coerce (v : option QValue) : string :=
  match v with
  | Some q => q_to_string q
  | None => "undefined"
  end.

(** The legacy redirects of the root path, tried after a successful
    user fetch; [proceed] is what happens when none applies. *)
Definition root_redirects (E : Env) (req : Request) (res : Response)
    (context : gmap string Value) (w : World) (proceed : Outcome) : Outcome :=
  let searchParam :=
    if q_truthy (query_get "s" (query req))
    then query_get "s" (query req)
    else query_get "q" (query req) in
  if q_truthy searchParam then
    outcome req
      (res_redirect ("https://" ++ value_to_str (context !! "lang")
                     ++ ".search.wordpress.com/?q="
                     ++ JS.encodeURIComponent (q_coerce searchParam)) res)
      w Ended
  else if q_truthy (query_get "newuseremail" (query req)) then
    outcome req
      (res_redirect ("https://wordpress.com/verify-email/?" ++ qs_stringify E (query req)) res)
      (log (EDebug "Detected legacy email verification action. Redirecting..." []) w)
      Ended
  else if q_is (query_get "action" (query req)) "wpcom-invite-users" then
    outcome req
      (res_redirect ("https://wordpress.com/accept-invite/?" ++ qs_stringify E (query req)) res)
      (log (EDebug "Detected legacy invite acceptance action. Redirecting..." []) w)
      Ended
  else proceed.

(** The callback given to [user( cookie, callback )], run on the reply of
    the identity service. *)
Definition user_callback (E : Env) (req : Request) (res : Response)
    (context : gmap string Value) (redirectUrl : string) (start : Z)
    (reply : UserReply) (w : World) : Outcome :=
  match reply with
  | NoReply => outcome req res w Pending
  | ReplyError e =>
      if match error e with
         | Some c => String.eqb c "authorization_required"
         | None => false
         end
      then
        let w1 := log (EDebug "User public API authorization required. Redirecting to %s"
                         [redirectUrl]) w in
        outcome req (res_redirect redirectUrl res) w1 Ended
      else
        let errorMessage :=
          if JS.truthy (error e)
          then JS.to_str (error e) ++ " " ++ JS.to_str (message e)
          else JS.to_str (message e) in
        let w1 := log (EConsoleLog ("API Error: " ++ errorMessage)) w in
        outcome req (res_render "500" context (res_status 500 res)) w1 Ended
  | ReplyData data =>
      let '(t, w1) := now E w in
      let elapsed := (t - start)%Z in
      let w2 := log (EDebug "Rendering with bootstrapped user object. Fetched in %d ms"
                       [JS.number_to_string elapsed]) w1 in
      let context1 := <["user" := VUser data]> context in
      let context2 := <["isRTL" := VBool (isRTL data)]> context1 in
      let context3 :=
        if JS.truthy (localeSlug data)
        then <["lang" := VStr (JS.to_str (localeSlug data))]> context2
        else context2 in
      let proceed := outcome (set_context context3 req) res w2 Next in
      if String.eqb (path req) "/"
      then root_redirects E req res context3 w2 proceed
      else proceed
  end.

Definition has_login_cookie (req : Request) : bool :=
  JS.truthy (cookie_wordpress_logged_in req).

Definition setUpLoggedInRoute (E : Env) (req : Request) (res : Response) (w : World) : Outcome :=
  let res1 := res_set X_FRAME "SAMEORIGIN" res in
  match getDefaultContext E req w with
  | (None, w1) => outcome req res1 w1 Threw
  | (Some context, w1) =>
      if wpcom_user_bootstrap (config E) then
        let redirectUrl := login_redirect_url E req in
        if negb (has_login_cookie req) then
          let w2 := log (EDebug "User not logged in. Redirecting to %s" [redirectUrl]) w1 in
          outcome req (res_redirect redirectUrl res1) w2 Ended
        else
          let '(start, w2) := now E w1 in
          let w3 := log (EDebug "Issuing API call to fetch user object" []) w2 in
          let w4 := log (EUserBootstrap (header_Cookie req)) w3 in
          user_callback E req res1 context redirectUrl start
            (user_bootstrap E (header_Cookie req)) w4
      else
        outcome (set_context context req) res1 w1 Next
  end.

(** Which of the two set-up handlers [setUpRoute] hands the request to. *)
Definition setUpRoute_branch (req : Request) : Middleware :=
  if has_login_cookie req then MSetUpLoggedInRoute else MSetUpLoggedOutRoute.

Definition setUpRoute (E : Env) (req : Request) (res : Response) (w : World) : Outcome :=
  match setUpRoute_branch req with
  | MSetUpLoggedInRoute => setUpLoggedInRoute E req res w
  | _ => setUpLoggedOutRoute E req res w
  end.

Definition render404 (E : Env) (request : Request) (response : Response) (w : World) : Outcome :=
  let response1 := res_status 404 response in
  match generateStaticUrls E request w with
  | (None, w1) => outcome request response1 w1 Threw
  | (Some urls, w1) =>
      outcome request (res_render "404" (<["urls" := VUrls urls]> ∅) response1) w1 Ended
  end.

(** ** The other handlers of the application *)

(** [app.get( '/' )]: the home page goes to the stats when the Reader
    is disabled. *)
Definition home (E : Env) (request : Request) (response : Response) (w : World) : Outcome :=
  if negb (isEnabled (config E) "reader")
  then outcome request (res_redirect "/stats" response) w Ended
  else outcome request response w Next.

Definition legacy_sections : list string :=
  [ "posts"; "pages"; "sharing"; "upgrade"; "checkout"; "change-theme" ].

(** The class [[0-9a-zA-Z\-\.]]. *)
Definition is_site_char (c : ascii) : bool :=
  JS.is_digit c || JS.is_alpha c || Ascii.eqb c "-" || Ascii.eqb c ".".

(** [^\/sites\/[0-9a-zA-Z\-\.]+\/] at the start of [s]: the site and
    what follows the second slash. *)
Definition re_sites (s : string) : option (string * string) :=
  match JS.strip_prefix "/sites/" s with
  | Some r =>
      match JS.span is_site_char r with
      | (EmptyString, _) => None
      | (site, String c r') => if Ascii.eqb c "/" then Some (site, r') else None
      | (_, EmptyString) => None
      end
  | None => None
  end.

(** [/^\/sites\/[0-9a-zA-Z\-\.]+\/change\-theme/]: the match and the rest. *)
Definition re_change_theme (s : string) : option (string * string) :=
  match re_sites s with
  | Some (site, r) =>
      match JS.strip_prefix "change-theme" r with
      | Some after => Some ("/sites/" ++ site ++ "/change-theme", after)
      | None => None
      end
  | None => None
  end.

(** [/^\/sites\/[0-9a-zA-Z\-\.]+\/\w+/]: the match and the rest. *)
Definition re_site_section (s : string) : option (string * string) :=
  match re_sites s with
  | Some (site, r) =>
      match JS.span JS.is_word r with
      | (EmptyString, _) => None
      | (word, after) => Some ("/sites/" ++ site ++ "/" ++ word, after)
      end
  | None => None
  end.

Definition mem_string (x : string) (l : list string) : bool := existsb (String.eqb x) l.

(** [app.use( '/sites/:site/:section' )]: redirects of the old newdash
    URLs. It assigns the module variable [sections]. *)
Definition legacyRewriter (E : Env) (req : Request) (res : Response) (w : World) : Outcome :=
  let w1 := set_sections (Names legacy_sections) w in
  match params req !! "section" with
  | None => outcome req res w1 Next
  | Some section =>
      if negb (mem_string section legacy_sections) then outcome req res w1 Next
      else
        let redirectUrl :=
          if String.eqb "change-theme" section
          then JS.replace_anchored re_change_theme "/themes" (originalUrl req)
          else JS.replace_anchored re_site_section
                 ("/" ++ section ++ "/" ++ JS.to_str (params req !! "site"))
                 (originalUrl req) in
        outcome req (res_redirect redirectUrl res) w1 Ended
  end.

Definition discover (E : Env) (req : Request) (res : Response) (w : World) : Outcome :=
  if negb (has_login_cookie req)
  then outcome req (res_redirect (discover_logged_out_redirect_url (config E)) res) w Ended
  else outcome req res w Next.

Definition plans (E : Env) (req : Request) (res : Response) (w : World) : Outcome :=
  if negb (has_login_cookie req) then
    if q_is (query_get "for" (query req)) "jetpack"
    then outcome req
           (res_redirect
              "https://wordpress.com/wp-login.php?redirect_to=https%3A%2F%2Fwordpress.com%2Fplans"
              res) w Ended
    else outcome req (res_redirect "https://wordpress.com/pricing" res) w Ended
  else outcome req res w Next.

Definition theme (E : Env) (req : Request) (res : Response) (w : World) : Outcome :=
  outcome req (res_redirect "/design" res) w Ended.

(** The first handler of every section path: it names the chunk when
    code splitting is on. *)
Definition setChunk (E : Env) (name : string) (req : Request) (res : Response) (w : World)
    : Outcome :=
  if isEnabled (config E) "code-splitting"
  then outcome (set_context (<["chunk" := VStr name]> (context req)) req) res w Next
  else outcome req res w Next.

(** Modelled from the spec: [serverRender] of the module [render], which
    is not part of the sources at hand. The spec calls it the shared
    renderer that renders synchronously; it answers with the request's
    context and does not call the next handler. *)
Definition serverRender (E : Env) (req : Request) (res : Response) (w : World) : Outcome :=
  outcome req
    {| headers := headers res; status := status res;
       body := Some (ServerRendered (context req)) |}
    (log EServerRender w) Ended.

Definition run_middleware (E : Env) (m : Middleware) : Request -> Response -> World -> Outcome :=
  match m with
  | MHome => home E
  | MLegacyRewriter => legacyRewriter E
  | MDiscover => discover E
  | MPlans => plans E
  | MTheme => theme E
  | MSetChunk name => setChunk E name
  | MSetUpRoute => setUpRoute E
  | MSetUpLoggedInRoute => setUpLoggedInRoute E
  | MSetUpLoggedOutRoute => setUpLoggedOutRoute E
  | MServerRender => serverRender E
  | MExternal id => external E id
  | MRender404 => render404 E
  end.

(** The handlers of one route, in order, as long as each calls next(). *)
Fixpoint run_chain (E : Env) (hs : list Middleware) (req : Request) (res : Response)
    (w : World) : Outcome :=
  match hs with
  | [] => outcome req res w Next
  | h :: hs' =>
      let o := run_middleware E h req res w in
      match o_flow o with
      | Next => run_chain E hs' (o_req o) (o_res o) (o_world o)
      | _ => o
      end
  end.

(** ** The route table of [module.exports] *)

Definition route (v : Verb) (p : RoutePattern) (hs : list Middleware) : Route :=
  {| r_verb := v; r_pattern := p; r_handlers := hs |}.

(** What the loop over the manifest registers for one section. *)
Definition section_routes (E : Env) (section : SectionEntry) : list Route :=
  flat_map
    (fun p =>
       route Get (PSection p) [MSetChunk (sec_name section)]
       :: (if negb (isomorphic section)
           then [route Get (PSection p)
                   [ if enableLoggedOut section then MSetUpRoute else MSetUpLoggedInRoute;
                     MServerRender ]]
           else []))
    (paths section)
  ++ (if isomorphic section then isomorphic_routes E section else []).

Definition first_routes (E : Env) : list Route :=
  [ route Get (PString "/") [MHome];
    route Use (PString "/sites/:site/:section") [MLegacyRewriter] ]
  ++ (if negb (is_development (config E))
      then [ route Get (PString "/discover") [MDiscover];
             route Get (PString "/plans") [MPlans] ]
      else [])
  ++ [ route Get (PString "/theme") [MTheme] ].

(** The routes of the application, in registration order (after the
    cookie parser, whose result is the request's cookie field). [None]
    stands for the TypeError of [section.paths.forEach] when [sections]
    no longer holds the manifest. *)
Definition module_exports (E : Env) (w : World) : option (list Route) :=
  match sections w with
  | Manifest l =>
      Some (first_routes E ++ flat_map (section_routes E) l
            ++ [route Get (PString "*") [MRender404]])%list
  | Names [] => Some (first_routes E ++ [route Get (PString "*") [MRender404]])%list
  | Names (_ :: _) => None
  end.

(** Express tries the routes in order; a route whose handlers all call
    next() hands over to the following ones. *)
Fixpoint dispatch (E : Env) (routes : list Route) (req : Request) (res : Response)
    (w : World) : Outcome :=
  match routes with
  | [] => outcome req res w Next
  | r :: rs =>
      match express_match E (r_verb r) (r_pattern r) (method req) (path req) with
      | None => dispatch E rs req res w
      | Some ps =>
          let o := run_chain E (r_handlers r) (set_params ps req) res w in
          match o_flow o with
          | Next => dispatch E rs (o_req o) (o_res o) (o_world o)
          | _ => o
          end
      end
  end.

(** ** Observations on the log *)

Definition is_user_call (e : Event) : bool :=
  match e with EUserBootstrap _ => true | _ => false end.

Definition is_render_call (e : Event) : bool :=
  match e with EServerRender => true | _ => false end.

Definition is_file_read (e : Event) : bool :=
  match e with EReadFile _ => true | _ => false end.

(** How many times the identity service was called. *)
Definition user_calls (t : list Event) : nat := length (List.filter is_user_call t).

(** How many times the section renderer ran. *)
Definition render_calls (t : list Event) : nat := length (List.filter is_render_call t).

(** How many files were read for hashing. *)
Definition file_reads (t : list Event) : nat := length (List.filter is_file_read t).

(** The static files of the world are those of the configuration. *)
Definition static_files_ok (cfg : Config) (w : World) : Prop :=
  List.map sf_path (staticFiles w) = staticFile_paths cfg.

(** Every static file has its version token. *)
Definition all_hashed (files : list StaticFile) : Prop :=
  Forall (fun f => JS.truthy (sf_hash f) = true) files.

(** What a computation may change in the world when it only reads files
    and the clock. *)
Record quiet (w w' : World) : Prop := {
  quiet_files : staticFiles w' = staticFiles w;
  quiet_sections : sections w' = sections w;
  quiet_user : user_calls (trace w') = user_calls (trace w);
  quiet_render : render_calls (trace w') = render_calls (trace w)
}.

(** The URLs of static files whose tokens are all known. *)
Definition cached_urls (qs : list (string * QValue) -> string) (files : list StaticFile)
    (urls : gmap string string) : gmap string string :=
  fold_left
    (fun u f => <[sf_path f :=
                  URL_BASE_PATH ++ "/" ++ sf_path f ++ "?" ++ qs [("v", QStr (JS.to_str (sf_hash f)))]]> u)
    files urls.

(** The part of [generateStaticUrls] that follows the loop over the
    static files. *)
Definition finish_urls (cfg : Config) (dynamic : list Asset) (urls : gmap string string)
    : option (gmap string string) :=
  match urls !! vendor_file cfg with
  | None => None
  | Some vendor =>
      Some (fold_left (add_asset cfg) dynamic
              (<["vendor-min" := JS.replace ".js" ".m.js" vendor]> (<["vendor" := vendor]> urls)))
  end.

(** The locale of a resolved request: the user's, when the user has
    one, the configured default otherwise. *)
Definition resolved_locale (E : Env) (data : UserData) : string :=
  if JS.truthy (localeSlug data) then JS.to_str (localeSlug data)
  else i18n_default_locale_slug (config E).


Fixpoint string_forallb (p : ascii -> bool) (s : string) : bool :=
  match s with
  | EmptyString => true
  | String c s' => p c && string_forallb p s'
  end.

(** The keys that the loop over the assets writes. *)
Definition asset_keys (l : list Asset) : list string :=
  flat_map (fun a => [asset_key a; asset_key a ++ "-min"]) l.

(** [strip_suffix suf s] is [Some b] when [s = b ++ suf]. *)
Fixpoint strip_suffix (suf s : string) : option string :=
  if String.eqb s suf then Some EmptyString
  else match s with
       | EmptyString => None
       | String c s' =>
           match strip_suffix suf s' with
           | Some b => Some (String c b)
           | None => None
           end
       end.

(** Following the words of the spec: the URL with its trailing [.js]
    replaced by [.m.js]. *)
Definition spec_min_url (url : string) : string :=
  match strip_suffix ".js" url with
  | Some base => base ++ ".m.js"
  | None => url
  end.

(** Following the words of the spec: outside development every asset of
    the URL map has a minified variant, its URL with the trailing [.js]
    replaced. *)
Definition spec_min_variants (E : Env) (request : Request) (w : World) : Prop :=
  env (config E) <> "development" ->
  forall urls, fst (generateStaticUrls E request w) = Some urls ->
  forall a, In a (assets request) ->
  urls !! (asset_key a ++ "-min") = Some (spec_min_url (asset_url a)).

(** A bundle named after a library whose name ends in [.js]. *)
Definition chart_asset : Asset :=
  {| asset_name := Some "chart"; asset_url := "/calypso/chart.js.0f3a.js" |}.


(** [rest] does not go on with a character of [\w]. *)
Definition ends_word (rest : string) : bool :=
  match rest with
  | EmptyString => true
  | String c _ => negb (JS.is_word c)
  end.

Definition not_dollar (c : ascii) : bool := negb (Ascii.eqb c "$").

(** The module state after a series of calls of [generateStaticUrls],
    each under the files, clock and request of its time. *)
Definition after_calls (calls : list (Env * Request)) (w : World) : World :=
  fold_left (fun w c => snd (generateStaticUrls (fst c) (snd c) w)) calls w.

(** The file that [generateStaticUrls] reads for a static file. *)
Definition served_file (E : Env) (p : string) : string :=
  cwd E ++ SERVER_BASE_PATH ++ "/" ++ p.

(** The handlers that this file defines, as opposed to those that a
    section module brings along. *)
Definition own_handler (m : Middleware) : bool :=
  match m with
  | MExternal _ => false
  | _ => true
  end.

Definition own_routes (routes : list Route) : Prop :=
  Forall (fun r => forallb own_handler (r_handlers r) = true) routes.

(** ** An instance of the outside world

    MD5 as RFC 1321 defines it, on 32-bit words written as [N] with the
    wrap-around spelled out; it is the digest function that
    [crypto.createHash( 'md5' )] stands for. *)

Module MD5.

Definition add32 (a b : N) : N := ((a + b) mod 4294967296)%N.
Definition not32 (a : N) : N := N.lxor a 0xffffffff.
Definition rotl32 (x c : N) : N :=
  (N.lor (N.shiftl x c) (N.shiftr x (32 - c)) mod 4294967296)%N.

Definition shifts : list N :=
  [ 7; 12; 17; 22; 7; 12; 17; 22; 7; 12; 17; 22; 7; 12; 17; 22;
    5; 9; 14; 20; 5; 9; 14; 20; 5; 9; 14; 20; 5; 9; 14; 20;
    4; 11; 16; 23; 4; 11; 16; 23; 4; 11; 16; 23; 4; 11; 16; 23;
    6; 10; 15; 21; 6; 10; 15; 21; 6; 10; 15; 21; 6; 10; 15; 21 ]%N.

Definition K : list N :=
  [
    0xd76aa478; 0xe8c7b756; 0x242070db; 0xc1bdceee;
    0xf57c0faf; 0x4787c62a; 0xa8304613; 0xfd469501;
    0x698098d8; 0x8b44f7af; 0xffff5bb1; 0x895cd7be;
    0x6b901122; 0xfd987193; 0xa679438e; 0x49b40821;
    0xf61e2562; 0xc040b340; 0x265e5a51; 0xe9b6c7aa;
    0xd62f105d; 0x02441453; 0xd8a1e681; 0xe7d3fbc8;
    0x21e1cde6; 0xc33707d6; 0xf4d50d87; 0x455a14ed;
    0xa9e3e905; 0xfcefa3f8; 0x676f02d9; 0x8d2a4c8a;
    0xfffa3942; 0x8771f681; 0x6d9d6122; 0xfde5380c;
    0xa4beea44; 0x4bdecfa9; 0xf6bb4b60; 0xbebfbc70;
    0x289b7ec6; 0xeaa127fa; 0xd4ef3085; 0x04881d05;
    0xd9d4d039; 0xe6db99e5; 0x1fa27cf8; 0xc4ac5665;
    0xf4292244; 0x432aff97; 0xab9423a7; 0xfc93a039;
    0x655b59c3; 0x8f0ccc92; 0xffeff47d; 0x85845dd1;
    0x6fa87e4f; 0xfe2ce6e0; 0xa3014314; 0x4e0811a1;
    0xf7537e82; 0xbd3af235; 0x2ad7d2bb; 0xeb86d391 ]%N.

Definition bytes_of_string (s : string) : list N :=
  List.map N_of_ascii (list_ascii_of_string s).

(** [n] bytes of [x], least significant first. *)
Fixpoint le_bytes (n : nat) (x : N) : list N :=
  match n with
  | O => []
  | S n' => (x mod 256)%N :: le_bytes n' (x / 256)%N
  end.

(** The message, the bit 1, zeros up to 56 modulo 64, and the length in
    bits on 8 bytes. *)
Definition pad (msg : list N) : list N :=
  let len := length msg in
  let zeros := ((120 - (len + 1) mod 64) mod 64)%nat in
  (msg ++ 128%N :: List.repeat 0%N zeros
       ++ le_bytes 8 ((N.of_nat len * 8) mod 18446744073709551616)%N)%list.

(** Little-endian words of 4 bytes. *)
Fixpoint words (fuel : nat) (bs : list N) : list N :=
  match fuel, bs with
  | S fuel', b0 :: b1 :: b2 :: b3 :: rest =>
      (b0 + 256 * (b1 + 256 * (b2 + 256 * b3)))%N :: words fuel' rest
  | _, _ => []
  end.

Definition state : Type := N * N * N * N.

Definition step (M : list N) (st : state) (i : nat) : state :=
  let '(a, b, c, d) := st in
  let '(f, g) :=
    if (i <? 16)%nat then (N.lor (N.land b c) (N.land (not32 b) d), i)
    else if (i <? 32)%nat then (N.lor (N.land d b) (N.land (not32 d) c), ((5 * i + 1) mod 16)%nat)
    else if (i <? 48)%nat then (N.lxor b (N.lxor c d), ((3 * i + 5) mod 16)%nat)
    else (N.lxor c (N.lor b (not32 d)), ((7 * i) mod 16)%nat) in
  let f' := add32 (add32 (add32 f a) (List.nth i K 0%N)) (List.nth g M 0%N) in
  (d, add32 b (rotl32 f' (List.nth i shifts 0%N)), b, c).

Definition block (st : state) (M : list N) : state :=
  let '(a0, b0, c0, d0) := st in
  let '(a, b, c, d) := fold_left (step M) (List.seq 0 64) st in
  (add32 a0 a, add32 b0 b, add32 c0 c, add32 d0 d).

(** The word list cut in blocks of 16. *)
Fixpoint blocks (fuel : nat) (ws : list N) : list (list N) :=
  match fuel, ws with
  | S fuel', _ :: _ => firstn 16 ws :: blocks fuel' (skipn 16 ws)
  | _, _ => []
  end.

Definition initial : state := (0x67452301, 0xefcdab89, 0x98badcfe, 0x10325476)%N.

(** The 16 bytes of the digest, read as one number, first byte first. *)
Definition md5 (s : string) : N :=
  let bs := pad (bytes_of_string s) in
  let ws := words (length bs) bs in
  let '(a, b, c, d) := fold_left block (blocks (length ws) ws) initial in
  fold_left (fun acc byte => (acc * 256 + byte)%N)
    (le_bytes 4 a ++ le_bytes 4 b ++ le_bytes 4 c ++ le_bytes 4 d)%list 0%N.

End MD5.

(** Characters that the [qs] encoder leaves alone. *)
Definition qs_unreserved (c : ascii) : bool :=
  JS.is_alpha c || JS.is_digit c || existsb (Ascii.eqb c) ["-"; "."; "_"; "~"]%char.

Fixpoint qs_encode (s : string) : string :=
  match s with
  | EmptyString => EmptyString
  | String c s' =>
      if qs_unreserved c then String c (qs_encode s')
      else
        let n := N_of_ascii c in
        String "%" (String (JS.hex_digit true (n / 16)) (String (JS.hex_digit true (n mod 16))
          (qs_encode s')))
  end.

(** An instance of [qs.stringify] for objects whose values are strings:
    [key=value] pairs joined by [&], keys and values percent-encoded. It
    leaves out the values that are arrays or objects. *)
Definition qs_stringify_strings (o : list (string * QValue)) : string :=
  String.concat "&"
    (flat_map (fun kv => match snd kv with
                         | QStr s => [qs_encode (fst kv) ++ "=" ++ qs_encode s]
                         | _ => []
                         end) o).

Definition is_get (m : string) : bool := String.eqb m "GET" || String.eqb m "HEAD".

Definition not_slash (c : ascii) : bool := negb (Ascii.eqb c "/").

(** [/sites/:site/:section] on a path, as a prefix: the two segments. *)
Definition match_sites (p : string) : option (gmap string string) :=
  match JS.strip_prefix "/sites/" p with
  | Some r =>
      match JS.span not_slash r with
      | (EmptyString, _) => None
      | (site, String _ r') =>
          match JS.span not_slash r' with
          | (EmptyString, _) => None
          | (section, _) => Some (<["section" := section]> (<["site" := site]> ∅))
          end
      | (_, EmptyString) => None
      end
  | None => None
  end.

(** An instance of Express's matching for paths in lower case, without
    escapes and without a trailing slash: [get] routes take GET and HEAD
    requests whose path is the pattern (any path for [*]; for a section
    path also what lies below it), the [use] route of the rewriter takes
    every method. *)
Definition plain_match (v : Verb) (p : RoutePattern) (m pth : string)
    : option (gmap string string) :=
  match v, p with
  | Use, PString s =>
      if String.eqb s "/sites/:site/:section" then match_sites pth else None
  | Use, PSection _ => None
  | Get, PString s =>
      if is_get m && (String.eqb s "*" || String.eqb s pth) then Some ∅ else None
  | Get, PSection d =>
      if is_get m &&
         (String.eqb d pth ||
          (negb (String.eqb d "/") &&
           match JS.strip_prefix (d ++ "/") pth with Some _ => true | None => false end))
      then Some ∅ else None
  end.

Definition production : Config :=
  {| env := "production";
     wpcom_user_bootstrap := true;
     login_url := "https://wordpress.com/wp-login.php";
     hostname := "wordpress.com";
     i18n_default_locale_slug := "en";
     discover_logged_out_redirect_url := "https://discover.wordpress.com";
     isEnabled := fun _ => true |}.

Definition french_user : UserData := {| isRTL := false; localeSlug := Some "fr" |}.

(** A server in production: one style sheet on disk, the other static
    files missing, an identity service that knows one session. *)
Definition demo_env : Env :=
  {| config := production;
     md5 := MD5.md5;
     qs_stringify := qs_stringify_strings;
     readFileSync := fun f => if String.eqb f "/srv/public/style.css"
                              then Some "body{margin:0}" else None;
     cwd := "/srv";
     getTime := fun n => (1500000000000 + Z.of_nat n)%Z;
     user_bootstrap := fun c => match c with
                                | Some _ => ReplyData french_user
                                | None => ReplyError {| error := Some "authorization_required";
                                                        message := Some "no cookie" |}
                                end;
     express_match := plain_match;
     isomorphic_routes := fun _ => [];
     external := fun _ req res w => {| o_req := req; o_res := res; o_world := w; o_flow := Next |} |}.

Definition stats_section : SectionEntry :=
  {| sec_name := "stats"; paths := ["/stats"]; sec_module := "my-sites/stats";
     isomorphic := false; enableLoggedOut := false |}.

Definition demo_world : World := initial_world production [stats_section].

Definition get (url : string) (cookie : option string) (q : list (string * QValue))
    (bundles : list Asset) : Request :=
  {| method := "GET"; path := url; originalUrl := url; query := q;
     cookie_wordpress_logged_in := cookie;
     header_Cookie := match cookie with
                      | Some c => Some ("wordpress_logged_in=" ++ c)
                      | None => None
                      end;
     header_X_Forwarded_Proto := Some "https";
     ip := Some "::ffff:10.0.0.1";
     params := ∅;
     assets := bundles;
     context := ∅ |}.

Definition build_asset : Asset :=
  {| asset_name := Some "build"; asset_url := "/calypso/build.3f5a.js" |}.

Definition with_config (c : Config) (E : Env) : Env :=
  {| config := c; md5 := md5 E; qs_stringify := qs_stringify E;
     readFileSync := readFileSync E; cwd := cwd E; getTime := getTime E;
     user_bootstrap := user_bootstrap E; express_match := express_match E;
     isomorphic_routes := isomorphic_routes E; external := external E |}.

Definition with_user_bootstrap (u : option string -> UserReply) (E : Env) : Env :=
  {| config := config E; md5 := md5 E; qs_stringify := qs_stringify E;
     readFileSync := readFileSync E; cwd := cwd E; getTime := getTime E;
     user_bootstrap := u; express_match := express_match E;
     isomorphic_routes := isomorphic_routes E; external := external E |}.

(** The same server with the user bootstrap switched off. *)
Definition no_bootstrap_env : Env :=
  with_config
    {| env := "production";
       wpcom_user_bootstrap := false;
       login_url := "https://wordpress.com/wp-login.php";
       hostname := "wordpress.com";
       i18n_default_locale_slug := "en";
       discover_logged_out_redirect_url := "https://discover.wordpress.com";
       isEnabled := fun _ => true |}
    demo_env.

Definition expired_token : ApiError :=
  {| error := Some "invalid_token"; message := Some "The token has expired" |}.

(** The same server in front of an identity service that fails. *)
Definition failing_env : Env := with_user_bootstrap (fun _ => ReplyError expired_token) demo_env.

Definition stats_request (cookie : option string) : Request :=
  get "/stats" cookie [] [build_asset].

Definition search_request : Request :=
  get "/" (Some "alice%7C1234") [("s", QStr "hello")] [build_asset].

Definition demo_urls : gmap string string :=
  default ∅ (fst (generateStaticUrls demo_env (stats_request None) demo_world)).

(** ** Further observations *)

(** The cache of version tokens only grows: the same files in the same
    order, and a token that is there stays as it is. *)
Definition cache_extends (old new : list StaticFile) : Prop :=
  Forall2 (fun f f' => sf_path f' = sf_path f /\
                       (JS.truthy (sf_hash f) = true -> sf_hash f' = sf_hash f))
    old new.


(** ** The set-up a request takes *)

Inductive SetUp := LoggedIn | LoggedOut.

(** The set-up that a handler runs on a request, when it is one of the
    three set-up handlers; the gate runs the one it chooses. *)
Definition set_up_of (m : Middleware) (req : Request) : option SetUp :=
  match m with
  | MSetUpLoggedInRoute => Some LoggedIn
  | MSetUpLoggedOutRoute => Some LoggedOut
  | MSetUpRoute =>
      match setUpRoute_branch req with
      | MSetUpLoggedInRoute => Some LoggedIn
      | _ => Some LoggedOut
      end
  | _ => None
  end.

(** The set-ups run by the handlers of one route, in order; it follows
    [run_chain]. *)
Fixpoint chain_set_ups (E : Env) (hs : list Middleware) (req : Request) (res : Response)
    (w : World) : list SetUp :=
  match hs with
  | [] => []
  | h :: hs' =>
      let o := run_middleware E h req res w in
      (match set_up_of h req with Some s => [s] | None => [] end ++
       match o_flow o with
       | Next => chain_set_ups E hs' (o_req o) (o_res o) (o_world o)
       | _ => []
       end)%list
  end.

(** The set-ups that a request goes through in a route table, in
    order; it follows [dispatch]. *)
Fixpoint set_ups_taken (E : Env) (routes : list Route) (req : Request) (res : Response)
    (w : World) : list SetUp :=
  match routes with
  | [] => []
  | r :: rs =>
      match express_match E (r_verb r) (r_pattern r) (method req) (path req) with
      | None => set_ups_taken E rs req res w
      | Some ps =>
          let o := run_chain E (r_handlers r) (set_params ps req) res w in
          (chain_set_ups E (r_handlers r) (set_params ps req) res w ++
           match o_flow o with
           | Next => set_ups_taken E rs (o_req o) (o_res o) (o_world o)
           | _ => []
           end)%list
      end
  end.

(** A request without the two fields that handlers write, [params] and
    [context]. *)
Definition request_core (r : Request) : Request := set_params ∅ (set_context ∅ r).

(** Two requests that differ at most in [params] and [context]. *)
Definition same_request (r r' : Request) : Prop := request_core r' = request_core r.

(** ** The login selectors ([state/login/selectors])

    The state tree is a JavaScript value; the selectors read it with
    lodash's [get]. *)

Module Selectors.

Inductive JValue :=
| JUndefined
| JNull
| JBool (b : bool)
| JNum (n : Z)
| JStr (s : string)
| JArr (l : list JValue)
| JObj (o : gmap string JValue).

(** [v[k]] for a key that is neither an index nor an inherited
    property, as are all the keys of the selectors: only an object has
    it. Reading a property of [null] or [undefined] throws; the callers
    below read properties of values they know to be neither. *)
Definition prop (v : JValue) (k : string) : JValue :=
  match v with
  | JObj o => default JUndefined (o !! k)
  | _ => JUndefined
  end.

Definition nullish (v : JValue) : bool :=
  match v with
  | JUndefined | JNull => true
  | _ => false
  end.

Definition truthy (v : JValue) : bool :=
  match v with
  | JUndefined | JNull => false
  | JBool b => b
  | JNum n => negb (Z.eqb n 0)
  | JStr s => negb (String.eqb s EmptyString)
  | JArr _ | JObj _ => true
  end.

(** lodash's [baseGet]: the walk stops at [null] or [undefined]; the
    result is the value reached when the whole path was walked. *)
Fixpoint baseGet (object : JValue) (path : list string) : JValue :=
  match path with
  | [] => object
  | k :: path' => if nullish object then JUndefined else baseGet (prop object k) path'
  end.

(** lodash's [get( object, path, defaultValue )]. *)
Definition get (object : JValue) (path : list string) (defaultValue : JValue) : JValue :=
  match baseGet object path with
  | JUndefined => defaultValue
  | v => v
  end.

Definition getTwoFactorAuthId (state : JValue) : JValue :=
  get state ["login"; "twoFactorAuth"; "two_step_id"] JNull.

Definition getTwoFactorAuthNonce (state : JValue) : JValue :=
  get state ["login"; "twoFactorAuth"; "two_step_nonce"] JNull.

Definition getTwoFactorAuthType (state : JValue) : JValue :=
  get state ["login"; "twoFactorAuth"; "two_step_type"] JNull.

(** [v !== ''] *)
Definition not_empty_string (v : JValue) : bool :=
  match v with
  | JStr s => negb (String.eqb s EmptyString)
  | _ => true
  end.

Definition isTwoFactorEnabled (state : JValue) : JValue :=
  let twoFactorAuth := get state ["login"; "twoFactorAuth"] JUndefined in
  if negb (truthy twoFactorAuth) then JNull
  else JBool (not_empty_string (prop twoFactorAuth "two_step_id")
              && not_empty_string (prop twoFactorAuth "two_step_nonce")).

Definition getVerificationCodeSubmissionError (state : JValue) : JValue :=
  get state ["login"; "verificationCodeSubmissionError"] JUndefined.

Definition isLoginSuccessful (state : JValue) : JValue :=
  if truthy (isTwoFactorEnabled state)
  then get state ["login"; "verificationCodeSubmissionSuccess"] (JBool false)
  else get state ["login"; "requestSuccess"] (JBool false).

(** A state tree with the given [login] branch. *)
Definition with_login (login : gmap string JValue) : JValue :=
  JObj {[ "login" := JObj login ]}.

End Selectors.

(** ** The domain of the signup step ([SiteOrDomain.getDomainName]) *)

Module SiteOrDomain.

Record DomainItem := { meta : option string }.
Record Step := { domainItem : option DomainItem }.
Record QueryObject := { new : option string }.

Record Props := {
  queryObject : option QueryObject;
  step : option Step
}.

(** [s.split( '.' )]: the pieces between the dots, at least one. *)
Fixpoint split_dot (s : string) : list string :=
  match s with
  | EmptyString => [EmptyString]
  | String c s' =>
      if Ascii.eqb c "." then EmptyString :: split_dot s'
      else match split_dot s' with
           | piece :: pieces => String c piece :: pieces
           | [] => [String c EmptyString]
           end
  end.

(** [parts.join( '.' )] *)
Definition join_dot (parts : list string) : string := String.concat "." parts.

(** [step && step.domainItem] and then [step.domainItem.meta]. *)
Definition step_domain (props : Props) : option string :=
  match step props with
  | Some st => match domainItem st with
               | Some item => meta item
               | None => None
               end
  | None => None
  end.

(** The domain that the step works on: the query's [new] when it is
    set, else the [meta] of the step's domain item. *)
Definition chosen_domain (props : Props) : option string :=
  match queryObject props with
  | Some q => if JS.truthy (new q) then new q else step_domain props
  | None => step_domain props
  end.

(** [getDomainName()]; [tlds tld] is the value of [!! tlds[ tld ]],
    the truthiness of what the lookup in the table finds, be it an
    entry of the table or a property that the table inherits. [None]
    stands for the result [false], [Some d] for the domain. *)
Definition getDomainName (tlds : string -> bool) (props : Props) : option string :=
  match chosen_domain props with
  | Some domain =>
      if JS.truthy (Some domain) then
        let domainParts := split_dot domain in
        if (1 <? length domainParts)%nat
        then if tlds (join_dot (List.tl domainParts)) then Some domain else None
        else None
      else None
  | None => None
  end.

(** The names that every object inherits from [Object.prototype]; what
    is found under them (functions, and the prototype itself under
    [__proto__]) is truthy. *)
Definition object_prototype_names : list string :=
  [ "constructor"; "hasOwnProperty"; "isPrototypeOf"; "propertyIsEnumerable";
    "toLocaleString"; "toString"; "valueOf"; "__defineGetter__"; "__defineSetter__";
    "__lookupGetter__"; "__lookupSetter__"; "__proto__" ].

(** [!! table[ tld ]] for a table that is a plain object, given by the
    truthiness of its own entries: an entry of the table hides what is
    inherited. *)
Definition tld_known (table : gmap string bool) (tld : string) : bool :=
  match table !! tld with
  | Some v => v
  | None => mem_string tld object_prototype_names
  end.

End SiteOrDomain.

(** ** More of the example server *)

Definition upgrade_request : Request :=
  set_params (<["section" := "upgrade"]> (<["site" := "123"]> ∅))
    (get "/sites/123/upgrade" None [] []).

Definition commons_chunk : Asset :=
  {| asset_name := None; asset_url := "/calypso/commons.abc123.js" |}.

Definition manifest_file : Asset :=
  {| asset_name := None; asset_url := "/static/manifest.json" |}.

Definition development : Config :=
  {| env := "development";
     wpcom_user_bootstrap := true;
     login_url := "https://wordpress.com/wp-login.php";
     hostname := "calypso.localhost:3000";
     i18n_default_locale_slug := "en";
     discover_logged_out_redirect_url := "https://discover.wordpress.com";
     isEnabled := fun _ => true |}.

Definition dev_env : Env := with_config development demo_env.

Definition dev_world : World := initial_world development [stats_section].

Definition dev_urls : gmap string string :=
  default ∅ (fst (generateStaticUrls dev_env (stats_request None) dev_world)).


Definition demo_routes : list Route := default [] (module_exports demo_env demo_world).



Definition missing_session : ApiError :=
  {| error := Some "authorization_required"; message := Some "No session" |}.

(** The same server in front of an identity service that asks for a
    new login. *)
Definition unauthorized_env : Env :=
  with_user_bootstrap (fun _ => ReplyError missing_session) demo_env.



(** * Properties *)

(** ** Worked values *)

Example replace_first_only : JS.replace ".js" ".m.js" "/calypso/a.js?x=b.js" = "/calypso/a.m.js?x=b.js".
Proof. reflexivity. Qed.
Example encode_space : JS.encodeURIComponent "a b/c" = "a%20b%2Fc".
Proof. reflexivity. Qed.
Example number_neg : JS.number_to_string (-12) = "-12".
Proof. reflexivity. Qed.
Example hex_fixed_ex : JS.hex_fixed 4 0xab1 = "0ab1".
Proof. reflexivity. Qed.
Example chunk_name_ex : chunk_name "/calypso/commons.abc123.js" = "_commons".
Proof. reflexivity. Qed.

Example chunk_name_two_lines :
  chunk_name (String "x" ("/calypso/a.b" ++ String "010" "c")) = String "x" ("_a" ++ String "010" "c").
Proof. reflexivity. Qed.

(** The test suite of RFC 1321. *)
Example md5_empty :
  JS.hex_fixed 32 (MD5.md5 EmptyString) = "d41d8cd98f00b204e9800998ecf8427e".
Proof. vm_compute. reflexivity. Qed.

Example md5_abc : JS.hex_fixed 32 (MD5.md5 "abc") = "900150983cd24fb0d6963f7d28e17f72".
Proof. vm_compute. reflexivity. Qed.

Example md5_two_blocks :
  JS.hex_fixed 32
    (MD5.md5 "12345678901234567890123456789012345678901234567890123456789012345678901234567890")
  = "57edf4a22be3c955ac49da2e2107b67a".
Proof. vm_compute. reflexivity. Qed.

Example qs_version : qs_stringify_strings [("v", QStr "7411b9041d")] = "v=7411b9041d".
Proof. reflexivity. Qed.

(** The first logged-out request hashes the six static files. *)
Example first_request_urls :
  match fst (generateStaticUrls demo_env (stats_request None) demo_world) with
  | Some urls =>
      urls !! "style.css" = Some "/calypso/style.css?v=7411b9041d" /\
      urls !! "editor.css" = Some "/calypso/editor.css?v=1500000000000" /\
      urls !! "vendor" = Some "/calypso/vendor.production.js?v=1500000000004" /\
      urls !! "vendor-min" = Some "/calypso/vendor.production.m.js?v=1500000000004" /\
      urls !! "build" = Some "/calypso/build.3f5a.js" /\
      urls !! "build-min" = Some "/calypso/build.3f5a.m.js" /\
      urls !! "style.css-min" = None
  | None => False
  end.
Proof. vm_compute. repeat split; reflexivity. Qed.

Example first_request_reads :
  file_reads (trace (snd (generateStaticUrls demo_env (stats_request None) demo_world))) = 6%nat.
Proof. vm_compute. reflexivity. Qed.

(** The legacy URLs of the spec, through the whole route table. *)
Example rewrite_upgrade :
  match module_exports demo_env demo_world with
  | Some routes =>
      body (o_res (dispatch demo_env routes (get "/sites/123/upgrade" None [] [])
                     fresh_response demo_world))
      = Some (Redirect "/upgrade/123")
  | None => False
  end.
Proof. vm_compute. reflexivity. Qed.

Example rewrite_change_theme :
  match module_exports demo_env demo_world with
  | Some routes =>
      body (o_res (dispatch demo_env routes (get "/sites/123/change-theme" None [] [])
                     fresh_response demo_world))
      = Some (Redirect "/themes")
  | None => False
  end.
Proof. vm_compute. reflexivity. Qed.

Example rewrite_keeps_rest :
  match module_exports demo_env demo_world with
  | Some routes =>
      body (o_res (dispatch demo_env routes
                     {| method := "GET"; path := "/sites/example.wordpress.com/posts/drafts";
                        originalUrl := "/sites/example.wordpress.com/posts/drafts?page=2";
                        query := [("page", QStr "2")];
                        cookie_wordpress_logged_in := None; header_Cookie := None;
                        header_X_Forwarded_Proto := None; ip := None; params := ∅;
                        assets := []; context := ∅ |}
                     fresh_response demo_world))
      = Some (Redirect "/posts/example.wordpress.com/drafts?page=2")
  | None => False
  end.
Proof. vm_compute. reflexivity. Qed.

Example unknown_section_passes :
  let req := set_params (<["section" := "unknown-section"]> (<["site" := "123"]> ∅))
               (get "/sites/123/unknown-section" None [] []) in
  let o := legacyRewriter demo_env req fresh_response demo_world in
  o_flow o = Next /\ o_req o = req /\ o_res o = fresh_response.
Proof. vm_compute. repeat split; reflexivity. Qed.

(** After the rewriter has run, the module variable [sections] holds
    names, and building the application again would fail. *)
Example sections_overwritten :
  let req := set_params (<["section" := "unknown-section"]> (<["site" := "123"]> ∅))
               (get "/sites/123/unknown-section" None [] []) in
  module_exports demo_env (o_world (legacyRewriter demo_env req fresh_response demo_world))
  = None.
Proof. reflexivity. Qed.

(** Logged in, resolved, on the root path: the search redirect. *)
Example search_two_words :
  body (o_res (setUpLoggedInRoute demo_env
                 (get "/" (Some "alice%7C1234") [("q", QStr "hello world")] [])
                 fresh_response demo_world))
  = Some (Redirect "https://fr.search.wordpress.com/?q=hello%20world").
Proof. vm_compute. reflexivity. Qed.

(** In production [/plans] answers a visitor before the section does. *)
Example plans_logged_out :
  match module_exports demo_env demo_world with
  | Some routes =>
      body (o_res (dispatch demo_env routes (get "/plans" None [] [])
                     fresh_response demo_world))
      = Some (Redirect "https://wordpress.com/pricing")
  | None => False
  end.
Proof. vm_compute. reflexivity. Qed.

(** ** Strings *)

Lemma string_length_app (a b : string) :
  String.length (a ++ b) = (String.length a + String.length b)%nat.
Proof. induction a as [|c a IH]; simpl; [reflexivity | now rewrite IH]. Qed.

Lemma string_app_assoc (a b c : string) : (a ++ b) ++ c = a ++ b ++ c.
Proof.
  induction a as [|x a IH]; [reflexivity|].
  change (String x ((a ++ b) ++ c) = String x (a ++ b ++ c)). now rewrite IH.
Qed.

Lemma hex_fixed_length w n : String.length (JS.hex_fixed w n) = w.
Proof.
  revert n. induction w as [|w IH]; intros n; simpl; [reflexivity|].
  rewrite string_length_app, IH. simpl. lia.
Qed.

Lemma substring_length_min n s :
  String.length (String.substring 0 n s) = Nat.min n (String.length s).
Proof.
  revert s. induction n as [|n IH]; intros [|c s]; simpl; auto.
Qed.

Lemma digest_token_length E data :
  String.length (JS.slice0 HASH_LENGTH (digest_hex E data)) = 10.
Proof.
  unfold JS.slice0, digest_hex, HASH_LENGTH.
  rewrite substring_length_min, hex_fixed_length. reflexivity.
Qed.

Lemma truthy_of_length (s : string) :
  (0 < String.length s)%nat -> JS.truthy (Some s) = true.
Proof. destruct s; simpl; [lia | reflexivity]. Qed.

Lemma number_to_string_truthy z : JS.truthy (Some (JS.number_to_string z)) = true.
Proof.
  apply truthy_of_length. unfold JS.number_to_string.
  destruct (Z.to_int z) as [d|d]; simpl.
  - destruct d; simpl; lia.
  - destruct d; simpl; lia.
Qed.

(** ** Version tokens and the hash cache *)

Lemma hashFile_token E file w :
  fst (hashFile E file w) =
  match readFileSync E file with
  | Some data => JS.slice0 HASH_LENGTH (digest_hex E data)
  | None => JS.number_to_string (getTime E (ticks w))
  end.
Proof. unfold hashFile. destruct (readFileSync E file); reflexivity. Qed.

Lemma hashFile_truthy E file w : JS.truthy (Some (fst (hashFile E file w))) = true.
Proof.
  rewrite hashFile_token. destruct (readFileSync E file) as [data|].
  - apply truthy_of_length. rewrite digest_token_length. lia.
  - apply number_to_string_truthy.
Qed.

Lemma quiet_refl w : quiet w w.
Proof. split; reflexivity. Qed.

Lemma quiet_trans w1 w2 w3 : quiet w1 w2 -> quiet w2 w3 -> quiet w1 w3.
Proof. intros [] []; split; congruence. Qed.

Lemma user_calls_log e w :
  user_calls (trace (log e w)) = (user_calls (trace w) + if is_user_call e then 1 else 0)%nat.
Proof.
  unfold user_calls, log; simpl. rewrite List.filter_app, List.length_app; simpl.
  destruct (is_user_call e); reflexivity.
Qed.

Lemma render_calls_log e w :
  render_calls (trace (log e w)) = (render_calls (trace w) + if is_render_call e then 1 else 0)%nat.
Proof.
  unfold render_calls, log; simpl. rewrite List.filter_app, List.length_app; simpl.
  destruct (is_render_call e); reflexivity.
Qed.

Lemma quiet_log e w :
  is_user_call e = false -> is_render_call e = false -> quiet w (log e w).
Proof.
  intros Hu Hr. split; try reflexivity.
  - rewrite user_calls_log, Hu. lia.
  - rewrite render_calls_log, Hr. lia.
Qed.

Lemma hashFile_quiet E file w : quiet w (snd (hashFile E file w)).
Proof.
  unfold hashFile. destruct (readFileSync E file); simpl.
  - now apply quiet_log.
  - eapply quiet_trans; [now apply (quiet_log (EReadFile file))|]. split; reflexivity.
Qed.

Lemma static_urls_spec E files : forall urls w,
  let '(files', urls', w') := static_urls E files urls w in
  List.map sf_path files' = List.map sf_path files /\
  all_hashed files' /\
  urls' = cached_urls (qs_stringify E) files' urls /\
  quiet w w'.
Proof.
  induction files as [|f rest IH]; intros urls w; simpl.
  - repeat split; try constructor.
  - destruct (JS.truthy (sf_hash f)) eqn:Hh.
    + specialize (IH (<[sf_path f := getUrl E (sf_path f) (JS.to_str (sf_hash f))]> urls) w).
      destruct (static_urls E rest _ w) as [[files' urls'] w'].
      destruct IH as (Hp & Ha & Hu & Hq). repeat split; simpl; try assumption.
      * now rewrite Hp.
      * constructor; [|assumption]. simpl. destruct (sf_hash f); [exact Hh | discriminate].
      * apply Hq. * apply Hq. * apply Hq. * apply Hq.
    + pose proof (hashFile_truthy E (cwd E ++ SERVER_BASE_PATH ++ "/" ++ sf_path f) w) as Ht.
      pose proof (hashFile_quiet E (cwd E ++ SERVER_BASE_PATH ++ "/" ++ sf_path f) w) as Hq0.
      destruct (hashFile E _ w) as [h w1]. simpl in Ht, Hq0.
      specialize (IH (<[sf_path f := getUrl E (sf_path f) h]> urls) w1).
      destruct (static_urls E rest _ w1) as [[files' urls'] w'].
      destruct IH as (Hp & Ha & Hu & Hq).
      pose proof (quiet_trans _ _ _ Hq0 Hq) as Hq1.
      repeat split; simpl; try assumption; try apply Hq1.
      * now rewrite Hp.
      * constructor; assumption.
Qed.

(** Once every file has its token, the loop reads nothing and changes
    nothing, whatever the files and the clock have become. *)
Lemma static_urls_cached E files : forall urls w,
  all_hashed files ->
  static_urls E files urls w = (files, cached_urls (qs_stringify E) files urls, w).
Proof.
  induction files as [|f rest IH]; intros urls w Hall; simpl; [reflexivity|].
  inversion Hall as [|? ? Hf Hrest]; subst.
  rewrite Hf, IH by assumption.
  destruct f as [p [h|]]; simpl in *; [reflexivity | discriminate].
Qed.

Lemma generateStaticUrls_unfold E request w :
  generateStaticUrls E request w =
  let '(files, urls, w1) := static_urls E (staticFiles w) ∅ w in
  (finish_urls (config E) (assets request) urls, set_staticFiles files w1).
Proof.
  unfold generateStaticUrls, finish_urls.
  destruct (static_urls E (staticFiles w) ∅ w) as [[files urls] w1].
  destruct (urls !! vendor_file (config E)); reflexivity.
Qed.

Lemma cached_urls_lookup qs files : forall (urls : gmap string string) k,
  is_Some (urls !! k) \/ In k (List.map sf_path files) ->
  is_Some (cached_urls qs files urls !! k).
Proof.
  unfold cached_urls.
  induction files as [|f rest IH]; intros urls k H; simpl.
  - destruct H as [H|[]]. exact H.
  - apply IH. destruct (decide (sf_path f = k)) as [->|Hne].
    + left. rewrite lookup_insert_eq. eauto.
    + destruct H as [H|[H|H]]; [| contradiction | now right].
      left. now rewrite lookup_insert_ne.
Qed.

Lemma set_staticFiles_same w : set_staticFiles (staticFiles w) w = w.
Proof. destruct w; reflexivity. Qed.

(** What one call of [generateStaticUrls] does to the module state: the
    same files, all with a token now; and what it returns. *)
Lemma generateStaticUrls_spec E request w :
  let r := generateStaticUrls E request w in
  List.map sf_path (staticFiles (snd r)) = List.map sf_path (staticFiles w) /\
  all_hashed (staticFiles (snd r)) /\
  sections (snd r) = sections w /\
  user_calls (trace (snd r)) = user_calls (trace w) /\
  render_calls (trace (snd r)) = render_calls (trace w) /\
  fst r = finish_urls (config E) (assets request)
            (cached_urls (qs_stringify E) (staticFiles (snd r)) ∅).
Proof.
  simpl. rewrite generateStaticUrls_unfold.
  pose proof (static_urls_spec E (staticFiles w) ∅ w) as H.
  destruct (static_urls E (staticFiles w) ∅ w) as [[files urls] w1].
  destruct H as (Hp & Ha & Hu & Hq). simpl.
  repeat split; try assumption; try apply Hq. now rewrite Hu.
Qed.

(** With every token cached, a call leaves the world as it is. *)
Lemma generateStaticUrls_cached E request w :
  all_hashed (staticFiles w) ->
  generateStaticUrls E request w =
  (finish_urls (config E) (assets request) (cached_urls (qs_stringify E) (staticFiles w) ∅), w).
Proof.
  intros Hall. rewrite generateStaticUrls_unfold, static_urls_cached by assumption.
  now rewrite set_staticFiles_same.
Qed.

Lemma vendor_file_static cfg : In (vendor_file cfg) (staticFile_paths cfg).
Proof. unfold staticFile_paths. simpl. tauto. Qed.

(** URL generation does not fail: the vendor entry that the code reads
    back is always there. *)
Lemma generateStaticUrls_total E request w :
  static_files_ok (config E) w ->
  exists urls, fst (generateStaticUrls E request w) = Some urls.
Proof.
  intros Hok.
  destruct (generateStaticUrls_spec E request w) as (Hp & _ & _ & _ & _ & Hr).
  rewrite Hr. unfold finish_urls.
  destruct (cached_urls_lookup (qs_stringify E) (staticFiles (snd (generateStaticUrls E request w)))
              ∅ (vendor_file (config E))) as [v Hv].
  { right. rewrite Hp, Hok. apply vendor_file_static. }
  rewrite Hv. eauto.
Qed.

Lemma generateStaticUrls_ok E request w :
  static_files_ok (config E) w ->
  static_files_ok (config E) (snd (generateStaticUrls E request w)).
Proof.
  intros Hok. unfold static_files_ok in *.
  destruct (generateStaticUrls_spec E request w) as (Hp & _). now rewrite Hp.
Qed.

Lemma initial_world_ok cfg manifest : static_files_ok cfg (initial_world cfg manifest).
Proof.
  unfold static_files_ok, initial_world, initial_staticFiles; simpl. reflexivity.
Qed.

(** ** The rendering context *)

Lemma getDefaultContext_world E request w :
  snd (getDefaultContext E request w) = snd (generateStaticUrls E request w).
Proof.
  unfold getDefaultContext.
  destruct (generateStaticUrls E request w) as [[urls|] w1]; reflexivity.
Qed.

(** The default context starts anonymous, in the default locale, with
    the generated URL map. *)
Lemma getDefaultContext_fields E request w urls :
  fst (generateStaticUrls E request w) = Some urls ->
  exists ctx,
    fst (getDefaultContext E request w) = Some ctx /\
    ctx !! "user" = Some (VBool false) /\
    ctx !! "urls" = Some (VUrls urls) /\
    ctx !! "lang" = Some (VStr (i18n_default_locale_slug (config E))).
Proof.
  intros Hu. unfold getDefaultContext.
  destruct (generateStaticUrls E request w) as [[u|] w1]; simpl in Hu; [|discriminate].
  injection Hu as ->. eexists. split; [reflexivity|].
  repeat split.
  - rewrite lookup_insert_ne by done. apply lookup_union_Some_l. by simplify_map_eq.
  - rewrite lookup_insert_ne by done. apply lookup_union_Some_l. by simplify_map_eq.
  - rewrite lookup_insert_ne by done. apply lookup_union_Some_l. by simplify_map_eq.
Qed.

Lemma getDefaultContext_total E request w :
  static_files_ok (config E) w ->
  exists ctx,
    getDefaultContext E request w = (Some ctx, snd (generateStaticUrls E request w)) /\
    ctx !! "user" = Some (VBool false) /\
    ctx !! "lang" = Some (VStr (i18n_default_locale_slug (config E))).
Proof.
  intros Hok. destruct (generateStaticUrls_total E request w Hok) as [urls Hu].
  destruct (getDefaultContext_fields E request w urls Hu) as (ctx & Hc & Huser & _ & Hlang).
  exists ctx. repeat split; try assumption.
  rewrite <- getDefaultContext_world, <- Hc. now destruct (getDefaultContext E request w).
Qed.

Lemma getDefaultContext_user_calls E request w :
  user_calls (trace (snd (getDefaultContext E request w))) = user_calls (trace w).
Proof. rewrite getDefaultContext_world. apply generateStaticUrls_spec. Qed.


(** ** The set-up handlers *)

Lemma setUpLoggedOutRoute_user_calls E req res w :
  user_calls (trace (o_world (setUpLoggedOutRoute E req res w))) = user_calls (trace w).
Proof.
  unfold setUpLoggedOutRoute.
  pose proof (getDefaultContext_user_calls E req w) as H.
  destruct (getDefaultContext E req w) as [[ctx|] w1]; exact H.
Qed.

(** Without the cookie the logged-in set-up never reaches the call. *)
Lemma setUpLoggedInRoute_no_cookie_user_calls E req res w :
  has_login_cookie req = false ->
  user_calls (trace (o_world (setUpLoggedInRoute E req res w))) = user_calls (trace w).
Proof.
  intros Hc. unfold setUpLoggedInRoute.
  pose proof (getDefaultContext_user_calls E req w) as H.
  destruct (getDefaultContext E req w) as [[ctx|] w1]; simpl in *; [|exact H].
  destruct (wpcom_user_bootstrap (config E)); [|exact H].
  rewrite Hc. cbn [negb outcome o_world]. rewrite user_calls_log. simpl. lia.
Qed.

Lemma setUpRoute_logged_in E req res w :
  has_login_cookie req = true -> setUpRoute E req res w = setUpLoggedInRoute E req res w.
Proof. intros H. unfold setUpRoute, setUpRoute_branch. now rewrite H. Qed.

Lemma setUpRoute_logged_out E req res w :
  has_login_cookie req = false -> setUpRoute E req res w = setUpLoggedOutRoute E req res w.
Proof. intros H. unfold setUpRoute, setUpRoute_branch. now rewrite H. Qed.


Lemma string_forallb_app p a b :
  string_forallb p (a ++ b) = string_forallb p a && string_forallb p b.
Proof. induction a as [|c a IH]; simpl; [reflexivity|]. now rewrite IH, andb_assoc. Qed.



(** ** Assignments to the URL map *)

Lemma obj_set_eq key value (urls : gmap string string) :
  key <> "__proto__" -> obj_set key value urls !! key = Some value.
Proof.
  intros H. unfold obj_set. apply String.eqb_neq in H. rewrite H. apply lookup_insert_eq.
Qed.

Lemma obj_set_ne key value (urls : gmap string string) k :
  key <> k -> obj_set key value urls !! k = urls !! k.
Proof.
  intros H. unfold obj_set. destruct (String.eqb key "__proto__"); [reflexivity|].
  now apply lookup_insert_ne.
Qed.

Lemma obj_set_is_Some key value (urls : gmap string string) k :
  is_Some (urls !! k) -> is_Some (obj_set key value urls !! k).
Proof.
  intros H. unfold obj_set. destruct (String.eqb key "__proto__"); [exact H|].
  rewrite lookup_insert. case_decide; [eauto|exact H].
Qed.

(** Nothing is ever stored under [__proto__]. *)
Lemma obj_set_proto key value (urls : gmap string string) :
  obj_set key value urls !! "__proto__" = urls !! "__proto__".
Proof.
  unfold obj_set. destruct (String.eqb key "__proto__") eqn:H; [reflexivity|].
  apply String.eqb_neq in H. now apply lookup_insert_ne.
Qed.

Lemma min_not_proto (name : string) : name ++ "-min" <> "__proto__".
Proof.
  intros H.
  assert (Hlen : String.length name = 5%nat).
  { apply (f_equal String.length) in H. rewrite string_length_app in H. simpl in H. lia. }
  do 6 (destruct name as [|? name]; try discriminate Hlen). discriminate H.
Qed.

Lemma fold_add_asset_is_Some cfg dynamic : forall (urls : gmap string string) k,
  is_Some (urls !! k) -> is_Some (fold_left (add_asset cfg) dynamic urls !! k).
Proof.
  induction dynamic as [|a rest IH]; intros urls k H; simpl; [exact H|].
  apply IH. unfold add_asset.
  destruct (negb (String.eqb (env cfg) "development")).
  - now do 2 apply obj_set_is_Some.
  - now apply obj_set_is_Some.
Qed.

Lemma fold_add_asset_proto cfg dynamic : forall (urls : gmap string string),
  fold_left (add_asset cfg) dynamic urls !! "__proto__" = urls !! "__proto__".
Proof.
  induction dynamic as [|a rest IH]; intros urls; [reflexivity|].
  cbn [fold_left]. rewrite IH. unfold add_asset.
  destruct (negb (String.eqb (env cfg) "development")); now rewrite ?obj_set_proto.
Qed.

(** Every static file has its URL in the generated map. *)
Lemma generateStaticUrls_static E request w urls :
  static_files_ok (config E) w ->
  fst (generateStaticUrls E request w) = Some urls ->
  forall f, In f (staticFile_paths (config E)) -> is_Some (urls !! f).
Proof.
  intros Hok Hu f Hf.
  destruct (generateStaticUrls_spec E request w) as (Hp & _ & _ & _ & _ & Hr).
  rewrite Hr in Hu. unfold finish_urls in Hu.
  destruct (cached_urls _ _ _ !! vendor_file (config E)) as [v|] eqn:Hv; [|discriminate].
  injection Hu as <-. apply fold_add_asset_is_Some.
  rewrite lookup_insert. case_decide; [eauto|].
  rewrite lookup_insert. case_decide; [eauto|].
  apply cached_urls_lookup. right. rewrite Hp, Hok. exact Hf.
Qed.

Lemma getDefaultContext_fst E request w w' :
  fst (generateStaticUrls E request w) = fst (generateStaticUrls E request w') ->
  fst (getDefaultContext E request w) = fst (getDefaultContext E request w').
Proof.
  unfold getDefaultContext.
  destruct (generateStaticUrls E request w) as [[u|] w1],
           (generateStaticUrls E request w') as [[u'|] w1']; simpl; intros H;
    try discriminate; [|reflexivity].
  now injection H as ->.
Qed.

Lemma setUpLoggedOutRoute_world E req res w :
  o_world (setUpLoggedOutRoute E req res w) = snd (generateStaticUrls E req w).
Proof.
  unfold setUpLoggedOutRoute. rewrite <- getDefaultContext_world.
  destruct (getDefaultContext E req w) as [[ctx|] w1]; reflexivity.
Qed.

Lemma setUpLoggedOutRoute_context E req res w :
  context (o_req (setUpLoggedOutRoute E req res w)) =
  match fst (getDefaultContext E req w) with
  | Some ctx => ctx
  | None => context req
  end.
Proof.
  unfold setUpLoggedOutRoute.
  destruct (getDefaultContext E req w) as [[ctx|] w1]; reflexivity.
Qed.

(** ** The loop over the assets *)

Lemma fold_add_asset_untouched cfg dynamic : forall (urls : gmap string string) k,
  ~ In k (asset_keys dynamic) ->
  fold_left (add_asset cfg) dynamic urls !! k = urls !! k.
Proof.
  induction dynamic as [|a rest IH]; intros urls k Hk; [reflexivity|].
  change (asset_keys (a :: rest))
    with (asset_key a :: (asset_key a ++ "-min") :: asset_keys rest) in Hk.
  apply not_in_cons in Hk as [H1 Hk]. apply not_in_cons in Hk as [H2 Hk].
  cbn [fold_left]. rewrite IH by assumption. unfold add_asset.
  destruct (negb (String.eqb (env cfg) "development")).
  - rewrite !obj_set_ne by congruence. reflexivity.
  - rewrite obj_set_ne by congruence. reflexivity.
Qed.

(** The entries of an asset, as long as no later asset writes them. *)
Lemma fold_add_asset_lookup cfg before a after (urls : gmap string string) :
  is_development cfg = false ->
  ~ In (asset_key a ++ "-min") (asset_keys after) ->
  fold_left (add_asset cfg) (before ++ a :: after) urls !! (asset_key a ++ "-min")
    = Some (JS.replace ".js" ".m.js" (asset_url a)) /\
  (~ In (asset_key a) (asset_keys after) ->
   asset_key a <> "__proto__" ->
   fold_left (add_asset cfg) (before ++ a :: after) urls !! asset_key a = Some (asset_url a)).
Proof.
  unfold is_development. intros Hdev Hmin.
  rewrite fold_left_app. cbn [fold_left]. split.
  - rewrite fold_add_asset_untouched by assumption.
    unfold add_asset. rewrite Hdev. cbn [negb]. apply obj_set_eq, min_not_proto.
  - intros Hname Hproto. rewrite fold_add_asset_untouched by assumption.
    unfold add_asset. rewrite Hdev. cbn [negb].
    rewrite obj_set_ne, obj_set_eq; [reflexivity|assumption|].
    intros Heq. apply (f_equal String.length) in Heq.
    rewrite string_length_app in Heq. simpl in Heq. lia.
Qed.

(** Every asset has its two entries in the map. *)
Lemma fold_add_asset_dom cfg dynamic : forall (urls : gmap string string) b,
  is_development cfg = false ->
  In b dynamic ->
  (asset_key b <> "__proto__" ->
   is_Some (fold_left (add_asset cfg) dynamic urls !! asset_key b)) /\
  is_Some (fold_left (add_asset cfg) dynamic urls !! (asset_key b ++ "-min")).
Proof.
  unfold is_development.
  induction dynamic as [|a rest IH]; intros urls b Hdev Hin; [destruct Hin|].
  cbn [fold_left]. destruct Hin as [->|Hin]; [|now apply IH].
  split; [intros Hproto|]; apply fold_add_asset_is_Some; unfold add_asset; rewrite Hdev;
    cbn [negb].
  - apply obj_set_is_Some. rewrite obj_set_eq by assumption. eauto.
  - rewrite obj_set_eq by apply min_not_proto. eauto.
Qed.

(** ** Response headers *)

Lemma setUpLoggedInRoute_headers E req res w :
  headers (o_res (setUpLoggedInRoute E req res w)) = <[X_FRAME := "SAMEORIGIN"]> (headers res).
Proof.
  unfold setUpLoggedInRoute.
  destruct (getDefaultContext E req w) as [[ctx|] w1]; [|reflexivity].
  destruct (wpcom_user_bootstrap (config E)); [|reflexivity].
  destruct (negb (has_login_cookie req)); [reflexivity|].
  cbn [now]. unfold user_callback.
  destruct (user_bootstrap E (header_Cookie req)) as [e|d|]; [| |reflexivity].
  - destruct (match error e with Some c => _ | None => _ end); reflexivity.
  - cbn [now]. destruct (String.eqb (path req) "/"); [|reflexivity].
    unfold root_redirects.
    destruct (q_truthy (if q_truthy (query_get "s" (query req)) then _ else _)); [reflexivity|].
    destruct (q_truthy (query_get "newuseremail" (query req))); [reflexivity|].
    destruct (q_is (query_get "action" (query req)) "wpcom-invite-users"); reflexivity.
Qed.

Lemma setUpLoggedOutRoute_headers E req res w :
  static_files_ok (config E) w ->
  headers (o_res (setUpLoggedOutRoute E req res w)) = <[X_FRAME := "SAMEORIGIN"]> (headers res).
Proof.
  intros Hok. destruct (getDefaultContext_total E req w Hok) as (ctx & Hg & _).
  unfold setUpLoggedOutRoute. now rewrite Hg.
Qed.

Lemma render404_headers E req res w :
  headers (o_res (render404 E req res w)) = headers res.
Proof.
  unfold render404. destruct (generateStaticUrls E req w) as [[urls|] w1]; reflexivity.
Qed.

Lemma legacyRewriter_headers E req res w :
  headers (o_res (legacyRewriter E req res w)) = headers res.
Proof.
  unfold legacyRewriter. destruct (params req !! "section") as [s|]; [|reflexivity].
  destruct (negb (mem_string s legacy_sections)); reflexivity.
Qed.

(** ** Sections that do not allow logged-out access *)




Lemma run_chain_next E m hs req res w :
  o_flow (run_middleware E m req res w) = Next ->
  run_chain E (m :: hs) req res w =
  run_chain E hs (o_req (run_middleware E m req res w)) (o_res (run_middleware E m req res w))
    (o_world (run_middleware E m req res w)).
Proof. intros H. cbn [run_chain]. now rewrite H. Qed.






(** ** The legacy rewriter *)

Lemma strip_prefix_app p s : JS.strip_prefix p (p ++ s) = Some s.
Proof. induction p as [|c p IH]; simpl; [reflexivity|]. now rewrite Ascii.eqb_refl. Qed.

Lemma span_app p a b :
  string_forallb p a = true ->
  match b with EmptyString => true | String c _ => negb (p c) end = true ->
  JS.span p (a ++ b) = (a, b).
Proof.
  intros Ha Hb. induction a as [|c a IH]; simpl in *.
  - destruct b as [|c b]; [reflexivity|]. simpl.
    apply negb_true_iff in Hb. now rewrite Hb.
  - apply andb_true_iff in Ha as [Hc Ha]. now rewrite Hc, IH.
Qed.

Lemma string_forallb_impl (p q : ascii -> bool) s :
  (forall c, p c = true -> q c = true) ->
  string_forallb p s = true -> string_forallb q s = true.
Proof.
  intros Hpq. induction s as [|c s IH]; simpl; [reflexivity|].
  intros H. apply andb_true_iff in H as [Hc Hs]. now rewrite (Hpq c Hc), IH.
Qed.

Lemma get_substitution_plain matched before after repl :
  string_forallb not_dollar repl = true ->
  JS.get_substitution matched before after repl = repl.
Proof.
  induction repl as [|c r IH]; simpl; [reflexivity|].
  intros H. apply andb_true_iff in H as [Hc Hr].
  unfold not_dollar in Hc. apply negb_true_iff in Hc. rewrite Hc. now rewrite IH.
Qed.

Lemma site_char_not_dollar c : is_site_char c = true -> not_dollar c = true.
Proof.
  destruct c as [[] [] [] [] [] [] [] []]; intros H; try reflexivity; discriminate H.
Qed.

Lemma mem_legacy_sections s :
  mem_string s legacy_sections = true ->
  s = "posts" \/ s = "pages" \/ s = "sharing" \/ s = "upgrade" \/ s = "checkout"
  \/ s = "change-theme".
Proof.
  unfold mem_string, legacy_sections. cbn [existsb].
  rewrite !orb_true_iff, !String.eqb_eq. intuition discriminate.
Qed.

Lemma re_sites_app site rest :
  site <> EmptyString ->
  string_forallb is_site_char site = true ->
  re_sites ("/sites/" ++ site ++ "/" ++ rest) = Some (site, rest).
Proof.
  intros Hne Hsite. unfold re_sites. rewrite strip_prefix_app.
  rewrite (span_app is_site_char site ("/" ++ rest) Hsite) by reflexivity.
  destruct site as [|c site]; [congruence|]. reflexivity.
Qed.

(** A request to [/sites/<site>/<section>...] whose site is made of
    letters, digits, hyphens and dots and whose section is in the
    allow-list is redirected: to [/themes] for [change-theme], to
    [/<section>/<site>] for the others, the rest of the URL kept. *)
Lemma legacyRewriter_rewrites E req res w site section rest :
  params req !! "site" = Some site ->
  params req !! "section" = Some section ->
  mem_string section legacy_sections = true ->
  site <> EmptyString ->
  string_forallb is_site_char site = true ->
  originalUrl req = "/sites/" ++ site ++ "/" ++ section ++ rest ->
  ends_word rest = true ->
  let o := legacyRewriter E req res w in
  o_flow o = Ended /\
  body (o_res o) =
    Some (Redirect (if String.eqb section "change-theme" then "/themes" ++ rest
                    else "/" ++ section ++ "/" ++ site ++ rest)).
Proof.
  intros Hsite Hsection Hmem Hne Hchars Hurl Hrest o. subst o.
  unfold legacyRewriter. rewrite Hsection, Hmem, Hsite, Hurl. cbn [negb].
  split; [reflexivity|]. cbn [outcome o_res res_redirect body]. do 2 f_equal.
  assert (Hplain : forall s, string_forallb not_dollar s = true ->
            string_forallb not_dollar ("/" ++ s ++ "/" ++ JS.to_str (Some site)) = true).
  { intros s Hs. cbn [JS.to_str]. change ("/" ++ s ++ "/" ++ site) with (String "/" (s ++ String "/" site)).
    cbn [string_forallb]. rewrite string_forallb_app, Hs. cbn [string_forallb].
    rewrite (string_forallb_impl _ _ site site_char_not_dollar Hchars). reflexivity. }
  assert (Hword : forall s, string_forallb JS.is_word s = true -> s <> EmptyString ->
            JS.replace_anchored re_site_section ("/" ++ s ++ "/" ++ JS.to_str (Some site))
              ("/sites/" ++ site ++ "/" ++ s ++ rest)
            = "/" ++ s ++ "/" ++ site ++ rest).
  { intros s Hs Hs0 . unfold JS.replace_anchored, re_site_section.
    rewrite re_sites_app by assumption.
    rewrite (span_app JS.is_word s rest Hs) by exact Hrest.
    destruct s as [|c s]; [congruence|].
    rewrite get_substitution_plain.
    - cbn [JS.to_str]. now rewrite !string_app_assoc.
    - apply Hplain. revert Hs. apply string_forallb_impl.
      intros a. destruct a as [[] [] [] [] [] [] [] []]; intros H; try reflexivity; discriminate H. }
  destruct (mem_legacy_sections section Hmem) as [->|[->|[->|[->|[->| ->]]]]].
  - apply Hword; [reflexivity | discriminate].
  - apply Hword; [reflexivity | discriminate].
  - apply Hword; [reflexivity | discriminate].
  - apply Hword; [reflexivity | discriminate].
  - apply Hword; [reflexivity | discriminate].
  - cbn [String.eqb Ascii.eqb Bool.eqb]. unfold JS.replace_anchored, re_change_theme.
    rewrite re_sites_app by assumption. rewrite strip_prefix_app. reflexivity.
Qed.

(** A section outside the allow-list: the request goes on to the next
    handler as it came. *)
Lemma legacyRewriter_pass_through E req res w :
  match params req !! "section" with
  | Some section => mem_string section legacy_sections = false
  | None => True
  end ->
  let o := legacyRewriter E req res w in
  o_flow o = Next /\ o_req o = req /\ o_res o = res.
Proof.
  intros H. unfold legacyRewriter.
  destruct (params req !! "section") as [s|]; [rewrite H|]; repeat split.
Qed.

(** ** First and trailing [.js] *)

Lemma strip_prefix_cons a p b s :
  JS.strip_prefix (String a p) (String b s)
  = if Ascii.eqb a b then JS.strip_prefix p s else None.
Proof. reflexivity. Qed.

Lemma string_app_cons c (s t : string) : String c s ++ t = String c (s ++ t).
Proof. reflexivity. Qed.

Lemma string_app_empty (t : string) : EmptyString ++ t = t.
Proof. reflexivity. Qed.

Lemma strip_prefix_js_app x :
  x <> EmptyString ->
  JS.strip_prefix ".js" x = None -> JS.strip_prefix ".js" (x ++ ".js") = None.
Proof.
  intros Hx H.
  destruct x as [|c1 [|c2 [|c3 x]]]; [congruence| | |];
    rewrite ?string_app_cons, ?string_app_empty;
    rewrite strip_prefix_cons in *;
    (destruct (Ascii.eqb "." c1); [|reflexivity]).
  - reflexivity.
  - rewrite strip_prefix_cons. destruct (Ascii.eqb "j" c2); reflexivity.
  - rewrite strip_prefix_cons in *. destruct (Ascii.eqb "j" c2); [|reflexivity].
    rewrite strip_prefix_cons in *. destruct (Ascii.eqb "s" c3); [discriminate|reflexivity].
Qed.

Lemma split_first_js_trailing base :
  JS.split_first ".js" base = None ->
  JS.split_first ".js" (base ++ ".js") = Some (base, EmptyString).
Proof.
  induction base as [|c base IH]; intros H; [reflexivity|].
  cbn [JS.split_first] in H.
  destruct (JS.strip_prefix ".js" (String c base)) eqn:Hp; [discriminate|].
  destruct (JS.split_first ".js" base) as [[b a]|] eqn:Hs; [discriminate|].
  change (String c base ++ ".js") with (String c (base ++ ".js")).
  cbn [JS.split_first].
  change (String c (base ++ ".js")) with (String c base ++ ".js").
  rewrite strip_prefix_js_app by (assumption || discriminate).
  now rewrite IH.
Qed.

Lemma strip_suffix_app suf base : strip_suffix suf (base ++ suf) = Some base.
Proof.
  induction base as [|c base IH].
  - rewrite string_app_empty. destruct suf; cbn [strip_suffix]; now rewrite String.eqb_refl.
  - change (String c base ++ suf) with (String c (base ++ suf)).
    cbn [strip_suffix]. rewrite IH.
    destruct (String.eqb (String c (base ++ suf)) suf) eqn:He; [|reflexivity].
    apply String.eqb_eq in He. apply (f_equal String.length) in He.
    simpl in He. rewrite string_length_app in He. lia.
Qed.

(** When [.js] occurs only at the end of a URL, replacing the first
    occurrence is replacing the trailing one. *)
Lemma replace_js_trailing base :
  JS.split_first ".js" base = None ->
  JS.replace ".js" ".m.js" (base ++ ".js") = base ++ ".m.js" /\
  spec_min_url (base ++ ".js") = base ++ ".m.js".
Proof.
  intros H. split.
  - unfold JS.replace. now rewrite split_first_js_trailing.
  - unfold spec_min_url. now rewrite strip_suffix_app.
Qed.

(** ** One reading per file in the life of the process *)

Lemma hashFile_trace E file w :
  trace (snd (hashFile E file w)) = (trace w ++ [EReadFile file])%list.
Proof. unfold hashFile. destruct (readFileSync E file); reflexivity. Qed.

Lemma static_urls_first E files : forall urls w,
  Forall (fun f => sf_hash f = None) files ->
  trace (snd (static_urls E files urls w))
  = (trace w ++ List.map (fun f => EReadFile (served_file E (sf_path f))) files)%list.
Proof.
  induction files as [|f rest IH]; intros urls w Hnone.
  - simpl. now rewrite app_nil_r.
  - inversion Hnone as [|? ? Hf Hrest]; subst.
    cbn [static_urls]. rewrite Hf. cbn [JS.truthy].
    pose proof (hashFile_trace E (cwd E ++ SERVER_BASE_PATH ++ "/" ++ sf_path f) w) as Ht.
    destruct (hashFile E _ w) as [h w1]. cbn [snd] in Ht.
    specialize (IH (<[sf_path f := getUrl E (sf_path f) h]> urls) w1 Hrest).
    destruct (static_urls E rest _ w1) as [[files' urls'] w2]. cbn [snd] in *.
    rewrite IH, Ht. cbn [List.map]. unfold served_file. now rewrite <- app_assoc.
Qed.

Lemma generateStaticUrls_trace E request w :
  trace (snd (generateStaticUrls E request w)) = trace (snd (static_urls E (staticFiles w) ∅ w)).
Proof.
  rewrite generateStaticUrls_unfold.
  destruct (static_urls E (staticFiles w) ∅ w) as [[files urls] w1]. reflexivity.
Qed.

Lemma after_calls_cached calls : forall w,
  all_hashed (staticFiles w) -> after_calls calls w = w.
Proof.
  induction calls as [|[E request] calls IH]; intros w Hall; [reflexivity|].
  unfold after_calls. cbn [fold_left fst snd].
  rewrite generateStaticUrls_cached by assumption. now apply IH.
Qed.

(** From the start of the process on, however many requests are served
    and whatever happens to the files meanwhile, each static file is
    read once, by the first call. *)
Lemma each_file_hashed_once cfg manifest E request calls :
  trace (after_calls ((E, request) :: calls) (initial_world cfg manifest))
  = List.map (fun p => EReadFile (served_file E p)) (staticFile_paths cfg).
Proof.
  unfold after_calls. cbn [fold_left fst snd]. fold (after_calls calls).
  rewrite after_calls_cached by apply generateStaticUrls_spec.
  rewrite generateStaticUrls_trace, static_urls_first.
  - unfold initial_world, initial_staticFiles. cbn [trace staticFiles app].
    now rewrite List.map_map.
  - unfold initial_world, initial_staticFiles. cbn [staticFiles].
    apply Forall_forall. intros f Hf. apply list_elem_of_In, in_map_iff in Hf as (p & <- & _).
    reflexivity.
Qed.

(** ** No cookie, no call to the identity service *)

Lemma setUpLoggedInRoute_no_cookie_req E req res w :
  has_login_cookie req = false ->
  has_login_cookie (o_req (setUpLoggedInRoute E req res w)) = false.
Proof.
  intros Hc. unfold setUpLoggedInRoute.
  destruct (getDefaultContext E req w) as [[ctx|] w1]; [|exact Hc].
  destruct (wpcom_user_bootstrap (config E)); [|exact Hc].
  rewrite Hc. exact Hc.
Qed.

Lemma setUpLoggedOutRoute_req E req res w :
  has_login_cookie (o_req (setUpLoggedOutRoute E req res w)) = has_login_cookie req.
Proof.
  unfold setUpLoggedOutRoute. destruct (getDefaultContext E req w) as [[ctx|] w1]; reflexivity.
Qed.

Lemma run_middleware_no_cookie E m req res w :
  own_handler m = true ->
  has_login_cookie req = false ->
  let o := run_middleware E m req res w in
  user_calls (trace (o_world o)) = user_calls (trace w) /\
  has_login_cookie (o_req o) = false.
Proof.
  intros Hown Hc. destruct m; try discriminate Hown; cbn [run_middleware]; cbv zeta.
  - unfold home. destruct (negb (isEnabled (config E) "reader")); split; auto.
  - unfold legacyRewriter. destruct (params req !! "section") as [s|]; [|split; auto].
    destruct (negb (mem_string s legacy_sections)); split; auto.
  - unfold discover. rewrite Hc. split; auto.
  - unfold plans. rewrite Hc. cbn [negb].
    destruct (q_is (query_get "for" (query req)) "jetpack"); split; auto.
  - split; auto.
  - unfold setChunk. destruct (isEnabled (config E) "code-splitting"); split; auto.
  - rewrite setUpRoute_logged_out by assumption. split.
    + apply setUpLoggedOutRoute_user_calls.
    + now rewrite setUpLoggedOutRoute_req.
  - split.
    + now apply setUpLoggedInRoute_no_cookie_user_calls.
    + now apply setUpLoggedInRoute_no_cookie_req.
  - split.
    + apply setUpLoggedOutRoute_user_calls.
    + now rewrite setUpLoggedOutRoute_req.
  - unfold serverRender. cbn [outcome o_world o_req]. rewrite user_calls_log. simpl. split; [lia|auto].
  - unfold render404.
    pose proof (generateStaticUrls_spec E req w) as (_ & _ & _ & Hu & _).
    destruct (generateStaticUrls E req w) as [[urls|] w1]; split; auto.
Qed.

Lemma run_chain_no_cookie E hs : forall req res w,
  forallb own_handler hs = true ->
  has_login_cookie req = false ->
  let o := run_chain E hs req res w in
  user_calls (trace (o_world o)) = user_calls (trace w) /\
  has_login_cookie (o_req o) = false.
Proof.
  induction hs as [|h hs IH]; intros req res w Hown Hc; [split; auto|].
  cbn [forallb] in Hown. apply andb_true_iff in Hown as [Hh Hhs].
  destruct (run_middleware_no_cookie E h req res w Hh Hc) as [Hu Hc'].
  cbn [run_chain]. cbv zeta.
  destruct (o_flow (run_middleware E h req res w)); try (split; assumption).
  destruct (IH (o_req (run_middleware E h req res w)) (o_res (run_middleware E h req res w))
              (o_world (run_middleware E h req res w)) Hhs Hc') as [Hu' Hc''].
  split; [congruence | assumption].
Qed.

(** Whatever the routes, as long as their handlers are those of this
    file, a request without the cookie never reaches the identity
    service. *)
Lemma dispatch_no_cookie E routes : forall req res w,
  own_routes routes ->
  has_login_cookie req = false ->
  let o := dispatch E routes req res w in
  user_calls (trace (o_world o)) = user_calls (trace w) /\
  has_login_cookie (o_req o) = false.
Proof.
  induction routes as [|r rs IH]; intros req res w Hown Hc; [split; auto|].
  inversion Hown as [|? ? Hr Hrs]; subst.
  cbn [dispatch]. cbv zeta.
  destruct (express_match E (r_verb r) (r_pattern r) (method req) (path req)) as [ps|];
    [|now apply IH].
  destruct (run_chain_no_cookie E (r_handlers r) (set_params ps req) res w Hr Hc) as [Hu Hc'].
  destruct (o_flow (run_chain E (r_handlers r) (set_params ps req) res w));
    try (split; assumption).
  destruct (IH (o_req (run_chain E (r_handlers r) (set_params ps req) res w))
              (o_res (run_chain E (r_handlers r) (set_params ps req) res w))
              (o_world (run_chain E (r_handlers r) (set_params ps req) res w)) Hrs Hc')
    as [Hu' Hc''].
  split; [congruence | assumption].
Qed.

Lemma cached_urls_lookup_none qs files : forall (urls : gmap string string) k,
  ~ In k (List.map sf_path files) ->
  cached_urls qs files urls !! k = urls !! k.
Proof.
  unfold cached_urls. induction files as [|f rest IH]; intros urls k Hk; [reflexivity|].
  cbn [fold_left]. rewrite IH by (intros H; apply Hk; now right).
  apply lookup_insert_ne. intros Heq. apply Hk. now left.
Qed.

Lemma proto_not_static cfg : ~ In "__proto__" (staticFile_paths cfg).
Proof.
  unfold staticFile_paths, vendor_file. cbn [In].
  intros [H|[H|[H|[H|[H|[H|[]]]]]]]; discriminate H.
Qed.

(** ** Growth of the token cache *)

Lemma cache_extends_refl files : cache_extends files files.
Proof. unfold cache_extends. induction files; constructor; auto. Qed.

Lemma cache_extends_trans a b c :
  cache_extends a b -> cache_extends b c -> cache_extends a c.
Proof.
  unfold cache_extends. intros Hab. revert c.
  induction Hab as [|x y a b [Hp Hh] Hab IH]; intros c Hbc; inversion Hbc; subst.
  - constructor.
  - constructor; [|now apply IH].
    match goal with H : _ /\ _ |- _ => destruct H as [Hp' Hh'] end.
    split; [congruence|]. intros Ht. rewrite Hh', Hh; auto.
    rewrite Hh; assumption.
Qed.

Lemma static_urls_extends E files : forall urls w,
  cache_extends files (fst (fst (static_urls E files urls w))).
Proof.
  induction files as [|f rest IH]; intros urls w; [constructor|].
  cbn [static_urls].
  destruct (JS.truthy (sf_hash f)) eqn:Hh.
  - specialize (IH (<[sf_path f := getUrl E (sf_path f) (JS.to_str (sf_hash f))]> urls) w).
    destruct (static_urls E rest _ w) as [[files' urls'] w']. cbn [fst] in *.
    constructor; [|exact IH]. split; [reflexivity|]. intros _. cbn [sf_hash].
    destruct (sf_hash f); [reflexivity | discriminate].
  - destruct (hashFile E _ w) as [h w1].
    specialize (IH (<[sf_path f := getUrl E (sf_path f) h]> urls) w1).
    destruct (static_urls E rest _ w1) as [[files' urls'] w']. cbn [fst] in *.
    constructor; [|exact IH]. split; [reflexivity|]. intros Ht. congruence.
Qed.

Lemma generateStaticUrls_extends E request w :
  cache_extends (staticFiles w) (staticFiles (snd (generateStaticUrls E request w))).
Proof.
  rewrite generateStaticUrls_unfold.
  pose proof (static_urls_extends E (staticFiles w) ∅ w) as H.
  destruct (static_urls E (staticFiles w) ∅ w) as [[files urls] w1]. exact H.
Qed.

Lemma setUpLoggedInRoute_staticFiles E req res w :
  staticFiles (o_world (setUpLoggedInRoute E req res w))
  = staticFiles (snd (generateStaticUrls E req w)).
Proof.
  rewrite <- getDefaultContext_world. unfold setUpLoggedInRoute.
  destruct (getDefaultContext E req w) as [[ctx|] w1]; [|reflexivity].
  destruct (wpcom_user_bootstrap (config E)); [|reflexivity].
  destruct (negb (has_login_cookie req)); [reflexivity|].
  cbn [now]. unfold user_callback.
  destruct (user_bootstrap E (header_Cookie req)) as [e|d|]; [| |reflexivity].
  - destruct (match error e with Some c => _ | None => _ end); reflexivity.
  - cbn [now]. destruct (String.eqb (path req) "/"); [|reflexivity].
    unfold root_redirects.
    destruct (q_truthy (if q_truthy (query_get "s" (query req)) then _ else _)); [reflexivity|].
    destruct (q_truthy (query_get "newuseremail" (query req))); [reflexivity|].
    destruct (q_is (query_get "action" (query req)) "wpcom-invite-users"); reflexivity.
Qed.

Lemma run_middleware_extends E m req res w :
  own_handler m = true ->
  cache_extends (staticFiles w) (staticFiles (o_world (run_middleware E m req res w))).
Proof.
  intros Hown. destruct m; try discriminate Hown; cbn [run_middleware].
  - unfold home. destruct (negb (isEnabled (config E) "reader")); apply cache_extends_refl.
  - unfold legacyRewriter. destruct (params req !! "section") as [s|];
      [destruct (negb (mem_string s legacy_sections))|]; apply cache_extends_refl.
  - unfold discover. destruct (negb (has_login_cookie req)); apply cache_extends_refl.
  - unfold plans. destruct (negb (has_login_cookie req));
      [destruct (q_is (query_get "for" (query req)) "jetpack")|]; apply cache_extends_refl.
  - apply cache_extends_refl.
  - unfold setChunk. destruct (isEnabled (config E) "code-splitting");
      apply cache_extends_refl.
  - unfold setUpRoute. destruct (setUpRoute_branch req);
      first [ rewrite setUpLoggedInRoute_staticFiles
            | rewrite setUpLoggedOutRoute_world ];
      apply generateStaticUrls_extends.
  - rewrite setUpLoggedInRoute_staticFiles. apply generateStaticUrls_extends.
  - rewrite setUpLoggedOutRoute_world. apply generateStaticUrls_extends.
  - apply cache_extends_refl.
  - unfold render404. pose proof (generateStaticUrls_extends E req w) as H.
    destruct (generateStaticUrls E req w) as [[urls|] w1]; exact H.
Qed.

Lemma run_chain_extends E hs : forall req res w,
  forallb own_handler hs = true ->
  cache_extends (staticFiles w) (staticFiles (o_world (run_chain E hs req res w))).
Proof.
  induction hs as [|h hs IH]; intros req res w Hown; [apply cache_extends_refl|].
  cbn [forallb] in Hown. apply andb_true_iff in Hown as [Hh Hhs].
  pose proof (run_middleware_extends E h req res w Hh) as H1.
  cbn [run_chain]. destruct (o_flow (run_middleware E h req res w)); try exact H1.
  eapply cache_extends_trans; [exact H1 | now apply IH].
Qed.

Lemma cache_extends_ok cfg w w' :
  cache_extends (staticFiles w) (staticFiles w') ->
  static_files_ok cfg w -> static_files_ok cfg w'.
Proof.
  unfold static_files_ok, cache_extends. intros H Hok. rewrite <- Hok. clear Hok.
  induction H as [|x y a b [Hp _] _ IH]; [reflexivity|]. cbn [List.map]. now rewrite Hp, IH.
Qed.

(** ** What the handlers leave of a request *)

Lemma same_request_refl r : same_request r r.
Proof. reflexivity. Qed.

Lemma same_request_trans r1 r2 r3 :
  same_request r1 r2 -> same_request r2 r3 -> same_request r1 r3.
Proof. unfold same_request. congruence. Qed.

Lemma same_request_context c r : same_request r (set_context c r).
Proof. reflexivity. Qed.


Lemma same_request_cookie r r' :
  same_request r r' -> has_login_cookie r' = has_login_cookie r.
Proof.
  intros H. unfold has_login_cookie.
  change (cookie_wordpress_logged_in r') with (cookie_wordpress_logged_in (request_core r')).
  now rewrite H.
Qed.



Lemma setUpLoggedInRoute_same_request E req res w :
  same_request req (o_req (setUpLoggedInRoute E req res w)).
Proof.
  unfold setUpLoggedInRoute.
  destruct (getDefaultContext E req w) as [[ctx|] w1]; [|reflexivity].
  destruct (wpcom_user_bootstrap (config E)); [|reflexivity].
  destruct (negb (has_login_cookie req)); [reflexivity|].
  cbn [now]. unfold user_callback.
  destruct (user_bootstrap E (header_Cookie req)) as [e|d|]; [| |reflexivity].
  - destruct (match error e with Some c => _ | None => _ end); reflexivity.
  - cbn [now]. destruct (String.eqb (path req) "/"); [|reflexivity].
    unfold root_redirects.
    destruct (q_truthy (if q_truthy (query_get "s" (query req)) then _ else _)); [reflexivity|].
    destruct (q_truthy (query_get "newuseremail" (query req))); [reflexivity|].
    destruct (q_is (query_get "action" (query req)) "wpcom-invite-users"); reflexivity.
Qed.

Lemma setUpLoggedOutRoute_same_request E req res w :
  same_request req (o_req (setUpLoggedOutRoute E req res w)).
Proof.
  unfold setUpLoggedOutRoute. destruct (getDefaultContext E req w) as [[ctx|] w1]; reflexivity.
Qed.

(** The handlers of this file write nothing but [params] and [context]
    on the request. *)
Lemma run_middleware_same_request E m req res w :
  own_handler m = true ->
  same_request req (o_req (run_middleware E m req res w)).
Proof.
  intros Hown. destruct m; try discriminate Hown; cbn [run_middleware].
  - unfold home. destruct (negb (isEnabled (config E) "reader")); reflexivity.
  - unfold legacyRewriter. destruct (params req !! "section") as [s|];
      [destruct (negb (mem_string s legacy_sections))|]; reflexivity.
  - unfold discover. destruct (negb (has_login_cookie req)); reflexivity.
  - unfold plans. destruct (negb (has_login_cookie req));
      [destruct (q_is (query_get "for" (query req)) "jetpack")|]; reflexivity.
  - reflexivity.
  - unfold setChunk. destruct (isEnabled (config E) "code-splitting"); reflexivity.
  - unfold setUpRoute. destruct (setUpRoute_branch req);
      first [ apply setUpLoggedInRoute_same_request | apply setUpLoggedOutRoute_same_request ].
  - apply setUpLoggedInRoute_same_request.
  - apply setUpLoggedOutRoute_same_request.
  - reflexivity.
  - unfold render404. destruct (generateStaticUrls E req w) as [[urls|] w1]; reflexivity.
Qed.

Lemma run_chain_same_request E hs : forall req res w,
  forallb own_handler hs = true ->
  same_request req (o_req (run_chain E hs req res w)).
Proof.
  induction hs as [|h hs IH]; intros req res w Hown; [reflexivity|].
  cbn [forallb] in Hown. apply andb_true_iff in Hown as [Hh Hhs].
  pose proof (run_middleware_same_request E h req res w Hh) as H1.
  cbn [run_chain]. destruct (o_flow (run_middleware E h req res w)); try exact H1.
  eapply same_request_trans; [exact H1 | now apply IH].
Qed.






(** The login URL in terms of the configuration and the request. *)
Lemma login_redirect_url_explicit E req :
  login_redirect_url E req =
  login_url (config E) ++ "?" ++
  qs_stringify E
    [("redirect_to",
      QStr ((if decide (header_X_Forwarded_Proto req = Some "https") then "https" else "http")
            ++ "://" ++ hostname (config E) ++ originalUrl req))].
Proof.
  unfold login_redirect_url.
  destruct (header_X_Forwarded_Proto req) as [p|].
  - destruct (String.eqb p "https") eqn:Hp.
    + apply String.eqb_eq in Hp. subst p. now rewrite decide_True.
    + apply String.eqb_neq in Hp. rewrite decide_False; [reflexivity|]. congruence.
  - now rewrite decide_False.
Qed.

(** ** The set-ups a request goes through *)

Lemma set_up_of_logged_out m req :
  set_up_of m req = Some LoggedOut ->
  m = MSetUpLoggedOutRoute \/ (m = MSetUpRoute /\ has_login_cookie req = false).
Proof.
  destruct m; try discriminate; cbn [set_up_of]; [|auto].
  unfold setUpRoute_branch. destruct (has_login_cookie req); [discriminate|auto].
Qed.

Lemma set_up_of_logged_in m req :
  set_up_of m req = Some LoggedIn ->
  m = MSetUpLoggedInRoute \/ (m = MSetUpRoute /\ has_login_cookie req = true).
Proof.
  destruct m; try discriminate; cbn [set_up_of]; [|auto].
  unfold setUpRoute_branch. destruct (has_login_cookie req); [auto|discriminate].
Qed.

Lemma in_set_up s (o : option SetUp) :
  In s (match o with Some s' => [s'] | None => [] end) -> o = Some s.
Proof. destruct o as [s'|]; [intros [->|[]]; reflexivity | intros []]. Qed.

Lemma chain_set_ups_logged_out E hs : forall req res w,
  forallb own_handler hs = true ->
  ~ In MSetUpLoggedOutRoute hs ->
  In LoggedOut (chain_set_ups E hs req res w) ->
  has_login_cookie req = false.
Proof.
  induction hs as [|h hs IH]; intros req res w Hown Hno Hin; [destruct Hin|].
  cbn [forallb] in Hown. apply andb_true_iff in Hown as [Hh Hhs].
  cbn [chain_set_ups] in Hin. cbv zeta in Hin. apply in_app_or in Hin as [Hin|Hin].
  - apply in_set_up, set_up_of_logged_out in Hin as [->|[_ Hc]]; [|exact Hc].
    exfalso. apply Hno. now left.
  - destruct (o_flow (run_middleware E h req res w)); try destruct Hin.
    apply IH in Hin; [|exact Hhs|intros H; apply Hno; now right].
    rewrite (same_request_cookie req) in Hin by now apply run_middleware_same_request.
    exact Hin.
Qed.

Lemma chain_set_ups_logged_in E hs : forall req res w,
  forallb own_handler hs = true ->
  has_login_cookie req = false ->
  In LoggedIn (chain_set_ups E hs req res w) ->
  In MSetUpLoggedInRoute hs.
Proof.
  induction hs as [|h hs IH]; intros req res w Hown Hc Hin; [destruct Hin|].
  cbn [forallb] in Hown. apply andb_true_iff in Hown as [Hh Hhs].
  cbn [chain_set_ups] in Hin. cbv zeta in Hin. apply in_app_or in Hin as [Hin|Hin].
  - apply in_set_up, set_up_of_logged_in in Hin as [->|[_ Hc']]; [now left|congruence].
  - destruct (o_flow (run_middleware E h req res w)); try destruct Hin.
    right. apply IH in Hin; [exact Hin|exact Hhs|].
    rewrite (same_request_cookie req) by now apply run_middleware_same_request.
    exact Hc.
Qed.

Lemma set_ups_taken_logged_out E routes : forall req res w,
  own_routes routes ->
  (forall r, In r routes -> ~ In MSetUpLoggedOutRoute (r_handlers r)) ->
  In LoggedOut (set_ups_taken E routes req res w) ->
  has_login_cookie req = false.
Proof.
  induction routes as [|r rs IH]; intros req res w Hown Hno Hin; [destruct Hin|].
  inversion Hown as [|? ? Hr Hrs]; subst. cbn [set_ups_taken] in Hin.
  destruct (express_match E (r_verb r) (r_pattern r) (method req) (path req)) as [ps|].
  - cbv zeta in Hin. apply in_app_or in Hin as [Hin|Hin].
    + apply chain_set_ups_logged_out in Hin; [exact Hin|exact Hr|].
      apply Hno. now left.
    + destruct (o_flow (run_chain E (r_handlers r) (set_params ps req) res w));
        try destruct Hin.
      apply IH in Hin; [|exact Hrs|intros r' Hr'; apply Hno; now right].
      rewrite (same_request_cookie (set_params ps req)) in Hin
        by now apply run_chain_same_request.
      exact Hin.
  - apply IH in Hin; [exact Hin|exact Hrs|]. intros r' Hr'. apply Hno. now right.
Qed.

Lemma set_ups_taken_logged_in E routes : forall req res w,
  own_routes routes ->
  has_login_cookie req = false ->
  In LoggedIn (set_ups_taken E routes req res w) ->
  exists r, In r routes /\ In MSetUpLoggedInRoute (r_handlers r).
Proof.
  induction routes as [|r rs IH]; intros req res w Hown Hc Hin; [destruct Hin|].
  inversion Hown as [|? ? Hr Hrs]; subst. cbn [set_ups_taken] in Hin.
  destruct (express_match E (r_verb r) (r_pattern r) (method req) (path req)) as [ps|].
  - cbv zeta in Hin. apply in_app_or in Hin as [Hin|Hin].
    + exists r. split; [now left|].
      now apply (chain_set_ups_logged_in E _ (set_params ps req) res w).
    + destruct (o_flow (run_chain E (r_handlers r) (set_params ps req) res w));
        try destruct Hin.
      apply IH in Hin as (r' & Hr' & Hm);
        [exists r'; split; [now right|exact Hm]|exact Hrs|].
      rewrite (same_request_cookie (set_params ps req)) by now apply run_chain_same_request.
      exact Hc.
  - apply IH in Hin as (r' & Hr' & Hm); [|exact Hrs|exact Hc].
    exists r'. split; [now right|exact Hm].
Qed.

Lemma dispatch_extends E routes : forall req res w,
  own_routes routes ->
  cache_extends (staticFiles w) (staticFiles (o_world (dispatch E routes req res w))).
Proof.
  induction routes as [|r rs IH]; intros req res w Hown; [apply cache_extends_refl|].
  inversion Hown as [|? ? Hr Hrs]; subst. cbn [dispatch].
  destruct (express_match E (r_verb r) (r_pattern r) (method req) (path req)) as [ps|];
    [|now apply IH].
  pose proof (run_chain_extends E (r_handlers r) (set_params ps req) res w Hr) as H1.
  destruct (o_flow (run_chain E (r_handlers r) (set_params ps req) res w)); try exact H1.
  eapply cache_extends_trans; [exact H1 | now apply IH].
Qed.

(** ** The digits of a digest *)




(** ** The routes of the application *)

(** The routes that [module.exports] registers are made of the
    handlers of this file, and none registers the logged-out set-up on
    its own, as long as this holds of what the isomorphic sections
    bring along. *)
Lemma module_exports_own E w routes :
  module_exports E w = Some routes ->
  (forall s, own_routes (isomorphic_routes E s) /\
             forall r, In r (isomorphic_routes E s) ->
                       ~ In MSetUpLoggedOutRoute (r_handlers r)) ->
  own_routes routes /\
  forall r, In r routes -> ~ In MSetUpLoggedOutRoute (r_handlers r).
Proof.
  intros Hroutes Hiso.
  assert (Hgood : forall l : list Route,
            (own_routes l /\ forall r, In r l -> ~ In MSetUpLoggedOutRoute (r_handlers r))
            <-> Forall (fun r => forallb own_handler (r_handlers r) = true /\
                                 ~ In MSetUpLoggedOutRoute (r_handlers r)) l).
  { intros l. unfold own_routes. rewrite !List.Forall_forall. split.
    - intros [H1 H2] r Hr. split; [now apply H1 | now apply H2].
    - intros H. split; intros r Hr; now apply H. }
  apply Hgood.
  assert (Hfirst : Forall (fun r => forallb own_handler (r_handlers r) = true /\
                                    ~ In MSetUpLoggedOutRoute (r_handlers r)) (first_routes E)).
  { unfold first_routes. destruct (negb (is_development (config E)));
      repeat constructor; cbn; intros H; repeat (destruct H as [H|H]; [discriminate H|]);
      exact H. }
  assert (Hlast : Forall (fun r => forallb own_handler (r_handlers r) = true /\
                                   ~ In MSetUpLoggedOutRoute (r_handlers r))
                    [route Get (PString "*") [MRender404]]).
  { repeat constructor. cbn. intros [H|[]]. discriminate H. }
  assert (Hsection : forall s,
            Forall (fun r => forallb own_handler (r_handlers r) = true /\
                             ~ In MSetUpLoggedOutRoute (r_handlers r)) (section_routes E s)).
  { intros s. unfold section_routes. apply List.Forall_app. split.
    - apply List.Forall_flat_map, List.Forall_forall. intros p _.
      destruct (negb (isomorphic s)); [destruct (enableLoggedOut s)|];
        repeat constructor; cbn; intros H;
        repeat (destruct H as [H|H]; [discriminate H|]); exact H.
    - destruct (isomorphic s); [|constructor]. apply Hgood, Hiso. }
  unfold module_exports in Hroutes.
  destruct (sections w) as [l|[|n l]]; [| |discriminate];
    apply (inj Some) in Hroutes; rewrite <- Hroutes.
  - apply List.Forall_app. split; [exact Hfirst|]. apply List.Forall_app.
    split; [|exact Hlast]. apply List.Forall_flat_map, List.Forall_forall. intros s _.
    apply Hsection.
  - apply List.Forall_app. split; [exact Hfirst|exact Hlast].
Qed.

(** * The properties of the specification *)

(** C1, as amended. The auth gate [setUpRoute] hands a request to the
    logged-in set-up if and only if the cookie [wordpress_logged_in] is
    there (set to a value that JavaScript takes as true), and to the
    logged-out set-up otherwise. Through a whole route table made of
    the handlers of this file only one direction is left: the
    logged-out set-up is taken only by a request without the cookie
    when no route registers it on its own, as is the case of the
    routes of [module.exports]; whereas a request without the cookie
    does take the logged-in set-up, on the routes that register
    [setUpLoggedInRoute] itself, as the sections without logged-out
    access do. In every case a request without the cookie never makes
    the pipeline call the identity service: not in any of the set-up
    handlers, and not anywhere in such a route table. *)
Theorem C1_cookie_gate (E : Env) (req : Request) (res : Response) (w : World) :
  (setUpRoute_branch req = MSetUpLoggedInRoute <-> has_login_cookie req = true) /\
  (setUpRoute_branch req = MSetUpLoggedOutRoute <-> has_login_cookie req = false) /\
  setUpRoute E req res w = run_middleware E (setUpRoute_branch req) req res w /\
  (forall routes, own_routes routes ->
     (In LoggedIn (set_ups_taken E routes req res w) -> has_login_cookie req = false ->
      exists r, In r routes /\ In MSetUpLoggedInRoute (r_handlers r)) /\
     ((forall r, In r routes -> ~ In MSetUpLoggedOutRoute (r_handlers r)) ->
      In LoggedOut (set_ups_taken E routes req res w) -> has_login_cookie req = false)) /\
  (forall w0 routes,
     module_exports E w0 = Some routes ->
     (forall s, own_routes (isomorphic_routes E s) /\
                forall r, In r (isomorphic_routes E s) ->
                          ~ In MSetUpLoggedOutRoute (r_handlers r)) ->
     own_routes routes /\
     forall r, In r routes -> ~ In MSetUpLoggedOutRoute (r_handlers r)) /\
  (has_login_cookie req = false ->
   (forall m, In m [MSetUpRoute; MSetUpLoggedInRoute; MSetUpLoggedOutRoute] ->
      user_calls (trace (o_world (run_middleware E m req res w))) = user_calls (trace w)) /\
   (forall routes, own_routes routes ->
      user_calls (trace (o_world (dispatch E routes req res w))) = user_calls (trace w))).
Proof.
  split; [|split; [|split; [|split; [|split]]]].
  - unfold setUpRoute_branch. destruct (has_login_cookie req); split; congruence.
  - unfold setUpRoute_branch. destruct (has_login_cookie req); split; congruence.
  - unfold setUpRoute, setUpRoute_branch. destruct (has_login_cookie req); reflexivity.
  - intros routes Hown. split.
    + intros Hin Hc. now apply (set_ups_taken_logged_in E routes req res w).
    + intros Hno Hin. now apply (set_ups_taken_logged_out E routes req res w).
  - intros w0 routes. apply module_exports_own.
  - intros Hc. split.
    + intros m Hm. apply run_middleware_no_cookie; [|assumption].
      simpl in Hm. destruct Hm as [<-|[<-|[<-|[]]]]; reflexivity.
    + intros routes Hown. now apply dispatch_no_cookie.
Qed.

(** C1 as the spec words it fails: on the example server the request
    for [/stats] without the cookie goes through the logged-in set-up,
    which the section registers without the gate, and is sent to the
    login page. *)
Lemma C1_counterexample :
  match module_exports demo_env demo_world with
  | Some routes =>
      let req := stats_request None in
      let o := dispatch demo_env routes req fresh_response demo_world in
      has_login_cookie req = false /\
      set_ups_taken demo_env routes req fresh_response demo_world = [LoggedIn] /\
      o_flow o = Ended /\
      body (o_res o)
      = Some (Redirect
          "https://wordpress.com/wp-login.php?redirect_to=https%3A%2F%2Fwordpress.com%2Fstats")
  | None => False
  end.
Proof. vm_compute. repeat split; reflexivity. Qed.

(** C4. With the user bootstrap switched off, a request that carries the
    session cookie goes through the logged-in set-up without any call
    to the identity service and without a redirect (nothing is sent,
    the status is untouched); the next handler runs, with a context
    whose [user] is [false]. *)
Theorem C4_bootstrap_disabled (E : Env) (req : Request) (res : Response) (w : World) :
  wpcom_user_bootstrap (config E) = false ->
  has_login_cookie req = true ->
  static_files_ok (config E) w ->
  let o := setUpRoute E req res w in
  o = setUpLoggedInRoute E req res w /\
  o_flow o = Next /\
  body (o_res o) = body res /\
  status (o_res o) = status res /\
  user_calls (trace (o_world o)) = user_calls (trace w) /\
  context (o_req o) !! "user" = Some (VBool false) /\
  falsy (context (o_req o) !! "user") = true.
Proof.
  intros Hboot Hc Hok o. subst o.
  rewrite setUpRoute_logged_in by assumption.
  split; [reflexivity|].
  pose proof (getDefaultContext_user_calls E req w) as Hcalls.
  destruct (getDefaultContext_total E req w Hok) as (ctx & Hg & Huser & _).
  unfold setUpLoggedInRoute. rewrite Hg in *. rewrite Hboot. simpl in *.
  rewrite Huser. repeat split; auto.
Qed.

(** C2. When the call to the identity service fails on the logged-in
    path: an error whose code is [authorization_required] is answered
    with a redirect (302) to the login URL, which is the configured
    [login_url] with the parameter [redirect_to] set to the address of
    the request: [https] or [http] after the header
    [X-Forwarded-Proto], the configured host name and the original URL;
    any other error is answered with status 500 and the view [500],
    rendered with the default context, and the message logged is the
    code, a space and the message when the error has both; in either
    case the next handler is not called. *)
Theorem C2_identity_failure (E : Env) (req : Request) (res : Response) (w : World)
    (e : ApiError) :
  static_files_ok (config E) w ->
  wpcom_user_bootstrap (config E) = true ->
  has_login_cookie req = true ->
  user_bootstrap E (header_Cookie req) = ReplyError e ->
  let o := setUpLoggedInRoute E req res w in
  o_flow o = Ended /\
  (error e = Some "authorization_required" ->
   status (o_res o) = 302%Z /\
   body (o_res o)
   = Some (Redirect
       (login_url (config E) ++ "?" ++
        qs_stringify E
          [("redirect_to",
            QStr ((if decide (header_X_Forwarded_Proto req = Some "https")
                   then "https" else "http")
                  ++ "://" ++ hostname (config E) ++ originalUrl req))]))) /\
  (error e <> Some "authorization_required" ->
   status (o_res o) = 500%Z /\
   (exists ctx, fst (getDefaultContext E req w) = Some ctx /\
                body (o_res o) = Some (Render "500" ctx)) /\
   (forall code msg, error e = Some code -> code <> EmptyString -> message e = Some msg ->
      last (trace (o_world o)) = Some (EConsoleLog ("API Error: " ++ code ++ " " ++ msg)))).
Proof.
  intros Hok Hboot Hc Hreply o. subst o.
  destruct (getDefaultContext_total E req w Hok) as (ctx & Hg & _).
  unfold setUpLoggedInRoute. rewrite Hg, Hboot, Hc, Hreply.
  cbn [negb now fst snd]. unfold user_callback.
  destruct (error e) as [c|] eqn:He.
  - destruct (String.eqb c "authorization_required") eqn:Hauth.
    + apply String.eqb_eq in Hauth. subst c.
      split; [reflexivity|]. split; [|intros Hne; congruence].
      intros _. split; [reflexivity|].
      now rewrite <- login_redirect_url_explicit.
    + apply String.eqb_neq in Hauth.
      split; [reflexivity|]. split; [intros Heq; congruence|]. intros _.
      split; [reflexivity|]. split; [exists ctx; split; reflexivity|].
      intros code msg Hcode Hnonempty Hmsg. injection Hcode as ->. rewrite Hmsg.
      cbn [outcome o_world log trace]. rewrite last_snoc.
      destruct code; [congruence|]. reflexivity.
  - split; [reflexivity|]. split; [discriminate|]. intros _.
    split; [reflexivity|]. split; [exists ctx; split; reflexivity|].
    intros code msg Hcode. discriminate.
Qed.

(** C9. A request for the root path that carries the cookie, whose user
    the identity service resolves, and whose query has [s=hello], is
    answered with a redirect to the search site: the host is the
    resolved locale followed by [.search.wordpress.com] and the
    parameter [q] is the percent-encoding of [hello], which is [hello]. *)
Theorem C9_search_redirect (E : Env) (req : Request) (res : Response) (w : World)
    (data : UserData) :
  static_files_ok (config E) w ->
  wpcom_user_bootstrap (config E) = true ->
  has_login_cookie req = true ->
  user_bootstrap E (header_Cookie req) = ReplyData data ->
  path req = "/" ->
  query_get "s" (query req) = Some (QStr "hello") ->
  let o := setUpLoggedInRoute E req res w in
  o_flow o = Ended /\
  status (o_res o) = 302%Z /\
  body (o_res o) =
    Some (Redirect ("https://" ++ resolved_locale E data ++ ".search.wordpress.com/?q="
                    ++ JS.encodeURIComponent "hello")) /\
  JS.encodeURIComponent "hello" = "hello".
Proof.
  intros Hok Hboot Hc Hreply Hpath Hs o. subst o.
  destruct (getDefaultContext_total E req w Hok) as (ctx & Hg & _ & Hlang).
  unfold setUpLoggedInRoute. rewrite Hg, Hboot, Hc, Hreply.
  cbn [negb now fst snd]. unfold user_callback. cbn [now].
  rewrite Hpath. cbn [String.eqb Ascii.eqb Bool.eqb]. unfold root_redirects. rewrite Hs.
  cbn [q_truthy String.eqb negb q_coerce q_to_string outcome o_flow o_res res_redirect status body].
  repeat split. unfold resolved_locale.
  destruct (JS.truthy (localeSlug data)).
  - rewrite lookup_insert_eq. reflexivity.
  - rewrite !lookup_insert_ne by done. rewrite Hlang. reflexivity.
Qed.


(** C6. After a first request every static file has its token in the
    cache; from then on no call, under any state of the files and of
    the clock, reads a file or changes the cache (the world stays as it
    is); and the same logged-out request served a second time gets the
    same URL map in its context. When the world holds the configured
    static files that map is there. Over the life of a process, from
    its start, each static file is read once, by the first call. *)
Theorem C6_tokens_computed_once (E E' : Env) (req req' : Request) (res : Response)
    (w : World) :
  let o1 := setUpLoggedOutRoute E req res w in
  let o2 := setUpLoggedOutRoute E req res (o_world o1) in
  all_hashed (staticFiles (o_world o1)) /\
  snd (generateStaticUrls E' req' (o_world o1)) = o_world o1 /\
  o_world o2 = o_world o1 /\
  context (o_req o2) !! "urls" = context (o_req o1) !! "urls" /\
  (static_files_ok (config E) w ->
   exists urls, fst (generateStaticUrls E req w) = Some urls /\
                context (o_req o1) !! "urls" = Some (VUrls urls)) /\
  (forall cfg manifest calls,
     trace (after_calls ((E, req) :: calls) (initial_world cfg manifest))
     = List.map (fun p => EReadFile (served_file E p)) (staticFile_paths cfg)).
Proof.
  intros o1 o2. subst o1 o2.
  rewrite !setUpLoggedOutRoute_world, !setUpLoggedOutRoute_context.
  destruct (generateStaticUrls_spec E req w) as (Hp & Hall & _ & _ & _ & Hr).
  set (w1 := snd (generateStaticUrls E req w)) in *.
  split; [exact Hall|].
  split; [now rewrite generateStaticUrls_cached|].
  split; [now rewrite generateStaticUrls_cached|].
  split.
  - rewrite (getDefaultContext_fst E req w1 w); [reflexivity|].
    rewrite generateStaticUrls_cached by assumption. simpl. now rewrite Hr.
  - split; [|intros; apply each_file_hashed_once].
    intros Hok. destruct (generateStaticUrls_total E req w Hok) as [urls Hu].
    exists urls. split; [exact Hu|].
    destruct (getDefaultContext_fields E req w urls Hu) as (ctx & Hc & _ & Hurls & _).
    now rewrite Hc.
Qed.

(** C8, as amended. Outside development every asset of the request's
    asset list has an entry under its name followed by [-min] in the
    URL map, and one under its name unless that name is [__proto__], a
    key under which the object stores no string. Unless a later asset
    of the list writes the same key, the [-min] entry is the asset's
    URL with its first [.js] replaced by [.m.js], and the entry under
    the name is the asset's URL. *)
Theorem C8_minified_variant (E : Env) (request : Request) (w : World)
    (urls : gmap string string) (before : list Asset) (a : Asset) (after : list Asset) :
  env (config E) <> "development" ->
  fst (generateStaticUrls E request w) = Some urls ->
  assets request = (before ++ a :: after)%list ->
  ~ In (asset_key a ++ "-min") (asset_keys after) ->
  urls !! (asset_key a ++ "-min") = Some (JS.replace ".js" ".m.js" (asset_url a)) /\
  (~ In (asset_key a) (asset_keys after) -> asset_key a <> "__proto__" ->
   urls !! asset_key a = Some (asset_url a)) /\
  (forall b, In b (assets request) ->
     (asset_key b <> "__proto__" -> is_Some (urls !! asset_key b)) /\
     is_Some (urls !! (asset_key b ++ "-min"))) /\
  (static_files_ok (config E) w -> urls !! "__proto__" = None).
Proof.
  intros Hdev Hu Hsplit Hmin.
  assert (Hdev' : is_development (config E) = false)
    by (unfold is_development; now apply String.eqb_neq).
  destruct (generateStaticUrls_spec E request w) as (Hp & _ & _ & _ & _ & Hr).
  rewrite Hr in Hu. unfold finish_urls in Hu.
  destruct (cached_urls _ _ _ !! vendor_file (config E)) as [v|]; [|discriminate].
  injection Hu as <-.
  split; [|split; [|split]].
  - rewrite Hsplit. now apply fold_add_asset_lookup.
  - rewrite Hsplit. now apply fold_add_asset_lookup.
  - intros b Hb. now apply fold_add_asset_dom.
  - intros Hok. rewrite fold_add_asset_proto.
    rewrite !lookup_insert_ne by discriminate.
    rewrite cached_urls_lookup_none; [apply lookup_empty|].
    rewrite Hp, Hok. apply proto_not_static.
Qed.

(** C8 as the spec words it fails: the first [.js] of the URL is
    replaced, which is not the trailing one in the URL of a bundle
    called [chart.js]. *)
Lemma C8_counterexample :
  ~ spec_min_variants demo_env (get "/" None [] [chart_asset]) demo_world.
Proof.
  intros H.
  specialize (H ltac:(discriminate) _ eq_refl chart_asset ltac:(now left)).
  vm_compute in H. discriminate H.
Qed.

(** C7, as amended. Every request that goes through [setUpRoute],
    [setUpLoggedInRoute] or [setUpLoggedOutRoute] has the header
    [X-Frame-Options: SAMEORIGIN] on its response, whatever the answer
    (next handler, redirect or error page); the handlers of the other
    routes, the 404 page and the redirects, do not set it: after them
    the header is on the response only if it was there before. *)
Theorem C7_frame_options (E : Env) (req : Request) (res : Response) (w : World) :
  static_files_ok (config E) w ->
  (forall m, In m [MSetUpRoute; MSetUpLoggedInRoute; MSetUpLoggedOutRoute] ->
     headers (o_res (run_middleware E m req res w)) !! "X-Frame-Options" = Some "SAMEORIGIN") /\
  (forall m, In m [MHome; MLegacyRewriter; MDiscover; MPlans; MTheme; MRender404] ->
     headers (o_res (run_middleware E m req res w)) !! "X-Frame-Options"
     = headers res !! "X-Frame-Options").
Proof.
  intros Hok. split; intros m Hm; simpl in Hm.
  - assert (Hin : headers (o_res (setUpLoggedInRoute E req res w)) !! "X-Frame-Options"
                  = Some "SAMEORIGIN")
      by (rewrite setUpLoggedInRoute_headers; apply lookup_insert_eq).
    assert (Hout : headers (o_res (setUpLoggedOutRoute E req res w)) !! "X-Frame-Options"
                   = Some "SAMEORIGIN")
      by (rewrite setUpLoggedOutRoute_headers by assumption; apply lookup_insert_eq).
    destruct Hm as [<-|[<-|[<-|[]]]]; cbn [run_middleware]; try assumption.
    unfold setUpRoute. destruct (setUpRoute_branch req); assumption.
  - f_equal.
    destruct Hm as [<-|[<-|[<-|[<-|[<-|[<-|[]]]]]]]; cbn [run_middleware].
    + unfold home. destruct (negb (isEnabled (config E) "reader")); reflexivity.
    + apply legacyRewriter_headers.
    + unfold discover. destruct (negb (has_login_cookie req)); reflexivity.
    + unfold plans. destruct (negb (has_login_cookie req)); [|reflexivity].
      destruct (q_is (query_get "for" (query req)) "jetpack"); reflexivity.
    + reflexivity.
    + apply render404_headers.
Qed.

(** C7 as the spec words it fails: the answer to a request for an
    unknown path is the 404 page without the header, and the answer to
    [/theme] is a redirect without it. *)
Lemma C7_counterexample :
  match module_exports demo_env demo_world with
  | Some routes =>
      let o := dispatch demo_env routes (get "/nowhere" None [] []) fresh_response demo_world in
      let o' := dispatch demo_env routes (get "/theme" None [] []) fresh_response demo_world in
      (o_flow o = Ended /\ status (o_res o) = 404%Z /\
       headers (o_res o) !! "X-Frame-Options" = None) /\
      (o_flow o' = Ended /\ body (o_res o') = Some (Redirect "/design") /\
       headers (o_res o') !! "X-Frame-Options" = None)
  | None => False
  end.
Proof. vm_compute. repeat split; reflexivity. Qed.



(** C3, at a site outside the character class of the rewriter. For the
    site of a blog in a subdirectory, [example.com::blog], and the
    section [posts] of the allow-list, the pattern of the replacement
    does not match and the request is redirected to its own URL, not to
    [/posts/example.com::blog]. *)
Theorem C3_rewriter_redirects_to_itself :
  match module_exports demo_env demo_world with
  | Some routes =>
      let o := dispatch demo_env routes (get "/sites/example.com::blog/posts" None [] [])
                 fresh_response demo_world in
      o_flow o = Ended /\
      params (o_req o) !! "site" = Some "example.com::blog" /\
      params (o_req o) !! "section" = Some "posts" /\
      body (o_res o) = Some (Redirect "/sites/example.com::blog/posts") /\
      body (o_res o) <> Some (Redirect "/posts/example.com::blog")
  | None => False
  end.
Proof. vm_compute. repeat split; try reflexivity. discriminate. Qed.

(** ** The theorems at work on the example server *)

Lemma C4_witness :
  wpcom_user_bootstrap (config no_bootstrap_env) = false /\
  has_login_cookie (stats_request (Some "alice%7C1234")) = true /\
  static_files_ok (config no_bootstrap_env) demo_world /\
  o_flow (setUpRoute no_bootstrap_env (stats_request (Some "alice%7C1234"))
            fresh_response demo_world) = Next.
Proof.
  assert (H1 : wpcom_user_bootstrap (config no_bootstrap_env) = false) by reflexivity.
  assert (H2 : has_login_cookie (stats_request (Some "alice%7C1234")) = true) by reflexivity.
  assert (H3 : static_files_ok (config no_bootstrap_env) demo_world) by reflexivity.
  refine (conj H1 (conj H2 (conj H3 _))).
  apply (C4_bootstrap_disabled no_bootstrap_env (stats_request (Some "alice%7C1234"))
           fresh_response demo_world H1 H2 H3).
Defined.

Lemma C2_witness :
  (static_files_ok (config unauthorized_env) demo_world /\
   wpcom_user_bootstrap (config unauthorized_env) = true /\
   has_login_cookie (stats_request (Some "alice%7C1234")) = true /\
   user_bootstrap unauthorized_env (header_Cookie (stats_request (Some "alice%7C1234")))
     = ReplyError missing_session /\
   body (o_res (setUpLoggedInRoute unauthorized_env (stats_request (Some "alice%7C1234"))
                  fresh_response demo_world))
   = Some (Redirect
       "https://wordpress.com/wp-login.php?redirect_to=https%3A%2F%2Fwordpress.com%2Fstats")) /\
  (user_bootstrap failing_env (header_Cookie (stats_request (Some "alice%7C1234")))
     = ReplyError expired_token /\
   status (o_res (setUpLoggedInRoute failing_env (stats_request (Some "alice%7C1234"))
                    fresh_response demo_world)) = 500%Z /\
   last (trace (o_world (setUpLoggedInRoute failing_env (stats_request (Some "alice%7C1234"))
                           fresh_response demo_world)))
   = Some (EConsoleLog "API Error: invalid_token The token has expired")).
Proof.
  assert (H1 : static_files_ok (config unauthorized_env) demo_world) by reflexivity.
  assert (H2 : wpcom_user_bootstrap (config unauthorized_env) = true) by reflexivity.
  assert (H3 : has_login_cookie (stats_request (Some "alice%7C1234")) = true) by reflexivity.
  assert (H4 : user_bootstrap unauthorized_env
                 (header_Cookie (stats_request (Some "alice%7C1234")))
               = ReplyError missing_session) by reflexivity.
  assert (H5 : user_bootstrap failing_env
                 (header_Cookie (stats_request (Some "alice%7C1234")))
               = ReplyError expired_token) by reflexivity.
  split.
  - refine (conj H1 (conj H2 (conj H3 (conj H4 _)))).
    destruct (C2_identity_failure unauthorized_env (stats_request (Some "alice%7C1234"))
                fresh_response demo_world missing_session H1 H2 H3 H4) as (_ & Hauth & _).
    destruct (Hauth eq_refl) as [_ Hb]. rewrite Hb. vm_compute. reflexivity.
  - refine (conj H5 _).
    destruct (C2_identity_failure failing_env (stats_request (Some "alice%7C1234"))
                fresh_response demo_world expired_token H1 H2 H3 H5) as (_ & _ & Hother).
    destruct (Hother ltac:(discriminate)) as (Hs & _ & Hlog).
    split; [exact Hs|].
    rewrite (Hlog "invalid_token" "The token has expired" eq_refl ltac:(discriminate) eq_refl).
    reflexivity.
Defined.

Lemma C9_witness :
  static_files_ok (config demo_env) demo_world /\
  wpcom_user_bootstrap (config demo_env) = true /\
  has_login_cookie search_request = true /\
  user_bootstrap demo_env (header_Cookie search_request) = ReplyData french_user /\
  path search_request = "/" /\
  query_get "s" (query search_request) = Some (QStr "hello") /\
  body (o_res (setUpLoggedInRoute demo_env search_request fresh_response demo_world))
    = Some (Redirect "https://fr.search.wordpress.com/?q=hello").
Proof.
  assert (H1 : static_files_ok (config demo_env) demo_world) by reflexivity.
  assert (H2 : wpcom_user_bootstrap (config demo_env) = true) by reflexivity.
  assert (H3 : has_login_cookie search_request = true) by reflexivity.
  assert (H4 : user_bootstrap demo_env (header_Cookie search_request) = ReplyData french_user)
    by reflexivity.
  assert (H5 : path search_request = "/") by reflexivity.
  assert (H6 : query_get "s" (query search_request) = Some (QStr "hello")) by reflexivity.
  refine (conj H1 (conj H2 (conj H3 (conj H4 (conj H5 (conj H6 _)))))).
  apply (C9_search_redirect demo_env search_request fresh_response demo_world french_user
           H1 H2 H3 H4 H5 H6).
Defined.


Lemma C8_witness :
  env (config demo_env) <> "development" /\
  fst (generateStaticUrls demo_env (stats_request None) demo_world) = Some demo_urls /\
  assets (stats_request None) = ([] ++ build_asset :: [])%list /\
  ~ In (asset_key build_asset ++ "-min") (asset_keys []) /\
  demo_urls !! "build-min" = Some "/calypso/build.3f5a.m.js".
Proof.
  assert (H1 : env (config demo_env) <> "development") by discriminate.
  assert (H2 : fst (generateStaticUrls demo_env (stats_request None) demo_world)
               = Some demo_urls) by (vm_compute; reflexivity).
  assert (H3 : assets (stats_request None) = ([] ++ build_asset :: [])%list) by reflexivity.
  assert (H4 : ~ In (asset_key build_asset ++ "-min") (asset_keys [])) by (simpl; tauto).
  refine (conj H1 (conj H2 (conj H3 (conj H4 _)))).
  apply (C8_minified_variant demo_env (stats_request None) demo_world demo_urls
           [] build_asset [] H1 H2 H3 H4).
Defined.

Lemma C7_witness :
  static_files_ok (config demo_env) demo_world /\
  headers (o_res (setUpRoute demo_env (stats_request None) fresh_response demo_world))
    !! "X-Frame-Options" = Some "SAMEORIGIN".
Proof.
  assert (H1 : static_files_ok (config demo_env) demo_world) by reflexivity.
  split; [exact H1|].
  destruct (C7_frame_options demo_env (stats_request None) fresh_response demo_world H1)
    as [H _].
  apply (H MSetUpRoute). left. reflexivity.
Defined.


(** * Further properties of the page server *)

(** ** The legacy rewriter on well-formed sites *)

(** X1. For a site made of letters, digits, hyphens and dots and a
    section of the allow-list, the rewriter answers with a 302 to
    [/themes] or [/<section>/<site>] followed by the rest of the URL,
    does not set [X-Frame-Options], and the target no longer starts
    with [/sites/]: the redirect does not come back to the rewriter. *)
Theorem X1_rewriter_redirect_leaves_sites (E : Env) (req : Request) (res : Response)
    (w : World) (site section rest : string) :
  params req !! "site" = Some site ->
  params req !! "section" = Some section ->
  mem_string section legacy_sections = true ->
  site <> EmptyString ->
  string_forallb is_site_char site = true ->
  originalUrl req = "/sites/" ++ site ++ "/" ++ section ++ rest ->
  ends_word rest = true ->
  let o := legacyRewriter E req res w in
  exists target,
    body (o_res o) = Some (Redirect target) /\
    target = (if String.eqb section "change-theme" then "/themes" ++ rest
              else "/" ++ section ++ "/" ++ site ++ rest) /\
    JS.strip_prefix "/sites/" target = None /\
    re_sites target = None /\
    status (o_res o) = 302%Z /\
    headers (o_res o) !! "X-Frame-Options" = headers res !! "X-Frame-Options" /\
    o_flow o = Ended.
Proof.
  intros Hsite Hsection Hmem Hne Hchars Hurl Hrest o.
  destruct (legacyRewriter_rewrites E req res w site section rest
              Hsite Hsection Hmem Hne Hchars Hurl Hrest) as [Hflow Hbody].
  fold o in Hflow, Hbody.
  eexists. split; [exact Hbody|]. split; [reflexivity|].
  assert (Hprefix : JS.strip_prefix "/sites/"
            (if String.eqb section "change-theme" then "/themes" ++ rest
             else "/" ++ section ++ "/" ++ site ++ rest) = None).
  { destruct (mem_legacy_sections section Hmem) as [->|[->|[->|[->|[->| ->]]]]];
      reflexivity. }
  split; [exact Hprefix|]. split.
  - unfold re_sites. now rewrite Hprefix.
  - split; [|split; [f_equal; apply legacyRewriter_headers | exact Hflow]].
    subst o. unfold legacyRewriter. rewrite Hsection, Hmem. reflexivity.
Qed.

(** X2. The rewriter assigns the module variable [sections] on every
    request it sees, redirected or not: afterwards the variable holds
    the six names instead of the manifest, and building the application
    again fails on [section.paths]. Before that, with the manifest in
    place, the application builds. The rest of the module state is
    left alone. *)
Theorem X2_rewriter_overwrites_sections (E : Env) (req : Request) (res : Response)
    (w : World) :
  let o := legacyRewriter E req res w in
  sections (o_world o) = Names legacy_sections /\
  module_exports E (o_world o) = None /\
  (forall manifest, sections w = Manifest manifest -> is_Some (module_exports E w)) /\
  staticFiles (o_world o) = staticFiles w /\
  trace (o_world o) = trace w.
Proof.
  cbv zeta.
  assert (Hw : o_world (legacyRewriter E req res w) = set_sections (Names legacy_sections) w).
  { unfold legacyRewriter. destruct (params req !! "section") as [s|]; [|reflexivity].
    destruct (negb (mem_string s legacy_sections)); reflexivity. }
  rewrite Hw. repeat split.
  intros manifest Hm. unfold module_exports. rewrite Hm. eauto.
Qed.

(** ** The default context *)


Lemma getDefaultContext_app E request w urls :
  fst (generateStaticUrls E request w) = Some urls ->
  exists ctx,
    fst (getDefaultContext E request w) = Some ctx /\
    ctx !! "app" =
      Some (VApp
        {| clientIp := if JS.truthy (ip request)
                       then Some (JS.replace "::ffff:" EmptyString (JS.to_str (ip request)))
                       else ip request;
           app_isDebug := is_development (config E)
                          || match query_get "debug" (query request) with
                             | Some _ => true
                             | None => false
                             end;
           tinymceWpSkin := urls !! "tinymce/skins/wordpress/wp-content.css";
           tinymceEditorCss := urls !! "editor.css" |}).
Proof.
  intros Hu. unfold getDefaultContext.
  destruct (generateStaticUrls E request w) as [[u|] w1]; simpl in Hu; [|discriminate].
  injection Hu as ->. eexists. split; [reflexivity|]. now rewrite lookup_insert_eq.
Qed.

Lemma replace_prefix p s : JS.replace p EmptyString (p ++ s) = s.
Proof.
  unfold JS.replace.
  assert (H : JS.split_first p (p ++ s) = Some (EmptyString, s)).
  { destruct (p ++ s) eqn:Heq; cbn [JS.split_first]; rewrite <- Heq, strip_prefix_app;
      reflexivity. }
  rewrite H. reflexivity.
Qed.

(** X3. The [app] part of the default context: the client address is the
    request's with a leading [::ffff:] taken off, is left as it is when
    it holds no [::ffff:], and stays undefined when the request has
    none; the two editor style sheets are always there; the debug flag
    is on in development or when the query has a [debug] key, whatever
    its value. *)
Theorem X3_context_app (E : Env) (request : Request) (w : World) :
  static_files_ok (config E) w ->
  exists ctx app,
    fst (getDefaultContext E request w) = Some ctx /\
    ctx !! "app" = Some (VApp app) /\
    (forall v4, ip request = Some ("::ffff:" ++ v4) -> clientIp app = Some v4) /\
    (forall s, ip request = Some s -> JS.split_first "::ffff:" s = None ->
               clientIp app = Some s) /\
    (ip request = None -> clientIp app = None) /\
    is_Some (tinymceWpSkin app) /\
    is_Some (tinymceEditorCss app) /\
    app_isDebug app = is_development (config E)
                      || bool_decide (is_Some (query_get "debug" (query request))).
Proof.
  intros Hok. destruct (generateStaticUrls_total E request w Hok) as [urls Hu].
  destruct (getDefaultContext_app E request w urls Hu) as (ctx & Hc & Happ).
  eexists ctx, _. split; [exact Hc|]. split; [exact Happ|]. cbn [clientIp tinymceWpSkin
    tinymceEditorCss app_isDebug].
  split; [|split; [|split; [|split; [|split]]]].
  - intros v4 Hip. rewrite Hip. cbn [JS.to_str].
    change (JS.truthy (Some ("::ffff:" ++ v4))) with true. cbv iota.
    now rewrite replace_prefix.
  - intros s Hip Hno. rewrite Hip. cbn [JS.to_str]. destruct s as [|c s]; [reflexivity|].
    change (JS.truthy (Some (String c s))) with true. cbv iota.
    unfold JS.replace. now rewrite Hno.
  - intros Hip. now rewrite Hip.
  - apply (generateStaticUrls_static E request w urls Hok Hu). simpl. tauto.
  - apply (generateStaticUrls_static E request w urls Hok Hu). simpl. tauto.
  - destruct (query_get "debug" (query request)); reflexivity.
Qed.


(** ** Names and URLs in the asset map *)

Lemma chunk_match_here_word w rest :
  w <> EmptyString ->
  string_forallb JS.is_word w = true ->
  chunk_match_here ("/calypso/" ++ w ++ "." ++ rest) = Some (w, JS.after_dot_star rest).
Proof.
  intros Hw Hword. unfold chunk_match_here. rewrite strip_prefix_app.
  rewrite (span_app JS.is_word w ("." ++ rest) Hword) by reflexivity.
  destruct w as [|c w]; [congruence|]. reflexivity.
Qed.

(** X5. An asset without a name (or with an empty one) whose URL is
    [/calypso/<word>.<rest>], the rest on one line, has the key
    [_<word>]: the loop writes its URL there, except for the word
    [_proto__], whose key [__proto__] the object does not store: the
    entry under it is what it was. *)
Theorem X5_unnamed_chunk_key (cfg : Config) (urls : gmap string string) (a : Asset)
    (w rest : string) :
  JS.truthy (asset_name a) = false ->
  asset_url a = "/calypso/" ++ w ++ "." ++ rest ->
  w <> EmptyString ->
  string_forallb JS.is_word w = true ->
  JS.after_dot_star rest = EmptyString ->
  asset_key a = "_" ++ w /\
  (w <> "_proto__" -> add_asset cfg urls a !! ("_" ++ w) = Some (asset_url a)) /\
  (w = "_proto__" -> add_asset cfg urls a !! ("_" ++ w) = urls !! ("_" ++ w)).
Proof.
  intros Hname Hurl Hw Hword Hline.
  assert (Hkey : asset_key a = "_" ++ w).
  { unfold asset_key. rewrite Hname, Hurl.
    assert (Hm := chunk_match_here_word w rest Hw Hword).
    destruct ("/calypso/" ++ w ++ "." ++ rest) eqn:Heq; [discriminate Heq|].
    cbn [chunk_name]. rewrite Hm, Hline.
    clear. induction w as [|c w IH]; [reflexivity|].
    change ("_" ++ String c w ++ EmptyString) with (String "_" (String c (w ++ EmptyString))).
    change ("_" ++ String c w) with (String "_" (String c w)).
    do 2 f_equal. injection IH as IH. exact IH. }
  split; [exact Hkey|]. unfold add_asset. rewrite Hkey. split.
  - intros Hproto.
    assert (Hk : "_" ++ w <> "__proto__").
    { intros Heq. apply Hproto. change ("_" ++ w) with (String "_" w) in Heq.
      now injection Heq. }
    destruct (negb (String.eqb (env cfg) "development")).
    + rewrite obj_set_ne, obj_set_eq; [reflexivity|assumption|].
      intros Heq. apply (f_equal String.length) in Heq.
      rewrite string_length_app in Heq. simpl in Heq. lia.
    + now apply obj_set_eq.
  - intros ->. change ("_" ++ "_proto__") with "__proto__".
    destruct (negb (String.eqb (env cfg) "development")); now rewrite ?obj_set_proto.
Qed.

Lemma chunk_match_here_none s :
  JS.strip_prefix "/calypso/" s = None -> chunk_match_here s = None.
Proof. intros H. unfold chunk_match_here. now rewrite H. Qed.

(** X6. When the URL of an unnamed asset holds no [/calypso/], the
    pattern finds nothing and the asset is stored under its whole URL. *)
Theorem X6_unnamed_asset_without_base (a : Asset) :
  JS.truthy (asset_name a) = false ->
  JS.split_first "/calypso/" (asset_url a) = None ->
  asset_key a = asset_url a.
Proof.
  intros Hname Hno. unfold asset_key. rewrite Hname.
  induction (asset_url a) as [|c s IH]; [reflexivity|].
  cbn [JS.split_first] in Hno.
  destruct (JS.strip_prefix "/calypso/" (String c s)) eqn:Hp; [discriminate|].
  destruct (JS.split_first "/calypso/" s) as [[b r]|] eqn:Hs; [discriminate|].
  cbn [chunk_name]. rewrite (chunk_match_here_none _ Hp). f_equal. now apply IH.
Qed.


Lemma cached_urls_lookup_value qs files : forall (urls : gmap string string) f,
  NoDup (List.map sf_path files) ->
  In f files ->
  cached_urls qs files urls !! sf_path f
  = Some (URL_BASE_PATH ++ "/" ++ sf_path f ++ "?" ++ qs [("v", QStr (JS.to_str (sf_hash f)))]).
Proof.
  induction files as [|g rest IH]; intros urls f Hnd Hin; [destruct Hin|].
  cbn [List.map] in Hnd. apply NoDup_cons in Hnd as [Hg Hnd].
  destruct Hin as [->|Hin].
  - change (cached_urls qs (f :: rest) urls)
      with (cached_urls qs rest
              (<[sf_path f := URL_BASE_PATH ++ "/" ++ sf_path f ++ "?"
                              ++ qs [("v", QStr (JS.to_str (sf_hash f)))]]> urls)).
    rewrite cached_urls_lookup_none by (intros H; apply Hg; now apply list_elem_of_In).
    apply lookup_insert_eq.
  - change (cached_urls qs (g :: rest) urls)
      with (cached_urls qs rest
              (<[sf_path g := URL_BASE_PATH ++ "/" ++ sf_path g ++ "?"
                              ++ qs [("v", QStr (JS.to_str (sf_hash g)))]]> urls)).
    now apply IH.
Qed.

Lemma staticFile_paths_NoDup cfg : NoDup (staticFile_paths cfg).
Proof.
  unfold staticFile_paths, vendor_file.
  repeat (apply NoDup_cons; split;
          [intros H; repeat (apply elem_of_cons in H as [H|H]; [discriminate H|]);
           now apply elem_of_nil in H|]).
  apply NoDup_nil. constructor.
Qed.

Lemma static_path_not_vendor cfg p :
  In p (staticFile_paths cfg) -> p <> "vendor" /\ p <> "vendor-min".
Proof.
  unfold staticFile_paths, vendor_file. simpl.
  intros H. repeat (destruct H as [<-|H]; [split; discriminate|]). destruct H.
Qed.

(** X7. The URL of a static file in the generated map is
    [/calypso/<path>?] followed by the query string of its version
    token, the token that the cache holds for the file after the call;
    this as long as no asset of the request is stored under the same
    key. *)
Theorem X7_static_url_carries_token (E : Env) (request : Request) (w : World)
    (urls : gmap string string) (p : string) :
  static_files_ok (config E) w ->
  fst (generateStaticUrls E request w) = Some urls ->
  In p (staticFile_paths (config E)) ->
  ~ In p (asset_keys (assets request)) ->
  exists h,
    In {| sf_path := p; sf_hash := Some h |}
       (staticFiles (snd (generateStaticUrls E request w))) /\
    JS.truthy (Some h) = true /\
    urls !! p = Some ("/calypso/" ++ p ++ "?" ++ qs_stringify E [("v", QStr h)]).
Proof.
  intros Hok Hu Hp Hnot.
  destruct (generateStaticUrls_spec E request w) as (Hpaths & Hall & _ & _ & _ & Hr).
  set (files := staticFiles (snd (generateStaticUrls E request w))) in *.
  rewrite Hok in Hpaths.
  assert (Hin : In p (List.map sf_path files)) by now rewrite Hpaths.
  apply in_map_iff in Hin as (f & Hfp & Hf).
  assert (Hnd : NoDup (List.map sf_path files))
    by (rewrite Hpaths; apply staticFile_paths_NoDup).
  pose proof (cached_urls_lookup_value (qs_stringify E) files ∅ f Hnd Hf) as Hval.
  assert (Htruthy : JS.truthy (sf_hash f) = true).
  { unfold all_hashed in Hall. rewrite Forall_forall in Hall. apply Hall.
    now apply list_elem_of_In. }
  destruct f as [fp [h|]]; cbn [sf_path sf_hash JS.to_str] in *; [|discriminate].
  subst fp. exists h. split; [exact Hf|]. split; [exact Htruthy|].
  rewrite Hr in Hu. unfold finish_urls in Hu.
  destruct (cached_urls _ _ _ !! vendor_file (config E)) as [v|]; [|discriminate].
  injection Hu as <-.
  rewrite fold_add_asset_untouched by assumption.
  destruct (static_path_not_vendor (config E) p Hp) as [Hv Hvm].
  rewrite !lookup_insert_ne by congruence. exact Hval.
Qed.

Lemma string_app_inj_r (a b t : string) : a ++ t = b ++ t -> a = b.
Proof.
  revert b. induction a as [|c a IH]; intros [|d b] H.
  - reflexivity.
  - rewrite string_app_empty, string_app_cons in H.
    apply (f_equal String.length) in H. cbn [String.length] in H.
    rewrite string_length_app in H. lia.
  - rewrite string_app_empty, string_app_cons in H.
    apply (f_equal String.length) in H. cbn [String.length] in H.
    rewrite string_length_app in H. lia.
  - rewrite !string_app_cons in H. injection H as -> H. f_equal. now apply IH.
Qed.

Lemma fold_add_asset_development cfg dynamic : forall (urls : gmap string string) k,
  is_development cfg = true ->
  ~ In k (List.map asset_key dynamic) ->
  fold_left (add_asset cfg) dynamic urls !! k = urls !! k.
Proof.
  unfold is_development.
  induction dynamic as [|a rest IH]; intros urls k Hdev Hk; [reflexivity|].
  cbn [fold_left]. rewrite IH by (try assumption; intros H; apply Hk; now right).
  unfold add_asset. rewrite Hdev. cbn [negb].
  apply obj_set_ne. intros Heq. apply Hk. now left.
Qed.

Lemma fold_add_asset_name cfg dynamic : forall (urls : gmap string string) a,
  In a dynamic ->
  asset_key a <> "__proto__" ->
  is_Some (fold_left (add_asset cfg) dynamic urls !! asset_key a).
Proof.
  induction dynamic as [|b rest IH]; intros urls a Hin Hproto; [destruct Hin|].
  cbn [fold_left]. destruct Hin as [->|Hin]; [|now apply IH].
  apply fold_add_asset_is_Some. unfold add_asset.
  destruct (negb (String.eqb (env cfg) "development")).
  - apply obj_set_is_Some. rewrite obj_set_eq by assumption. eauto.
  - rewrite obj_set_eq by assumption. eauto.
Qed.

(** X8. In development the loop over the assets writes no minified
    variant: unless another asset is itself stored under [<name>-min],
    that key is missing from the map, while the bundle's own entry is
    there (for every name but [__proto__], which the object does not
    store); [vendor-min], which is written before the loop, is there in
    development too. *)
Theorem X8_development_has_no_min (E : Env) (request : Request) (w : World)
    (urls : gmap string string) (a : Asset) :
  env (config E) = "development" ->
  static_files_ok (config E) w ->
  fst (generateStaticUrls E request w) = Some urls ->
  In a (assets request) ->
  ~ In (asset_key a ++ "-min") (List.map asset_key (assets request)) ->
  asset_key a <> "vendor" ->
  ~ In (asset_key a ++ "-min") (staticFile_paths (config E)) ->
  urls !! (asset_key a ++ "-min") = None /\
  (asset_key a <> "__proto__" -> is_Some (urls !! asset_key a)) /\
  (~ In "vendor-min" (List.map asset_key (assets request)) ->
   is_Some (urls !! "vendor-min")).
Proof.
  intros Henv Hok Hu Ha Hmin Hvendor Hstatic.
  assert (Hdev : is_development (config E) = true)
    by (unfold is_development; rewrite Henv; reflexivity).
  destruct (generateStaticUrls_spec E request w) as (Hpaths & _ & _ & _ & _ & Hr).
  rewrite Hr in Hu. unfold finish_urls in Hu.
  destruct (cached_urls _ _ _ !! vendor_file (config E)) as [v|]; [|discriminate].
  injection Hu as <-. split; [|split].
  - rewrite fold_add_asset_development by assumption.
    rewrite lookup_insert_ne.
    2:{ intros Heq. apply Hvendor. symmetry.
        apply (string_app_inj_r "vendor" (asset_key a) "-min"). exact Heq. }
    rewrite lookup_insert_ne.
    2:{ intros Heq. symmetry in Heq. revert Heq. generalize (asset_key a). intros s Heq.
        assert (Hlen : String.length s = 2%nat).
        { apply (f_equal String.length) in Heq. rewrite string_length_app in Heq.
          simpl in Heq. lia. }
        do 3 (destruct s as [|? s]; try discriminate Hlen). discriminate Heq. }
    rewrite cached_urls_lookup_none; [apply lookup_empty|].
    rewrite Hpaths, Hok. exact Hstatic.
  - intros Hproto. now apply fold_add_asset_name.
  - intros Hvm. rewrite fold_add_asset_development by assumption.
    rewrite lookup_insert_eq. eauto.
Qed.

(** ** The logged-in set-up and the identity service *)

Lemma trace_log e w : trace (log e w) = (trace w ++ [e])%list.
Proof. reflexivity. Qed.

(** The logged-in set-up up to the reply of the identity service. *)
Lemma setUpLoggedInRoute_calls E req res w :
  static_files_ok (config E) w ->
  wpcom_user_bootstrap (config E) = true ->
  has_login_cookie req = true ->
  exists ctx w1 start,
    fst (getDefaultContext E req w) = Some ctx /\
    user_calls (trace w1) = S (user_calls (trace w)) /\
    In (EUserBootstrap (header_Cookie req)) (trace w1) /\
    setUpLoggedInRoute E req res w
    = user_callback E req (res_set X_FRAME "SAMEORIGIN" res) ctx (login_redirect_url E req)
        start (user_bootstrap E (header_Cookie req)) w1.
Proof.
  intros Hok Hboot Hc.
  pose proof (getDefaultContext_user_calls E req w) as Hu.
  destruct (getDefaultContext_total E req w Hok) as (ctx & Hg & _).
  rewrite Hg in Hu. cbn [snd] in Hu.
  unfold setUpLoggedInRoute. rewrite Hg, Hboot, Hc. cbn [negb now].
  exists ctx,
    (log (EUserBootstrap (header_Cookie req))
       (log (EDebug "Issuing API call to fetch user object" [])
          (snd (now E (snd (generateStaticUrls E req w)))))),
    (fst (now E (snd (generateStaticUrls E req w)))).
  split; [reflexivity|]. split; [|split; [|reflexivity]].
  - rewrite !user_calls_log. cbn [is_user_call].
    change (user_calls (trace (snd (now E (snd (generateStaticUrls E req w))))))
      with (user_calls (trace (snd (generateStaticUrls E req w)))).
    rewrite Hu. lia.
  - rewrite trace_log. apply in_app_iff. right. now left.
Qed.

(** What the callback adds to the log holds no call. *)
Lemma user_callback_log E req res ctx url start reply w :
  exists l,
    trace (o_world (user_callback E req res ctx url start reply w)) = (trace w ++ l)%list /\
    user_calls l = 0%nat.
Proof.
  assert (Hlog1 : forall e w0, is_user_call e = false ->
            exists l, trace (log e w0) = (trace w0 ++ l)%list /\ user_calls l = 0%nat).
  { intros e w0 He. exists [e]. split; [reflexivity|]. unfold user_calls. simpl.
    now rewrite He. }
  assert (Hlog2 : forall e e' w0, is_user_call e = false -> is_user_call e' = false ->
            exists l, trace (log e' (log e w0)) = (trace w0 ++ l)%list
                      /\ user_calls l = 0%nat).
  { intros e e' w0 He He'. exists [e; e']. split.
    - rewrite !trace_log, <- app_assoc. reflexivity.
    - unfold user_calls. simpl. now rewrite He, He'. }
  unfold user_callback. destruct reply as [e|d|].
  - destruct (match error e with Some c => _ | None => _ end); now apply Hlog1.
  - cbn [now]. destruct (String.eqb (path req) "/").
    + unfold root_redirects.
      destruct (q_truthy (if q_truthy (query_get "s" (query req)) then _ else _));
        [now apply (Hlog1 _ (snd (now E w)))|].
      destruct (q_truthy (query_get "newuseremail" (query req)));
        [now apply (Hlog2 _ _ (snd (now E w)))|].
      destruct (q_is (query_get "action" (query req)) "wpcom-invite-users");
        [now apply (Hlog2 _ _ (snd (now E w)))|].
      now apply (Hlog1 _ (snd (now E w))).
    + now apply (Hlog1 _ (snd (now E w))).
  - exists []. split; [now rewrite app_nil_r | reflexivity].
Qed.

Lemma user_calls_app l1 l2 : user_calls (l1 ++ l2) = (user_calls l1 + user_calls l2)%nat.
Proof. unfold user_calls. now rewrite List.filter_app, List.length_app. Qed.

(** X9. A request with the cookie, with the user bootstrap on, makes
    exactly one call to the identity service, with the raw [Cookie]
    header, whatever the service answers: no second call after an
    error. When the service never answers nothing is sent and the next
    handler is not called; the next handler runs only after the service
    has returned a user. *)
Theorem X9_one_identity_call (E : Env) (req : Request) (res : Response) (w : World) :
  static_files_ok (config E) w ->
  wpcom_user_bootstrap (config E) = true ->
  has_login_cookie req = true ->
  let o := setUpLoggedInRoute E req res w in
  user_calls (trace (o_world o)) = S (user_calls (trace w)) /\
  In (EUserBootstrap (header_Cookie req)) (trace (o_world o)) /\
  (user_bootstrap E (header_Cookie req) = NoReply ->
   o_flow o = Pending /\ body (o_res o) = body res) /\
  (o_flow o = Next -> exists data, user_bootstrap E (header_Cookie req) = ReplyData data).
Proof.
  intros Hok Hboot Hc o. subst o.
  destruct (setUpLoggedInRoute_calls E req res w Hok Hboot Hc)
    as (ctx & w1 & start & _ & Hcalls & Hin & ->).
  destruct (user_callback_log E req (res_set X_FRAME "SAMEORIGIN" res) ctx
              (login_redirect_url E req) start (user_bootstrap E (header_Cookie req)) w1)
    as (l & Htrace & Hl).
  rewrite Htrace. split; [|split; [|split]].
  - rewrite user_calls_app, Hl, Hcalls. lia.
  - apply in_app_iff. now left.
  - intros Hreply. rewrite Hreply. split; reflexivity.
  - destruct (user_bootstrap E (header_Cookie req)) as [e|d|]; [| eauto |discriminate].
    unfold user_callback. destruct (match error e with Some c => _ | None => _ end);
      discriminate.
Qed.

(** The logged-in set-up after the service has returned a user. *)
Lemma setUpLoggedInRoute_resolved E req res w data :
  static_files_ok (config E) w ->
  wpcom_user_bootstrap (config E) = true ->
  has_login_cookie req = true ->
  user_bootstrap E (header_Cookie req) = ReplyData data ->
  exists ctx ctx3 w2,
    fst (getDefaultContext E req w) = Some ctx /\
    ctx3 !! "user" = Some (VUser data) /\
    ctx3 !! "isRTL" = Some (VBool (isRTL data)) /\
    ctx3 !! "lang" = Some (VStr (resolved_locale E data)) /\
    (forall k, k <> "user" -> k <> "isRTL" -> k <> "lang" -> ctx3 !! k = ctx !! k) /\
    setUpLoggedInRoute E req res w
    = let res1 := res_set X_FRAME "SAMEORIGIN" res in
      let proceed := outcome (set_context ctx3 req) res1 w2 Next in
      if String.eqb (path req) "/" then root_redirects E req res1 ctx3 w2 proceed
      else proceed.
Proof.
  intros Hok Hboot Hc Hreply.
  destruct (getDefaultContext_total E req w Hok) as (ctx & Hg & _ & Hlang).
  unfold setUpLoggedInRoute. rewrite Hg, Hboot, Hc, Hreply. cbn [negb now].
  unfold user_callback. cbn [now].
  eexists ctx, _, _. split; [reflexivity|].
  split; [|split; [|split; [|split; [|reflexivity]]]].
  - destruct (JS.truthy (localeSlug data)); now simplify_map_eq.
  - destruct (JS.truthy (localeSlug data)); now simplify_map_eq.
  - unfold resolved_locale. destruct (JS.truthy (localeSlug data)).
    + now rewrite lookup_insert_eq.
    + rewrite !lookup_insert_ne by done. exact Hlang.
  - intros k H1 H2 H3. destruct (JS.truthy (localeSlug data));
      rewrite !lookup_insert_ne by congruence; reflexivity.
Qed.

(** X10. Off the root path, once the service has returned the user, the
    set-up sends nothing and hands on a context with the user, the
    direction flag taken from the user and the resolved locale, the
    other keys of the default context unchanged; a query such as [s]
    triggers no redirect there. *)
Theorem X10_resolved_request_proceeds (E : Env) (req : Request) (res : Response)
    (w : World) (data : UserData) :
  static_files_ok (config E) w ->
  wpcom_user_bootstrap (config E) = true ->
  has_login_cookie req = true ->
  user_bootstrap E (header_Cookie req) = ReplyData data ->
  path req <> "/" ->
  let o := setUpLoggedInRoute E req res w in
  o_flow o = Next /\
  body (o_res o) = body res /\
  status (o_res o) = status res /\
  context (o_req o) !! "user" = Some (VUser data) /\
  context (o_req o) !! "isRTL" = Some (VBool (isRTL data)) /\
  context (o_req o) !! "lang" = Some (VStr (resolved_locale E data)) /\
  (exists ctx, fst (getDefaultContext E req w) = Some ctx /\
     forall k, k <> "user" -> k <> "isRTL" -> k <> "lang" ->
               context (o_req o) !! k = ctx !! k).
Proof.
  intros Hok Hboot Hc Hreply Hpath o. subst o.
  destruct (setUpLoggedInRoute_resolved E req res w data Hok Hboot Hc Hreply)
    as (ctx & ctx3 & w2 & Hctx & Huser & Hrtl & Hlang & Hkeep & ->).
  apply String.eqb_neq in Hpath. cbv zeta. rewrite Hpath.
  repeat split; try assumption. exists ctx. split; assumption.
Qed.

(** X11. On the root path, once the service has returned the user, the
    legacy redirects are tried in this order: a search for [s] when it
    is set, else for [q]; else the e-mail verification when
    [newuseremail] is set; else the invitation when [action] is
    [wpcom-invite-users]; the last two carry the whole query string.
    When none applies the next handler runs. *)
Theorem X11_root_redirect_order (E : Env) (req : Request) (res : Response) (w : World)
    (data : UserData) :
  static_files_ok (config E) w ->
  wpcom_user_bootstrap (config E) = true ->
  has_login_cookie req = true ->
  user_bootstrap E (header_Cookie req) = ReplyData data ->
  path req = "/" ->
  let o := setUpLoggedInRoute E req res w in
  let s := query_get "s" (query req) in
  let q := query_get "q" (query req) in
  let search v := "https://" ++ resolved_locale E data ++ ".search.wordpress.com/?q="
                  ++ JS.encodeURIComponent (q_coerce v) in
  (q_truthy s = true -> body (o_res o) = Some (Redirect (search s))) /\
  (q_truthy s = false -> q_truthy q = true -> body (o_res o) = Some (Redirect (search q))) /\
  (q_truthy s = false -> q_truthy q = false ->
   q_truthy (query_get "newuseremail" (query req)) = true ->
   body (o_res o)
   = Some (Redirect ("https://wordpress.com/verify-email/?" ++ qs_stringify E (query req)))) /\
  (q_truthy s = false -> q_truthy q = false ->
   q_truthy (query_get "newuseremail" (query req)) = false ->
   q_is (query_get "action" (query req)) "wpcom-invite-users" = true ->
   body (o_res o)
   = Some (Redirect ("https://wordpress.com/accept-invite/?" ++ qs_stringify E (query req)))) /\
  (q_truthy s = false -> q_truthy q = false ->
   q_truthy (query_get "newuseremail" (query req)) = false ->
   q_is (query_get "action" (query req)) "wpcom-invite-users" = false ->
   o_flow o = Next /\ body (o_res o) = body res /\
   context (o_req o) !! "user" = Some (VUser data)).
Proof.
  intros Hok Hboot Hc Hreply Hpath o s q search. subst o s q search.
  destruct (setUpLoggedInRoute_resolved E req res w data Hok Hboot Hc Hreply)
    as (ctx & ctx3 & w2 & Hctx & Huser & Hrtl & Hlang & Hkeep & ->).
  cbv zeta. rewrite Hpath. cbn [String.eqb Ascii.eqb Bool.eqb]. unfold root_redirects.
  rewrite Hlang. cbn [value_to_str].
  split; [|split; [|split; [|split]]].
  - intros Hs. rewrite Hs, Hs. reflexivity.
  - intros Hs Hq. rewrite Hs, Hq. reflexivity.
  - intros Hs Hq Hn. rewrite Hs, Hq, Hn. reflexivity.
  - intros Hs Hq Hn Ha. rewrite Hs, Hq, Hn, Ha. reflexivity.
  - intros Hs Hq Hn Ha. rewrite Hs, Hq, Hn, Ha. repeat split. exact Huser.
Qed.

(** ** Routes that answer before the sections *)

Lemma module_exports_routes E w routes :
  module_exports E w = Some routes ->
  exists rest,
    routes = (first_routes E ++ rest ++ [route Get (PString "*") [MRender404]])%list /\
    (forall manifest, sections w = Manifest manifest ->
                      rest = flat_map (section_routes E) manifest).
Proof.
  unfold module_exports. destruct (sections w) as [l|[|n l]]; intros H; [| |discriminate].
  - injection H as <-. exists (flat_map (section_routes E) l). split; [reflexivity|].
    intros manifest Hm. now injection Hm as ->.
  - injection H as <-. exists []. split; [reflexivity|]. intros manifest Hm. discriminate.
Qed.



(** X14. The 404 page: status 404, the view [404] with the URL map and
    nothing else (no user, no locale, no [app]), [X-Frame-Options] not
    set, no call to the identity service; every static file has its
    token afterwards. The route of this page is the last of the
    application. *)
Theorem X14_not_found_page (E : Env) (req : Request) (res : Response) (w : World) :
  static_files_ok (config E) w ->
  let o := render404 E req res w in
  o_flow o = Ended /\
  status (o_res o) = 404%Z /\
  headers (o_res o) !! "X-Frame-Options" = headers res !! "X-Frame-Options" /\
  (exists urls locals,
     fst (generateStaticUrls E req w) = Some urls /\
     body (o_res o) = Some (Render "404" locals) /\
     locals !! "urls" = Some (VUrls urls) /\
     forall k, k <> "urls" -> locals !! k = None) /\
  all_hashed (staticFiles (o_world o)) /\
  user_calls (trace (o_world o)) = user_calls (trace w) /\
  (forall routes, module_exports E w = Some routes ->
                  last routes = Some (route Get (PString "*") [MRender404])).
Proof.
  intros Hok o. subst o.
  destruct (generateStaticUrls_total E req w Hok) as [urls Hu].
  destruct (generateStaticUrls_spec E req w) as (_ & Hall & _ & Hcalls & _).
  unfold render404.
  destruct (generateStaticUrls E req w) as [[u|] w1]; simpl in Hu; [|discriminate].
  injection Hu as ->. cbn [snd] in *.
  split; [reflexivity|]. split; [reflexivity|]. split; [reflexivity|].
  split; [|split; [exact Hall|split; [exact Hcalls|]]].
  - eexists urls, _. split; [reflexivity|]. split; [reflexivity|].
    split; [apply lookup_insert_eq|].
    intros k Hk. rewrite lookup_insert_ne by congruence. apply lookup_empty.
  - intros routes Hroutes.
    destruct (module_exports_routes E w routes Hroutes) as (rest & -> & _).
    rewrite app_assoc. apply last_snoc.
Qed.

(** ** The cache of version tokens under every handler *)

(** X15. Whatever request the application serves through its own
    handlers, the cache of version tokens only grows: the static files
    stay the same, in the same order, and a token once computed is
    never replaced. In particular the world keeps holding the static
    files of the configuration. *)
Theorem X15_cache_only_grows (E : Env) (routes : list Route) (req : Request)
    (res : Response) (w : World) :
  own_routes routes ->
  let o := dispatch E routes req res w in
  cache_extends (staticFiles w) (staticFiles (o_world o)) /\
  (forall cfg, static_files_ok cfg w -> static_files_ok cfg (o_world o)).
Proof.
  intros Hown o. subst o.
  pose proof (dispatch_extends E routes req res w Hown) as H.
  split; [exact H|]. intros cfg. now apply cache_extends_ok.
Qed.

(** ** The domain of the signup step *)

Lemma split_dot_nonempty s : SiteOrDomain.split_dot s <> [].
Proof.
  induction s as [|c s IH]; cbn [SiteOrDomain.split_dot]; [discriminate|].
  destruct (Ascii.eqb c "."); [discriminate|].
  destruct (SiteOrDomain.split_dot s); [contradiction | discriminate].
Qed.

Lemma join_dot_cons x xs :
  xs <> [] -> SiteOrDomain.join_dot (x :: xs) = x ++ "." ++ SiteOrDomain.join_dot xs.
Proof. destruct xs; [congruence | reflexivity]. Qed.

(** Cutting at the dots and joining again gives the string back. *)
Lemma join_split_dot s : SiteOrDomain.join_dot (SiteOrDomain.split_dot s) = s.
Proof.
  induction s as [|c s IH]; [reflexivity|]. cbn [SiteOrDomain.split_dot].
  destruct (Ascii.eqb c ".") eqn:Hc.
  - apply Ascii.eqb_eq in Hc. subst c.
    rewrite join_dot_cons by apply split_dot_nonempty. now rewrite IH.
  - pose proof (split_dot_nonempty s) as Hne.
    destruct (SiteOrDomain.split_dot s) as [|piece pieces]; [contradiction|].
    destruct pieces as [|p ps].
    + cbn in IH |- *. now rewrite IH.
    + rewrite join_dot_cons in IH |- * by discriminate.
      rewrite string_app_cons. now rewrite IH.
Qed.

(** The first piece is what stands before the first dot, the other
    pieces joined are what stands after it. *)
Lemma split_dot_first s :
  match JS.split_first "." s with
  | Some (name, tld) =>
      exists rest, SiteOrDomain.split_dot s = name :: rest /\ rest <> [] /\
                   SiteOrDomain.join_dot rest = tld
  | None => SiteOrDomain.split_dot s = [s]
  end.
Proof.
  induction s as [|c s IH]; [reflexivity|].
  cbn [JS.split_first]. rewrite strip_prefix_cons. cbn [JS.strip_prefix SiteOrDomain.split_dot].
  rewrite (Ascii.eqb_sym "." c).
  destruct (Ascii.eqb c ".") eqn:Hc.
  - exists (SiteOrDomain.split_dot s). split; [reflexivity|].
    split; [apply split_dot_nonempty | apply join_split_dot].
  - destruct (JS.split_first "." s) as [[name tld]|].
    + destruct IH as (rest & -> & Hne & Hjoin). exists rest. repeat split; assumption.
    + now rewrite IH.
Qed.

Lemma mem_string_In x l : mem_string x l = true <-> In x l.
Proof.
  unfold mem_string. rewrite existsb_exists. split.
  - intros (y & Hy & Heq). apply String.eqb_eq in Heq. now subst.
  - intros H. exists x. split; [exact H | apply String.eqb_refl].
Qed.

(** X16. [getDomainName] gives a domain exactly when the chosen domain
    has a dot and the table [tlds] holds something truthy under what
    follows its first dot ([co.uk] for [example.co.uk]); otherwise it
    gives [false]. For a table that is a plain object the lookup
    succeeds on a truthy entry of the table and also, where the table
    has no entry, on every name that an object inherits, such as
    [constructor]. The domain of the query, when set, is the one
    checked, even if it is not valid and the step holds a valid one. *)
Theorem X16_domain_needs_known_tld (tlds : string -> bool) (props : SiteOrDomain.Props)
    (d : string) :
  (SiteOrDomain.getDomainName tlds props = Some d <->
   SiteOrDomain.chosen_domain props = Some d /\
   exists name tld, JS.split_first "." d = Some (name, tld) /\ tlds tld = true) /\
  (forall table : gmap string bool,
     SiteOrDomain.getDomainName (SiteOrDomain.tld_known table) props = Some d <->
     SiteOrDomain.chosen_domain props = Some d /\
     exists name tld, JS.split_first "." d = Some (name, tld) /\
       (table !! tld = Some true \/
        (table !! tld = None /\ In tld SiteOrDomain.object_prototype_names))) /\
  (forall q, SiteOrDomain.queryObject props = Some q -> JS.truthy (SiteOrDomain.new q) = true ->
     SiteOrDomain.getDomainName tlds props
     = SiteOrDomain.getDomainName tlds
         {| SiteOrDomain.queryObject := Some q; SiteOrDomain.step := None |}).
Proof.
  assert (Hgen : forall known : string -> bool,
    SiteOrDomain.getDomainName known props = Some d <->
    SiteOrDomain.chosen_domain props = Some d /\
    exists name tld, JS.split_first "." d = Some (name, tld) /\ known tld = true).
  { intros known. unfold SiteOrDomain.getDomainName.
    destruct (SiteOrDomain.chosen_domain props) as [domain|]; [|split; [discriminate|]].
    2:{ intros [H _]. discriminate. }
    pose proof (split_dot_first domain) as Hsplit.
    destruct (JS.split_first "." domain) as [[name tld]|] eqn:Hfirst.
    + destruct Hsplit as (rest & Hparts & Hne & Hjoin).
      assert (Htruthy : JS.truthy (Some domain) = true).
      { destruct domain; [discriminate Hfirst | reflexivity]. }
      rewrite Htruthy, Hparts. cbn [length List.tl].
      destruct rest as [|r rest]; [congruence|]. cbn [length Nat.ltb Nat.leb].
      rewrite Hjoin. split.
      * destruct (known tld) eqn:Ht; [|discriminate]. intros H. injection H as <-.
        split; [reflexivity|]. eauto.
      * intros [Hd (name' & tld' & Hf & Ht)]. injection Hd as <-.
        rewrite Hfirst in Hf. injection Hf as <- <-. now rewrite Ht.
    + rewrite Hsplit. cbn [length Nat.ltb Nat.leb].
      split.
      * destruct (JS.truthy (Some domain)); discriminate.
      * intros [Hd (name' & tld' & Hf & _)]. injection Hd as <-. congruence. }
  split; [apply Hgen|]. split.
  - intros table. rewrite Hgen. split; intros [Hd (name & tld & Hf & Hk)];
      (split; [exact Hd|]); exists name, tld; (split; [exact Hf|]).
    + unfold SiteOrDomain.tld_known in Hk. destruct (table !! tld) as [v|].
      * left. now subst v.
      * right. split; [reflexivity|]. now apply mem_string_In.
    + unfold SiteOrDomain.tld_known. destruct Hk as [->|[-> Hin]]; [reflexivity|].
      now apply mem_string_In.
  - intros q Hq Hnew. unfold SiteOrDomain.getDomainName, SiteOrDomain.chosen_domain.
    cbn [SiteOrDomain.queryObject]. now rewrite Hq, Hnew.
Qed.

(** ** The login selectors *)

Lemma baseGet_snoc object path k :
  Selectors.baseGet object (path ++ [k])
  = if Selectors.nullish (Selectors.baseGet object path) then Selectors.JUndefined
    else Selectors.prop (Selectors.baseGet object path) k.
Proof.
  revert object. induction path as [|p path IH]; intros object; cbn [app Selectors.baseGet].
  - destruct (Selectors.nullish object); reflexivity.
  - destruct (Selectors.nullish object) eqn:Hn; [|apply IH].
    clear IH. induction path as [|p' path IH]; [reflexivity|]. reflexivity.
Qed.

Lemma isTwoFactorEnabled_values state :
  Selectors.isTwoFactorEnabled state = Selectors.JNull \/
  exists b, Selectors.isTwoFactorEnabled state = Selectors.JBool b.
Proof.
  unfold Selectors.isTwoFactorEnabled.
  destruct (negb (Selectors.truthy _)); [now left | right; eauto].
Qed.

(** X17. [isTwoFactorEnabled] has three values: [null] exactly when
    the state holds nothing true under [login.twoFactorAuth], and a
    boolean otherwise; when it is [true], neither the id nor the nonce
    that the two getters return is the empty string. *)
Theorem X17_two_factor_three_valued (state : Selectors.JValue) :
  (Selectors.isTwoFactorEnabled state = Selectors.JNull <->
   Selectors.truthy
     (Selectors.get state ["login"; "twoFactorAuth"] Selectors.JUndefined) = false) /\
  (Selectors.isTwoFactorEnabled state = Selectors.JNull \/
   exists b, Selectors.isTwoFactorEnabled state = Selectors.JBool b) /\
  (Selectors.isTwoFactorEnabled state = Selectors.JBool true ->
   Selectors.getTwoFactorAuthId state <> Selectors.JStr EmptyString /\
   Selectors.getTwoFactorAuthNonce state <> Selectors.JStr EmptyString).
Proof.
  unfold Selectors.isTwoFactorEnabled.
  set (tfa := Selectors.get state ["login"; "twoFactorAuth"] Selectors.JUndefined).
  assert (Hget : forall k,
            Selectors.truthy tfa = true ->
            Selectors.get state ["login"; "twoFactorAuth"; k] Selectors.JNull
            = match Selectors.prop tfa k with
              | Selectors.JUndefined => Selectors.JNull
              | v => v
              end).
  { intros k Ht. unfold Selectors.get.
    change ["login"; "twoFactorAuth"; k] with (["login"; "twoFactorAuth"] ++ [k])%list.
    rewrite baseGet_snoc. subst tfa. unfold Selectors.get in Ht |- *.
    destruct (Selectors.baseGet state ["login"; "twoFactorAuth"]); try discriminate Ht;
      reflexivity. }
  destruct (Selectors.truthy tfa) eqn:Ht; cbn [negb].
  - split; [split; discriminate|]. split; [right; eauto|].
    intros H. injection H as H. apply andb_true_iff in H as [Hid Hnonce].
    unfold Selectors.getTwoFactorAuthId, Selectors.getTwoFactorAuthNonce.
    rewrite !Hget by reflexivity. split.
    + destruct (Selectors.prop tfa "two_step_id") as [| | | |s| |]; try discriminate.
      intros H. injection H as ->. discriminate Hid.
    + destruct (Selectors.prop tfa "two_step_nonce") as [| | | |s| |]; try discriminate.
      intros H. injection H as ->. discriminate Hnonce.
  - split; [split; reflexivity|]. split; [now left | discriminate].
Qed.

Lemma get_login_key login k d :
  Selectors.get (Selectors.with_login login) ["login"; k] d
  = match default Selectors.JUndefined (login !! k) with
    | Selectors.JUndefined => d
    | v => v
    end.
Proof.
  unfold Selectors.get, Selectors.with_login. cbn [Selectors.baseGet Selectors.nullish
    Selectors.prop]. rewrite lookup_singleton_eq. reflexivity.
Qed.

(** X18. Which flag decides [isLoginSuccessful]: when two-factor
    authentication is enabled, [requestSuccess] has no say (a password
    that was accepted is not yet a login), and when it is not enabled,
    [verificationCodeSubmissionSuccess] has none; a missing flag counts
    as [false], and so does a state without a [login] branch. *)
Theorem X18_login_success_flag (login : gmap string Selectors.JValue)
    (v : Selectors.JValue) :
  (Selectors.isTwoFactorEnabled (Selectors.with_login login) = Selectors.JBool true ->
   Selectors.isLoginSuccessful (Selectors.with_login (<["requestSuccess" := v]> login))
   = Selectors.isLoginSuccessful (Selectors.with_login login) /\
   (login !! "verificationCodeSubmissionSuccess" = None ->
    Selectors.isLoginSuccessful (Selectors.with_login login) = Selectors.JBool false)) /\
  (Selectors.isTwoFactorEnabled (Selectors.with_login login) <> Selectors.JBool true ->
   Selectors.isLoginSuccessful
     (Selectors.with_login (<["verificationCodeSubmissionSuccess" := v]> login))
   = Selectors.isLoginSuccessful (Selectors.with_login login) /\
   (login !! "requestSuccess" = None ->
    Selectors.isLoginSuccessful (Selectors.with_login login) = Selectors.JBool false)) /\
  Selectors.isLoginSuccessful (Selectors.JObj ∅) = Selectors.JBool false /\
  Selectors.isLoginSuccessful Selectors.JUndefined = Selectors.JBool false.
Proof.
  assert (Hsame : forall k, k <> "twoFactorAuth" ->
            Selectors.isTwoFactorEnabled (Selectors.with_login (<[k := v]> login))
            = Selectors.isTwoFactorEnabled (Selectors.with_login login)).
  { intros k Hk. unfold Selectors.isTwoFactorEnabled. rewrite !get_login_key.
    now rewrite lookup_insert_ne. }
  split; [|split; [|split; reflexivity]].
  - intros Hon. split.
    + unfold Selectors.isLoginSuccessful. rewrite Hsame by discriminate. rewrite Hon.
      cbn [Selectors.truthy]. rewrite !get_login_key. now rewrite lookup_insert_ne.
    + intros Hnone. unfold Selectors.isLoginSuccessful. rewrite Hon. cbn [Selectors.truthy].
      rewrite get_login_key, Hnone. reflexivity.
  - intros Hoff.
    assert (Hfalsy : Selectors.truthy
                       (Selectors.isTwoFactorEnabled (Selectors.with_login login)) = false).
    { destruct (isTwoFactorEnabled_values (Selectors.with_login login)) as [Hn|[b Hb]].
      - now rewrite Hn.
      - rewrite Hb in *. destruct b; [congruence | reflexivity]. }
    split.
    + unfold Selectors.isLoginSuccessful. rewrite Hsame by discriminate. rewrite Hfalsy.
      rewrite !get_login_key. now rewrite lookup_insert_ne.
    + intros Hnone. unfold Selectors.isLoginSuccessful. rewrite Hfalsy.
      rewrite get_login_key, Hnone. reflexivity.
Qed.

(** ** The set-up without the user bootstrap *)

(** X19. With the user bootstrap switched off the cookie makes no
    difference: the logged-in set-up does exactly what the logged-out
    set-up does, so the gate gives the same outcome for a request
    with the cookie and for the same request without it. *)
Theorem X19_bootstrap_off_ignores_cookie (E : Env) (req : Request) (res : Response)
    (w : World) :
  wpcom_user_bootstrap (config E) = false ->
  static_files_ok (config E) w ->
  setUpLoggedInRoute E req res w = setUpLoggedOutRoute E req res w /\
  setUpRoute E req res w = setUpLoggedOutRoute E req res w /\
  user_calls (trace (o_world (setUpRoute E req res w))) = user_calls (trace w).
Proof.
  intros Hboot Hok.
  assert (Hsame : setUpLoggedInRoute E req res w = setUpLoggedOutRoute E req res w).
  { destruct (getDefaultContext_total E req w Hok) as (ctx & Hg & _).
    unfold setUpLoggedInRoute, setUpLoggedOutRoute. now rewrite Hg, Hboot. }
  assert (Hgate : setUpRoute E req res w = setUpLoggedOutRoute E req res w).
  { destruct (has_login_cookie req) eqn:Hc.
    - now rewrite setUpRoute_logged_in.
    - now rewrite setUpRoute_logged_out. }
  split; [exact Hsame|]. split; [exact Hgate|].
  rewrite Hgate. apply setUpLoggedOutRoute_user_calls.
Qed.

(** ** These properties on the example server *)

Lemma X1_witness :
  params upgrade_request !! "site" = Some "123" /\
  params upgrade_request !! "section" = Some "upgrade" /\
  mem_string "upgrade" legacy_sections = true /\
  "123" <> EmptyString /\
  string_forallb is_site_char "123" = true /\
  originalUrl upgrade_request = "/sites/" ++ "123" ++ "/" ++ "upgrade" ++ EmptyString /\
  ends_word EmptyString = true /\
  exists target,
    body (o_res (legacyRewriter demo_env upgrade_request fresh_response demo_world))
    = Some (Redirect target) /\ target = "/upgrade/123".
Proof.
  assert (H1 : params upgrade_request !! "site" = Some "123") by reflexivity.
  assert (H2 : params upgrade_request !! "section" = Some "upgrade") by reflexivity.
  assert (H3 : mem_string "upgrade" legacy_sections = true) by reflexivity.
  assert (H4 : "123" <> EmptyString) by discriminate.
  assert (H5 : string_forallb is_site_char "123" = true) by reflexivity.
  assert (H6 : originalUrl upgrade_request
               = "/sites/" ++ "123" ++ "/" ++ "upgrade" ++ EmptyString) by reflexivity.
  assert (H7 : ends_word EmptyString = true) by reflexivity.
  refine (conj H1 (conj H2 (conj H3 (conj H4 (conj H5 (conj H6 (conj H7 _))))))).
  destruct (X1_rewriter_redirect_leaves_sites demo_env upgrade_request fresh_response
              demo_world "123" "upgrade" EmptyString H1 H2 H3 H4 H5 H6 H7)
    as (target & Hb & Ht & _).
  exists target. split; [exact Hb|]. rewrite Ht. reflexivity.
Defined.

Lemma X3_witness :
  static_files_ok (config demo_env) demo_world /\
  exists ctx app,
    fst (getDefaultContext demo_env (stats_request None) demo_world) = Some ctx /\
    ctx !! "app" = Some (VApp app) /\
    clientIp app = Some "10.0.0.1".
Proof.
  assert (H1 : static_files_ok (config demo_env) demo_world) by reflexivity.
  split; [exact H1|].
  destruct (X3_context_app demo_env (stats_request None) demo_world H1)
    as (ctx & app & Hc & Ha & Hip & _).
  exists ctx, app. split; [exact Hc|]. split; [exact Ha|].
  apply (Hip "10.0.0.1"). reflexivity.
Defined.


Lemma X5_witness :
  JS.truthy (asset_name commons_chunk) = false /\
  asset_url commons_chunk = "/calypso/" ++ "commons" ++ "." ++ "abc123.js" /\
  "commons" <> EmptyString /\
  string_forallb JS.is_word "commons" = true /\
  JS.after_dot_star "abc123.js" = EmptyString /\
  asset_key commons_chunk = "_commons" /\
  add_asset production ∅ commons_chunk !! "_commons" = Some "/calypso/commons.abc123.js".
Proof.
  assert (H1 : JS.truthy (asset_name commons_chunk) = false) by reflexivity.
  assert (H2 : asset_url commons_chunk = "/calypso/" ++ "commons" ++ "." ++ "abc123.js")
    by reflexivity.
  assert (H3 : "commons" <> EmptyString) by discriminate.
  assert (H4 : string_forallb JS.is_word "commons" = true) by reflexivity.
  assert (H5 : JS.after_dot_star "abc123.js" = EmptyString) by reflexivity.
  refine (conj H1 (conj H2 (conj H3 (conj H4 (conj H5 _))))).
  destruct (X5_unnamed_chunk_key production ∅ commons_chunk "commons" "abc123.js"
              H1 H2 H3 H4 H5) as (Hkey & Hstored & _).
  split; [exact Hkey|]. apply Hstored. discriminate.
Defined.

Lemma X6_witness :
  JS.truthy (asset_name manifest_file) = false /\
  JS.split_first "/calypso/" (asset_url manifest_file) = None /\
  asset_key manifest_file = "/static/manifest.json".
Proof.
  assert (H1 : JS.truthy (asset_name manifest_file) = false) by reflexivity.
  assert (H2 : JS.split_first "/calypso/" (asset_url manifest_file) = None) by reflexivity.
  refine (conj H1 (conj H2 _)).
  apply (X6_unnamed_asset_without_base manifest_file H1 H2).
Defined.

Lemma X7_witness :
  static_files_ok (config demo_env) demo_world /\
  fst (generateStaticUrls demo_env (stats_request None) demo_world) = Some demo_urls /\
  In "style.css" (staticFile_paths (config demo_env)) /\
  ~ In "style.css" (asset_keys (assets (stats_request None))) /\
  exists h, demo_urls !! "style.css"
            = Some ("/calypso/" ++ "style.css" ++ "?" ++ qs_stringify demo_env [("v", QStr h)]).
Proof.
  assert (H1 : static_files_ok (config demo_env) demo_world) by reflexivity.
  assert (H2 : fst (generateStaticUrls demo_env (stats_request None) demo_world)
               = Some demo_urls) by (vm_compute; reflexivity).
  assert (H3 : In "style.css" (staticFile_paths (config demo_env))) by (left; reflexivity).
  assert (H4 : ~ In "style.css" (asset_keys (assets (stats_request None)))).
  { simpl. intros [H|[H|[]]]; discriminate H. }
  refine (conj H1 (conj H2 (conj H3 (conj H4 _)))).
  destruct (X7_static_url_carries_token demo_env (stats_request None) demo_world demo_urls
              "style.css" H1 H2 H3 H4) as (h & _ & _ & Hurl).
  exists h. exact Hurl.
Defined.

Lemma X8_witness :
  env (config dev_env) = "development" /\
  static_files_ok (config dev_env) dev_world /\
  fst (generateStaticUrls dev_env (stats_request None) dev_world) = Some dev_urls /\
  In build_asset (assets (stats_request None)) /\
  ~ In (asset_key build_asset ++ "-min") (List.map asset_key (assets (stats_request None))) /\
  asset_key build_asset <> "vendor" /\
  ~ In (asset_key build_asset ++ "-min") (staticFile_paths (config dev_env)) /\
  dev_urls !! "build-min" = None.
Proof.
  assert (H1 : env (config dev_env) = "development") by reflexivity.
  assert (H2 : static_files_ok (config dev_env) dev_world) by reflexivity.
  assert (H3 : fst (generateStaticUrls dev_env (stats_request None) dev_world)
               = Some dev_urls) by (vm_compute; reflexivity).
  assert (H4 : In build_asset (assets (stats_request None))) by (left; reflexivity).
  assert (H5 : ~ In (asset_key build_asset ++ "-min")
                 (List.map asset_key (assets (stats_request None)))).
  { simpl. intros [H|[]]. discriminate H. }
  assert (H6 : asset_key build_asset <> "vendor") by discriminate.
  assert (H7 : ~ In (asset_key build_asset ++ "-min") (staticFile_paths (config dev_env))).
  { simpl. intros H. repeat (destruct H as [H|H]; [discriminate H|]). exact H. }
  refine (conj H1 (conj H2 (conj H3 (conj H4 (conj H5 (conj H6 (conj H7 _))))))).
  apply (X8_development_has_no_min dev_env (stats_request None) dev_world dev_urls
           build_asset H1 H2 H3 H4 H5 H6 H7).
Defined.

Lemma X9_witness :
  static_files_ok (config demo_env) demo_world /\
  wpcom_user_bootstrap (config demo_env) = true /\
  has_login_cookie (stats_request (Some "alice%7C1234")) = true /\
  user_calls (trace (o_world (setUpLoggedInRoute demo_env (stats_request (Some "alice%7C1234"))
                                fresh_response demo_world))) = 1%nat.
Proof.
  assert (H1 : static_files_ok (config demo_env) demo_world) by reflexivity.
  assert (H2 : wpcom_user_bootstrap (config demo_env) = true) by reflexivity.
  assert (H3 : has_login_cookie (stats_request (Some "alice%7C1234")) = true) by reflexivity.
  refine (conj H1 (conj H2 (conj H3 _))).
  destruct (X9_one_identity_call demo_env (stats_request (Some "alice%7C1234"))
              fresh_response demo_world H1 H2 H3) as (Hcalls & _).
  rewrite Hcalls. reflexivity.
Defined.

Lemma X10_witness :
  static_files_ok (config demo_env) demo_world /\
  wpcom_user_bootstrap (config demo_env) = true /\
  has_login_cookie (stats_request (Some "alice%7C1234")) = true /\
  user_bootstrap demo_env (header_Cookie (stats_request (Some "alice%7C1234")))
    = ReplyData french_user /\
  path (stats_request (Some "alice%7C1234")) <> "/" /\
  context (o_req (setUpLoggedInRoute demo_env (stats_request (Some "alice%7C1234"))
                    fresh_response demo_world)) !! "lang" = Some (VStr "fr").
Proof.
  assert (H1 : static_files_ok (config demo_env) demo_world) by reflexivity.
  assert (H2 : wpcom_user_bootstrap (config demo_env) = true) by reflexivity.
  assert (H3 : has_login_cookie (stats_request (Some "alice%7C1234")) = true) by reflexivity.
  assert (H4 : user_bootstrap demo_env (header_Cookie (stats_request (Some "alice%7C1234")))
               = ReplyData french_user) by reflexivity.
  assert (H5 : path (stats_request (Some "alice%7C1234")) <> "/") by discriminate.
  refine (conj H1 (conj H2 (conj H3 (conj H4 (conj H5 _))))).
  destruct (X10_resolved_request_proceeds demo_env (stats_request (Some "alice%7C1234"))
              fresh_response demo_world french_user H1 H2 H3 H4 H5)
    as (_ & _ & _ & _ & _ & Hlang & _).
  rewrite Hlang. reflexivity.
Defined.

Lemma X11_witness :
  static_files_ok (config demo_env) demo_world /\
  wpcom_user_bootstrap (config demo_env) = true /\
  has_login_cookie search_request = true /\
  user_bootstrap demo_env (header_Cookie search_request) = ReplyData french_user /\
  path search_request = "/" /\
  body (o_res (setUpLoggedInRoute demo_env search_request fresh_response demo_world))
  = Some (Redirect "https://fr.search.wordpress.com/?q=hello").
Proof.
  assert (H1 : static_files_ok (config demo_env) demo_world) by reflexivity.
  assert (H2 : wpcom_user_bootstrap (config demo_env) = true) by reflexivity.
  assert (H3 : has_login_cookie search_request = true) by reflexivity.
  assert (H4 : user_bootstrap demo_env (header_Cookie search_request) = ReplyData french_user)
    by reflexivity.
  assert (H5 : path search_request = "/") by reflexivity.
  refine (conj H1 (conj H2 (conj H3 (conj H4 (conj H5 _))))).
  destruct (X11_root_redirect_order demo_env search_request fresh_response demo_world
              french_user H1 H2 H3 H4 H5) as (Hs & _).
  rewrite (Hs eq_refl). reflexivity.
Defined.



Lemma X14_witness :
  static_files_ok (config demo_env) demo_world /\
  status (o_res (render404 demo_env (get "/nowhere" None [] []) fresh_response demo_world))
  = 404%Z.
Proof.
  assert (H1 : static_files_ok (config demo_env) demo_world) by reflexivity.
  split; [exact H1|].
  apply (X14_not_found_page demo_env (get "/nowhere" None [] []) fresh_response demo_world H1).
Defined.

Lemma X15_witness :
  own_routes demo_routes /\
  static_files_ok production
    (o_world (dispatch demo_env demo_routes (stats_request None) fresh_response demo_world)).
Proof.
  assert (H1 : own_routes demo_routes).
  { unfold own_routes. vm_compute. repeat constructor. }
  split; [exact H1|].
  destruct (X15_cache_only_grows demo_env demo_routes (stats_request None) fresh_response
              demo_world H1) as [_ Hok].
  apply Hok. reflexivity.
Defined.

Lemma X19_witness :
  wpcom_user_bootstrap (config no_bootstrap_env) = false /\
  static_files_ok (config no_bootstrap_env) demo_world /\
  setUpRoute no_bootstrap_env (stats_request (Some "alice%7C1234")) fresh_response demo_world
  = setUpLoggedOutRoute no_bootstrap_env (stats_request (Some "alice%7C1234"))
      fresh_response demo_world.
Proof.
  assert (H1 : wpcom_user_bootstrap (config no_bootstrap_env) = false) by reflexivity.
  assert (H2 : static_files_ok (config no_bootstrap_env) demo_world) by reflexivity.
  refine (conj H1 (conj H2 _)).
  apply (X19_bootstrap_off_ignores_cookie no_bootstrap_env
           (stats_request (Some "alice%7C1234")) fresh_response demo_world H1 H2).
Defined.
